(** * PathForge: the curriculum engine of [backend/ai_engine.py]

    A shallow embedding of the rule-based core of the learning-path
    service: the gap and proficiency analyser, the curriculum builder
    with its hand-authored catalogue, the sequencer, the time estimator,
    the recommender with its weekly scheduler, and the adaptive engine.

    Conventions of the embedding.
    - Python [str] is [string]; [lower] folds the ASCII letters only,
      which covers every string of the catalogue.
    - Python dictionaries with a fixed set of keys are records; a key
      that the code reads with [.get(key, default)] is an [option]
      field, [None] standing for the absent key.  Small dictionaries
      that are only built and returned are association lists.
    - Python numbers that may be fractional are exact rationals ([Q]);
      [int(x)] is truncation towards zero and [round(x, 1)] is rounding
      to the nearest tenth, ties to even.  The binary rounding error of
      a [float] is not part of the model; the per-topic estimate, which
      takes finitely many values, is checked a second time on IEEE
      binary64 numbers ([PyFloat]).
    - [random.randint] is an explicit source of draws threaded through
      the estimator; the wall clock and the calendar are a parameter of
      the completion-date predictor. *)

From Stdlib Require Import Bool Arith ZArith QArith Qround Lia List.
From Stdlib Require Import Ascii String DecimalString Sorted.
From Stdlib Require Floats Uint63.
Import ListNotations.

Open Scope nat_scope.
Open Scope string_scope.
Open Scope list_scope.

(* ================================================================= *)
(** ** Python strings and lists of strings *)

Module PyStr.

(** [c.lower()] for one ASCII character. *)
Definition lower_ascii (c : ascii) : ascii :=
  let n := nat_of_ascii c in
  if (65 <=? n)%nat && (n <=? 90)%nat then ascii_of_nat (n + 32) else c.

(** [s.lower()]. *)
Fixpoint lower (s : string) : string :=
  match s with
  | EmptyString => EmptyString
  | String c s' => String (lower_ascii c) (lower s')
  end.

(** [s.replace(a, b)] for single-character [a] and [b]. *)
Fixpoint replace (a b : ascii) (s : string) : string :=
  match s with
  | EmptyString => EmptyString
  | String c s' => String (if Ascii.eqb c a then b else c) (replace a b s')
  end.

(** [sub in s] on strings: [sub] occurs in [s] as a contiguous run. *)
Fixpoint contains (sub s : string) : bool :=
  String.prefix sub s ||
  match s with
  | EmptyString => false
  | String _ s' => contains sub s'
  end.

(** [x in l] on a list of strings. *)
Definition mem (x : string) (l : list string) : bool :=
  existsb (String.eqb x) l.

(** [str(n)] for an integer. *)
Definition of_Z (n : Z) : string :=
  NilZero.string_of_int (Z.to_int n).

End PyStr.

(* ================================================================= *)
(** ** Python numbers *)

Module PyNum.

Open Scope Q_scope.

(** [int(x)]: truncation towards zero. *)
Definition int (x : Q) : Z := Z.quot (Qnum x) (Zpos (Qden x)).

(** Rounding to the nearest integer, ties to the even neighbour. *)
Definition round_half_even (x : Q) : Z :=
  let f := Qfloor x in
  match Qcompare (x - inject_Z f)%Q (1 # 2)%Q with
  | Lt => f
  | Gt => (f + 1)%Z
  | Eq => if Z.even f then f else (f + 1)%Z
  end.

(** [round(x, 1)]. *)
Definition round1 (x : Q) : Q :=
  inject_Z (round_half_even (x * 10)) / 10.

(** [round(x, 2)]. *)
Definition round2 (x : Q) : Q :=
  inject_Z (round_half_even (x * 100)) / 100.

(** [x <= y], [x < y] and [x == y] as Python evaluates them. *)
Definition leb (x y : Q) : bool := Qle_bool x y.
Definition ltb (x y : Q) : bool := negb (Qle_bool y x).
Definition eqb (x y : Q) : bool := Qeq_bool x y.

(** [sum(l)]. *)
Definition sum (l : list Q) : Q := fold_left Qplus l 0.

End PyNum.

(* ================================================================= *)
(** ** Python floats, for the finite checks *)

Module PyFloat.

(** [float(n)] for an integer [0 <= n < 2^53]. *)
Definition of_Z (n : Z) : PrimFloat.float :=
  PrimFloat.of_uint63 (Uint63.of_Z n).

(** The float literal whose decimal value is [n / d]: the division is
    correctly rounded, as the reading of a literal is. *)
Definition ratio (n d : Z) : PrimFloat.float :=
  PrimFloat.div (of_Z n) (of_Z d).

(** The exact value of a finite float. *)
Definition to_Q (x : PrimFloat.float) : Q :=
  match FloatOps.Prim2SF x with
  | SpecFloat.S754_finite s m e =>
      let v := if (0 <=? e)%Z then inject_Z (Zpos m * 2 ^ e)
               else Qmake (Zpos m) (Z.to_pos (2 ^ (- e))) in
      if s then Qopp v else v
  | _ => 0%Q
  end.

(** [round(x, 1)] for a float [x >= 0]: the exact value is rounded to
    the nearest tenth, ties to even, and the tenth is read back as a
    float. *)
Definition round1 (x : PrimFloat.float) : PrimFloat.float :=
  ratio (PyNum.round_half_even (to_Q x * 10)%Q) 10.

End PyFloat.

(* ================================================================= *)
(** ** The curriculum document *)

(** A topic dictionary.  [locked] and [estimated_hours] are the derived
    keys, absent until the sequencer and the estimator have run; the
    [resources] key written by the enricher is read by none of the
    operations below and is left out. *)
Module Topic.
Record t : Type := mk {
  id : string;
  title : string;
  description : string;
  prerequisites : option (list string);
  subtopics : list string;
  locked : option bool;
  estimated_hours : option Q
}.

Definition set_locked (b : bool) (x : t) : t :=
  mk (id x) (title x) (description x) (prerequisites x) (subtopics x)
     (Some b) (estimated_hours x).

Definition set_estimated_hours (h : Q) (x : t) : t :=
  mk (id x) (title x) (description x) (prerequisites x) (subtopics x)
     (locked x) (Some h).
End Topic.

(** A module dictionary. *)
Module Mod.
Record t : Type := mk {
  id : string;
  title : string;
  description : string;
  order : Z;
  difficulty : string;
  topics : list Topic.t;
  estimated_hours : option Q;
  estimated_days : option Z
}.

Definition set_topics (ts : list Topic.t) (m : t) : t :=
  mk (id m) (title m) (description m) (order m) (difficulty m) ts
     (estimated_hours m) (estimated_days m).

Definition set_estimates (h : Q) (d : Z) (m : t) : t :=
  mk (id m) (title m) (description m) (order m) (difficulty m) (topics m)
     (Some h) (Some d).
End Mod.

(** The curriculum dictionary. *)
Module Curriculum.
Record t : Type := mk {
  title : string;
  description : string;
  target_role : string;
  difficulty : string;
  modules : list Mod.t;
  total_estimated_weeks : option Z;
  total_estimated_hours : option Q
}.

Definition set_modules (ms : list Mod.t) (c : t) : t :=
  mk (title c) (description c) (target_role c) (difficulty c) ms
     (total_estimated_weeks c) (total_estimated_hours c).

Definition set_title_role (ti ro : string) (c : t) : t :=
  mk ti (description c) ro (difficulty c) (modules c)
     (total_estimated_weeks c) (total_estimated_hours c).

Definition set_totals (w : Z) (h : Q) (c : t) : t :=
  mk (title c) (description c) (target_role c) (difficulty c) (modules c)
     (Some w) (Some h).

(** Every topic of the curriculum, in scan order, with its module. *)
Definition scan (c : t) : list (Mod.t * Topic.t) :=
  flat_map (fun m => map (fun x => (m, x)) (Mod.topics m)) (modules c).

Definition all_topics (c : t) : list Topic.t :=
  flat_map Mod.topics (modules c).
End Curriculum.

(** A topic literal as the catalogue writes it. *)
Definition new_topic (i ti de : string) (pre sub : list string) : Topic.t :=
  Topic.mk i ti de (Some pre) sub None None.

(** A module literal as the catalogue writes it. *)
Definition new_module (i ti de : string) (o : Z) (di : string)
    (ts : list Topic.t) : Mod.t :=
  Mod.mk i ti de o di ts None None.

(** The three skill lists of one track of the taxonomy. *)
Record tiers : Type := {
  beginner : list string;
  intermediate : list string;
  advanced : list string
}.

(* ================================================================= *)
(** ** The catalogue: skill taxonomy and curriculum modules *)

Module Catalogue.

Open Scope Z_scope.

Definition frontend_skills : tiers :=
  {| beginner := ["HTML"; "CSS"; "JavaScript Basics"; "Git"];
     intermediate := ["React"; "CSS Frameworks"; "Responsive Design"; "APIs"];
     advanced := ["State Management"; "Performance Optimization"; "Testing"; "Build Tools"] |}.

Definition backend_skills : tiers :=
  {| beginner := ["Python Basics"; "HTTP"; "Databases"; "Git"];
     intermediate := ["Flask/Django"; "REST APIs"; "SQL Advanced"; "Authentication"];
     advanced := ["Microservices"; "Caching"; "Message Queues"; "DevOps"] |}.

Definition fullstack_skills : tiers :=
  {| beginner := ["HTML"; "CSS"; "JavaScript"; "Python"; "Git"];
     intermediate := ["React"; "Node.js/Flask"; "Databases"; "REST APIs"];
     advanced := ["System Design"; "Cloud Deployment"; "CI/CD"; "Security"] |}.

Definition data_science_skills : tiers :=
  {| beginner := ["Python"; "Statistics"; "Pandas"; "NumPy"];
     intermediate := ["Machine Learning"; "Data Visualization"; "SQL"; "Feature Engineering"];
     advanced := ["Deep Learning"; "MLOps"; "Big Data"; "Model Deployment"] |}.

Definition mobile_skills : tiers :=
  {| beginner := ["Programming Basics"; "UI/UX Principles"; "Git"];
     intermediate := ["React Native/Flutter"; "State Management"; "APIs"; "Native Features"];
     advanced := ["Performance"; "App Store Deployment"; "Push Notifications"; "Offline Support"] |}.

Definition devops_skills : tiers :=
  {| beginner := ["Linux"; "Networking"; "Git"; "Scripting"];
     intermediate := ["Docker"; "CI/CD"; "Cloud Platforms"; "Monitoring"];
     advanced := ["Kubernetes"; "Infrastructure as Code"; "Security"; "Cost Optimization"] |}.

Definition fullstack_beginner_modules : list Mod.t :=
  [ new_module "module_1" "Programming Fundamentals"
      "Core programming concepts and problem-solving"
      1 "beginner"
      [ new_topic "topic_1_1" "Introduction to Programming"
          "Variables, data types, and basic operations"
          []
          ["Variables"; "Data Types"; "Operators"; "Input/Output"];
        new_topic "topic_1_2" "Control Structures"
          "If statements, loops, and logical thinking"
          ["Introduction to Programming"]
          ["Conditionals"; "For Loops"; "While Loops"; "Break & Continue"];
        new_topic "topic_1_3" "Functions and Scope"
          "Creating reusable code blocks"
          ["Control Structures"]
          ["Function Basics"; "Parameters"; "Return Values"; "Scope"];
        new_topic "topic_1_4" "Data Structures Basics"
          "Arrays, lists, and dictionaries"
          ["Functions and Scope"]
          ["Arrays"; "Lists"; "Objects"; "Iteration"];
        new_topic "topic_1_5" "Version Control with Git"
          "Managing code with Git and GitHub"
          []
          ["Git Basics"; "Commits"; "Branches"; "GitHub"] ];
    new_module "module_2" "Frontend Development"
      "Building user interfaces with HTML, CSS, and JavaScript"
      2 "beginner"
      [ new_topic "topic_2_1" "HTML5 Fundamentals"
          "Structure web content with semantic HTML"
          []
          ["HTML Elements"; "Semantic HTML"; "Forms"; "Accessibility"];
        new_topic "topic_2_2" "CSS3 Styling"
          "Style and layout web pages"
          ["HTML5 Fundamentals"]
          ["Selectors"; "Box Model"; "Flexbox"; "Grid"; "Responsive Design"];
        new_topic "topic_2_3" "JavaScript for Web"
          "Make websites interactive"
          ["CSS3 Styling"; "Functions and Scope"]
          ["DOM Manipulation"; "Events"; "Form Validation"; "Async JavaScript"];
        new_topic "topic_2_4" "Modern CSS"
          "Advanced styling techniques"
          ["CSS3 Styling"]
          ["Animations"; "Transitions"; "Custom Properties"; "CSS Architecture"] ];
    new_module "module_3" "React Framework"
      "Build dynamic UIs with React"
      3 "intermediate"
      [ new_topic "topic_3_1" "React Fundamentals"
          "Components, props, and JSX"
          ["JavaScript for Web"]
          ["Components"; "Props"; "JSX"; "Rendering"];
        new_topic "topic_3_2" "State Management"
          "Managing component state"
          ["React Fundamentals"]
          ["useState"; "useEffect"; "Lifting State"; "Context API"];
        new_topic "topic_3_3" "React Router"
          "Navigation in React apps"
          ["State Management"]
          ["Routes"; "Navigation"; "Parameters"; "Protected Routes"];
        new_topic "topic_3_4" "API Integration"
          "Fetching and displaying data"
          ["State Management"]
          ["Fetch API"; "Axios"; "Loading States"; "Error Handling"] ];
    new_module "module_4" "Backend Development with Python"
      "Server-side programming and APIs"
      4 "intermediate"
      [ new_topic "topic_4_1" "Python Fundamentals"
          "Python syntax and core concepts"
          ["Programming Fundamentals"]
          ["Python Syntax"; "OOP Basics"; "Modules"; "Error Handling"];
        new_topic "topic_4_2" "Flask Framework"
          "Building web applications with Flask"
          ["Python Fundamentals"]
          ["Routes"; "Templates"; "Request/Response"; "Blueprints"];
        new_topic "topic_4_3" "RESTful API Design"
          "Creating and documenting APIs"
          ["Flask Framework"]
          ["REST Principles"; "HTTP Methods"; "Status Codes"; "JSON"];
        new_topic "topic_4_4" "Database Integration"
          "Working with databases"
          ["Flask Framework"]
          ["SQL Basics"; "SQLAlchemy"; "CRUD Operations"; "Relationships"];
        new_topic "topic_4_5" "Authentication & Security"
          "Securing your applications"
          ["RESTful API Design"; "Database Integration"]
          ["JWT"; "Password Hashing"; "CORS"; "Input Validation"] ];
    new_module "module_5" "Database Management"
      "Data modeling and database operations"
      5 "intermediate"
      [ new_topic "topic_5_1" "SQL Fundamentals"
          "Querying relational databases"
          []
          ["SELECT Queries"; "JOINs"; "Aggregations"; "Subqueries"];
        new_topic "topic_5_2" "Database Design"
          "Schema design and normalization"
          ["SQL Fundamentals"]
          ["ER Diagrams"; "Normalization"; "Indexes"; "Constraints"];
        new_topic "topic_5_3" "NoSQL Databases"
          "Document databases and MongoDB"
          ["Database Design"]
          ["MongoDB Basics"; "Collections"; "Queries"; "Aggregation"];
        new_topic "topic_5_4" "Database Optimization"
          "Performance tuning"
          ["Database Design"]
          ["Query Optimization"; "Indexing Strategies"; "Caching"; "Transactions"] ];
    new_module "module_6" "Full Stack Integration"
      "Connecting frontend and backend"
      6 "advanced"
      [ new_topic "topic_6_1" "Frontend-Backend Communication"
          "Connecting React to Flask API"
          ["API Integration"; "RESTful API Design"]
          ["API Calls"; "State Management"; "Error Handling"; "Loading States"];
        new_topic "topic_6_2" "File Upload & Management"
          "Handling files in full stack apps"
          ["Frontend-Backend Communication"]
          ["Multer/FormData"; "File Storage"; "Image Processing"; "Cloud Storage"];
        new_topic "topic_6_3" "Real-time Features"
          "WebSockets and live updates"
          ["Frontend-Backend Communication"]
          ["WebSockets"; "Socket.io"; "Real-time Notifications"; "Chat Features"];
        new_topic "topic_6_4" "Testing Full Stack Apps"
          "Unit and integration testing"
          ["Frontend-Backend Communication"]
          ["Jest"; "Pytest"; "Integration Tests"; "E2E Testing"] ];
    new_module "module_7" "Deployment & DevOps"
      "Deploy applications to production"
      7 "advanced"
      [ new_topic "topic_7_1" "Cloud Platforms"
          "Deploy to cloud services"
          ["Full Stack Integration"]
          ["Heroku"; "AWS"; "DigitalOcean"; "Vercel/Netlify"];
        new_topic "topic_7_2" "Docker Containerization"
          "Package apps with Docker"
          ["Cloud Platforms"]
          ["Docker Basics"; "Dockerfile"; "Docker Compose"; "Container Management"];
        new_topic "topic_7_3" "CI/CD Pipelines"
          "Automate deployment"
          ["Docker Containerization"]
          ["GitHub Actions"; "Automated Testing"; "Deployment Automation"; "Rollbacks"];
        new_topic "topic_7_4" "Monitoring & Logging"
          "Application monitoring"
          ["CI/CD Pipelines"]
          ["Error Tracking"; "Performance Monitoring"; "Logging"; "Analytics"] ];
    new_module "module_8" "Capstone Project"
      "Build a complete full stack application"
      8 "advanced"
      [ new_topic "topic_8_1" "Project Planning"
          "Design your application"
          ["Deployment & DevOps"]
          ["Requirements"; "Database Schema"; "API Design"; "UI Mockups"];
        new_topic "topic_8_2" "Backend Implementation"
          "Build the server and database"
          ["Project Planning"]
          ["API Endpoints"; "Database Models"; "Authentication"; "Business Logic"];
        new_topic "topic_8_3" "Frontend Implementation"
          "Build the user interface"
          ["Project Planning"]
          ["Components"; "State Management"; "API Integration"; "Styling"];
        new_topic "topic_8_4" "Testing & Deployment"
          "Test and deploy your app"
          ["Backend Implementation"; "Frontend Implementation"]
          ["Testing"; "Bug Fixes"; "Optimization"; "Production Deployment"] ] ].

Definition fullstack_advanced_modules : list Mod.t :=
  [ new_module "module_1" "Advanced React Patterns"
      "Advanced React techniques"
      1 "advanced"
      [ new_topic "topic_1_1" "Custom Hooks"
          "Create reusable logic"
          []
          [];
        new_topic "topic_1_2" "Context & Performance"
          "Optimize React apps"
          ["Custom Hooks"]
          [];
        new_topic "topic_1_3" "Advanced State Management"
          "Redux, Zustand, Jotai"
          ["Context & Performance"]
          [] ] ].

Definition frontend_modules : list Mod.t :=
  [ new_module "module_1" "HTML & CSS Mastery"
      "Master modern HTML and CSS"
      1 "beginner"
      [ new_topic "topic_1_1" "Semantic HTML5"
          "Modern HTML structure"
          []
          ["Elements"; "Accessibility"; "SEO"];
        new_topic "topic_1_2" "Advanced CSS"
          "Flexbox, Grid, Animations"
          ["Semantic HTML5"]
          ["Flexbox"; "Grid"; "Animations"; "Responsive"];
        new_topic "topic_1_3" "CSS Preprocessors"
          "SASS/SCSS"
          ["Advanced CSS"]
          ["Variables"; "Mixins"; "Nesting"] ] ].

Definition backend_beginner_modules : list Mod.t :=
  [ new_module "module_1" "Programming Fundamentals"
      "Core programming concepts with Python"
      1 "beginner"
      [ new_topic "topic_1_1" "Python Basics"
          "Variables, data types, and operations"
          []
          ["Variables"; "Data Types"; "Operators"; "Input/Output"];
        new_topic "topic_1_2" "Control Flow"
          "Conditionals and loops"
          ["Python Basics"]
          ["If/Else"; "For Loops"; "While Loops"; "Break/Continue"];
        new_topic "topic_1_3" "Functions & Modules"
          "Creating reusable code"
          ["Control Flow"]
          ["Functions"; "Parameters"; "Return Values"; "Modules"];
        new_topic "topic_1_4" "Data Structures"
          "Lists, dictionaries, and sets"
          ["Functions & Modules"]
          ["Lists"; "Dictionaries"; "Sets"; "Tuples"] ];
    new_module "module_2" "Web Fundamentals"
      "Understanding HTTP and web protocols"
      2 "beginner"
      [ new_topic "topic_2_1" "HTTP Basics"
          "Understanding HTTP protocol"
          []
          ["HTTP Methods"; "Status Codes"; "Headers"; "Request/Response"];
        new_topic "topic_2_2" "REST API Concepts"
          "RESTful architecture principles"
          ["HTTP Basics"]
          ["REST Principles"; "Resources"; "Endpoints"; "Stateless Design"] ];
    new_module "module_3" "Flask Framework"
      "Building web applications with Flask"
      3 "intermediate"
      [ new_topic "topic_3_1" "Flask Basics"
          "Setting up Flask applications"
          ["Web Fundamentals"]
          ["Routes"; "Templates"; "Request/Response"; "Flask App Structure"];
        new_topic "topic_3_2" "RESTful API Development"
          "Creating APIs with Flask"
          ["Flask Basics"]
          ["API Endpoints"; "JSON Responses"; "Error Handling"; "API Documentation"];
        new_topic "topic_3_3" "Request Validation"
          "Validating and sanitizing inputs"
          ["RESTful API Development"]
          ["Input Validation"; "Data Sanitization"; "Error Messages"; "Security"] ];
    new_module "module_4" "Database Integration"
      "Working with databases"
      4 "intermediate"
      [ new_topic "topic_4_1" "SQL Fundamentals"
          "Querying relational databases"
          []
          ["SELECT Queries"; "JOINs"; "Aggregations"; "Subqueries"];
        new_topic "topic_4_2" "SQLAlchemy ORM"
          "Object-Relational Mapping"
          ["SQL Fundamentals"]
          ["Models"; "Sessions"; "Queries"; "Relationships"];
        new_topic "topic_4_3" "Database Design"
          "Schema design and normalization"
          ["SQLAlchemy ORM"]
          ["ER Diagrams"; "Normalization"; "Indexes"; "Constraints"] ];
    new_module "module_5" "Authentication & Security"
      "Securing backend applications"
      5 "intermediate"
      [ new_topic "topic_5_1" "Password Security"
          "Hashing and storing passwords"
          ["Database Integration"]
          ["Password Hashing"; "bcrypt"; "Salt"; "Best Practices"];
        new_topic "topic_5_2" "JWT Authentication"
          "Token-based authentication"
          ["Password Security"]
          ["JWT Basics"; "Token Generation"; "Token Verification"; "Refresh Tokens"];
        new_topic "topic_5_3" "API Security"
          "Protecting APIs"
          ["JWT Authentication"]
          ["CORS"; "Rate Limiting"; "Input Validation"; "SQL Injection Prevention"] ];
    new_module "module_6" "Advanced Backend Topics"
      "Scaling and optimization"
      6 "advanced"
      [ new_topic "topic_6_1" "Caching Strategies"
          "Improving performance with caching"
          ["API Security"]
          ["Redis"; "Cache Patterns"; "Cache Invalidation"; "Performance"];
        new_topic "topic_6_2" "Message Queues"
          "Asynchronous task processing"
          ["Caching Strategies"]
          ["RabbitMQ"; "Celery"; "Task Queues"; "Background Jobs"];
        new_topic "topic_6_3" "Microservices Architecture"
          "Building distributed systems"
          ["Message Queues"]
          ["Service Design"; "API Gateway"; "Service Communication"; "Deployment"] ] ].

Definition backend_advanced_modules : list Mod.t :=
  [ new_module "module_1" "Advanced Backend Patterns"
      "Advanced backend development techniques"
      1 "advanced"
      [ new_topic "topic_1_1" "Design Patterns"
          "Backend design patterns"
          []
          ["Singleton"; "Factory"; "Observer"; "Strategy"];
        new_topic "topic_1_2" "Performance Optimization"
          "Optimizing backend performance"
          ["Design Patterns"]
          ["Profiling"; "Database Optimization"; "Caching"; "Load Balancing"] ] ].

Definition datascience_beginner_modules : list Mod.t :=
  [ new_module "module_1" "Python for Data Science"
      "Python fundamentals for data analysis"
      1 "beginner"
      [ new_topic "topic_1_1" "Python Basics"
          "Core Python programming"
          []
          ["Variables"; "Data Types"; "Control Flow"; "Functions"];
        new_topic "topic_1_2" "NumPy Fundamentals"
          "Numerical computing with NumPy"
          ["Python Basics"]
          ["Arrays"; "Operations"; "Indexing"; "Broadcasting"];
        new_topic "topic_1_3" "Pandas Basics"
          "Data manipulation with Pandas"
          ["NumPy Fundamentals"]
          ["DataFrames"; "Series"; "Data Cleaning"; "Filtering"] ];
    new_module "module_2" "Data Analysis"
      "Analyzing and exploring data"
      2 "beginner"
      [ new_topic "topic_2_1" "Data Exploration"
          "Understanding your data"
          ["Pandas Basics"]
          ["Descriptive Statistics"; "Data Types"; "Missing Values"; "Outliers"];
        new_topic "topic_2_2" "Data Visualization"
          "Visualizing data insights"
          ["Data Exploration"]
          ["Matplotlib"; "Seaborn"; "Plot Types"; "Customization"] ];
    new_module "module_3" "Statistics Fundamentals"
      "Statistical concepts for data science"
      3 "intermediate"
      [ new_topic "topic_3_1" "Descriptive Statistics"
          "Measures of central tendency"
          []
          ["Mean"; "Median"; "Mode"; "Variance"; "Standard Deviation"];
        new_topic "topic_3_2" "Probability"
          "Probability theory basics"
          ["Descriptive Statistics"]
          ["Probability Distributions"; "Bayes Theorem"; "Random Variables"];
        new_topic "topic_3_3" "Inferential Statistics"
          "Making inferences from data"
          ["Probability"]
          ["Hypothesis Testing"; "Confidence Intervals"; "P-values"; "Statistical Tests"] ];
    new_module "module_4" "Machine Learning Basics"
      "Introduction to machine learning"
      4 "intermediate"
      [ new_topic "topic_4_1" "ML Fundamentals"
          "Core ML concepts"
          ["Statistics Fundamentals"]
          ["Supervised Learning"; "Unsupervised Learning"; "Training/Testing"; "Overfitting"];
        new_topic "topic_4_2" "Linear Regression"
          "Predicting continuous values"
          ["ML Fundamentals"]
          ["Simple Regression"; "Multiple Regression"; "Evaluation Metrics"; "Scikit-learn"];
        new_topic "topic_4_3" "Classification"
          "Predicting categories"
          ["Linear Regression"]
          ["Logistic Regression"; "Decision Trees"; "Random Forest"; "Evaluation"] ] ].

Definition datascience_advanced_modules : list Mod.t :=
  [ new_module "module_1" "Advanced Machine Learning"
      "Advanced ML techniques"
      1 "advanced"
      [ new_topic "topic_1_1" "Deep Learning"
          "Neural networks and deep learning"
          []
          ["Neural Networks"; "TensorFlow"; "Keras"; "CNNs"] ] ].

Definition mobile_beginner_modules : list Mod.t :=
  [ new_module "module_1" "Mobile Development Fundamentals"
      "Introduction to mobile app development"
      1 "beginner"
      [ new_topic "topic_1_1" "Mobile App Architecture"
          "Understanding mobile app structure"
          []
          ["App Lifecycle"; "Navigation"; "State Management"; "Platform Differences"];
        new_topic "topic_1_2" "React Native Basics"
          "Building cross-platform apps"
          ["Mobile App Architecture"]
          ["Components"; "Props"; "State"; "Styling"];
        new_topic "topic_1_3" "Navigation"
          "App navigation patterns"
          ["React Native Basics"]
          ["React Navigation"; "Stack Navigator"; "Tab Navigator"; "Deep Linking"] ];
    new_module "module_2" "State Management"
      "Managing app state"
      2 "intermediate"
      [ new_topic "topic_2_1" "Context API"
          "React Context for state"
          ["Navigation"]
          ["Context Creation"; "Providers"; "Consumers"; "Best Practices"];
        new_topic "topic_2_2" "Redux"
          "Advanced state management"
          ["Context API"]
          ["Store"; "Actions"; "Reducers"; "Middleware"] ];
    new_module "module_3" "Native Features"
      "Accessing device features"
      3 "intermediate"
      [ new_topic "topic_3_1" "Camera & Media"
          "Working with camera and media"
          ["State Management"]
          ["Camera Access"; "Image Picker"; "Video Recording"; "Media Library"];
        new_topic "topic_3_2" "Location Services"
          "GPS and location features"
          ["Camera & Media"]
          ["Geolocation"; "Maps Integration"; "Location Tracking"];
        new_topic "topic_3_3" "Push Notifications"
          "Sending notifications"
          ["Location Services"]
          ["Local Notifications"; "Remote Notifications"; "Notification Handling"] ] ].

Definition mobile_advanced_modules : list Mod.t :=
  [ new_module "module_1" "Advanced Mobile Development"
      "Advanced mobile app techniques"
      1 "advanced"
      [ new_topic "topic_1_1" "Performance Optimization"
          "Optimizing mobile apps"
          []
          ["Memory Management"; "Bundle Size"; "Rendering Optimization"] ] ].

Definition devops_beginner_modules : list Mod.t :=
  [ new_module "module_1" "Linux & Command Line"
      "Mastering the command line"
      1 "beginner"
      [ new_topic "topic_1_1" "Linux Basics"
          "Linux fundamentals"
          []
          ["File System"; "Permissions"; "Processes"; "Package Management"];
        new_topic "topic_1_2" "Shell Scripting"
          "Automating tasks with scripts"
          ["Linux Basics"]
          ["Bash Scripts"; "Variables"; "Loops"; "Functions"] ];
    new_module "module_2" "Version Control"
      "Git and version control"
      2 "beginner"
      [ new_topic "topic_2_1" "Git Fundamentals"
          "Version control basics"
          []
          ["Commits"; "Branches"; "Merging"; "Remote Repositories"];
        new_topic "topic_2_2" "Git Workflows"
          "Collaborative workflows"
          ["Git Fundamentals"]
          ["Feature Branches"; "Pull Requests"; "Code Review"; "Merge Strategies"] ];
    new_module "module_3" "Containerization"
      "Docker and containers"
      3 "intermediate"
      [ new_topic "topic_3_1" "Docker Basics"
          "Container fundamentals"
          ["Version Control"]
          ["Images"; "Containers"; "Dockerfile"; "Docker Compose"];
        new_topic "topic_3_2" "Container Orchestration"
          "Managing containers at scale"
          ["Docker Basics"]
          ["Docker Swarm"; "Kubernetes Basics"; "Pods"; "Services"] ];
    new_module "module_4" "CI/CD Pipelines"
      "Continuous integration and deployment"
      4 "intermediate"
      [ new_topic "topic_4_1" "CI/CD Concepts"
          "Understanding CI/CD"
          ["Containerization"]
          ["Continuous Integration"; "Continuous Deployment"; "Pipeline Stages"; "Best Practices"];
        new_topic "topic_4_2" "GitHub Actions"
          "Automating workflows"
          ["CI/CD Concepts"]
          ["Workflows"; "Actions"; "Secrets"; "Deployment"] ] ].

Definition devops_advanced_modules : list Mod.t :=
  [ new_module "module_1" "Advanced DevOps"
      "Advanced DevOps practices"
      1 "advanced"
      [ new_topic "topic_1_1" "Kubernetes Advanced"
          "Advanced Kubernetes"
          []
          ["Deployments"; "Services"; "Ingress"; "Helm"] ] ].

End Catalogue.

(* ================================================================= *)
(** ** class AIPathGenerator *)

(** The dictionary returned by [analyze_skill_gaps]. *)
Module SkillGaps.
Record t : Type := mk {
  missing_skills : list string;
  existing_skills : list string;
  total_required : nat;
  completion_percentage : Q
}.
End SkillGaps.

(** A resource descriptor, as [fetch_resources_for_topic] builds it. *)
Module Resource.
Record t : Type := mk {
  type : string;
  title : string;
  url : string;
  duration : string;
  platform : string
}.
End Resource.

(** The [user_data] dictionary of [generate_personalized_path]; every
    key is read with [user_data[key]], so every key is required. *)
Module UserData.
Record t : Type := mk {
  current_skills : list string;
  target_role : string;
  learning_pace : string;
  daily_hours : Q;
  assessment_score : Q;
  preferred_content : list string
}.
End UserData.

Module AIPathGenerator.

Import Catalogue.

(** [load_skill_hierarchy]: the taxonomy, keyed by track. *)
Definition load_skill_hierarchy : list (string * tiers) :=
  [ ("frontend", frontend_skills);
    ("backend", backend_skills);
    ("fullstack", fullstack_skills);
    ("data_science", data_science_skills);
    ("mobile", mobile_skills);
    ("devops", devops_skills) ].

(** [self.skill_hierarchy[key]], [None] when [key] is not a key. *)
Fixpoint lookup (key : string) (d : list (string * tiers)) : option tiers :=
  match d with
  | [] => None
  | (k, v) :: d' => if String.eqb key k then Some v else lookup key d'
  end.

(** [target_role.lower().replace(' ', '_')]. *)
Definition role_key_of (target_role : string) : string :=
  PyStr.replace " "%char "_"%char (PyStr.lower target_role).

(** The list [required_skills] that [analyze_skill_gaps] collects. *)
Definition required_skills_of (target_role : string) : list string :=
  match lookup (role_key_of target_role) load_skill_hierarchy with
  | Some h => beginner h ++ intermediate h ++ advanced h
  | None => []
  end.

Definition analyze_skill_gaps (current_skills : list string)
    (target_role : string) : SkillGaps.t :=
  let required_skills := required_skills_of target_role in
  let current_skills_lower := map PyStr.lower current_skills in
  let gaps :=
    filter (fun skill => negb (PyStr.mem (PyStr.lower skill) current_skills_lower))
           required_skills in
  SkillGaps.mk gaps current_skills (List.length required_skills)
    (match required_skills with
     | [] => 0
     | _ :: _ =>
         (inject_Z (Z.of_nat (List.length current_skills))
            / inject_Z (Z.of_nat (List.length required_skills))) * 100
     end)%Q.

Definition determine_proficiency_level (current_skills : list string)
    (assessment_score : Q) : string :=
  let skill_count := List.length current_skills in
  if PyNum.leb 80 assessment_score && (10 <=? skill_count)%nat then "advanced"
  else if PyNum.leb 50 assessment_score && (5 <=? skill_count)%nat then "intermediate"
  else "beginner".

Definition generate_fullstack_curriculum (proficiency : string) : Curriculum.t :=
  let modules :=
    if String.eqb proficiency "beginner" then fullstack_beginner_modules
    else fullstack_advanced_modules in
  Curriculum.mk "Full Stack Developer Path"
    "Complete journey from beginner to full stack developer"
    "Full Stack Developer" proficiency modules None None.

Definition generate_frontend_curriculum (proficiency : string) : Curriculum.t :=
  let modules := frontend_modules in
  Curriculum.mk "Frontend Developer Path"
    "Become a professional frontend developer"
    "Frontend Developer" proficiency modules None None.

Definition generate_backend_curriculum (proficiency : string) : Curriculum.t :=
  let modules :=
    if String.eqb proficiency "beginner" then backend_beginner_modules
    else backend_advanced_modules in
  Curriculum.mk "Backend Developer Path"
    "Master server-side development and APIs"
    "Backend Developer" proficiency modules None None.

Definition generate_datascience_curriculum (proficiency : string) : Curriculum.t :=
  let modules :=
    if String.eqb proficiency "beginner" then datascience_beginner_modules
    else datascience_advanced_modules in
  Curriculum.mk "Data Scientist Path"
    "Master data analysis and machine learning"
    "Data Scientist" proficiency modules None None.

Definition generate_mobile_curriculum (proficiency : string) : Curriculum.t :=
  let modules :=
    if String.eqb proficiency "beginner" then mobile_beginner_modules
    else mobile_advanced_modules in
  Curriculum.mk "Mobile App Developer Path"
    "Build iOS and Android applications"
    "Mobile App Developer" proficiency modules None None.

Definition generate_devops_curriculum (proficiency : string) : Curriculum.t :=
  let modules :=
    if String.eqb proficiency "beginner" then devops_beginner_modules
    else devops_advanced_modules in
  Curriculum.mk "DevOps Engineer Path"
    "Master CI/CD, automation, and infrastructure"
    "DevOps Engineer" proficiency modules None None.

(** [build_curriculum]; [skill_gaps] and [learning_pace] are accepted
    and never read, as in the source. *)
Definition build_curriculum (target_role : string) (skill_gaps : SkillGaps.t)
    (proficiency learning_pace : string) : Curriculum.t :=
  let role_key := role_key_of target_role in
  if String.eqb role_key "fullstack" || String.eqb role_key "full_stack_developer" then
    generate_fullstack_curriculum proficiency
  else if String.eqb role_key "frontend" || PyStr.contains "frontend" role_key then
    generate_frontend_curriculum proficiency
  else if String.eqb role_key "backend" || PyStr.contains "backend" role_key then
    generate_backend_curriculum proficiency
  else if PyStr.contains "data" role_key || String.eqb role_key "data_scientist" then
    generate_datascience_curriculum proficiency
  else if PyStr.contains "mobile" role_key || String.eqb role_key "mobile_app_developer" then
    generate_mobile_curriculum proficiency
  else if PyStr.contains "machine_learning" role_key || PyStr.contains "ml" role_key then
    Curriculum.set_title_role "Machine Learning Engineer Path" "Machine Learning Engineer"
      (generate_datascience_curriculum proficiency)
  else if PyStr.contains "ai" role_key || String.eqb role_key "ai_engineer" then
    Curriculum.set_title_role "AI Engineer Path" "AI Engineer"
      (generate_datascience_curriculum proficiency)
  else if PyStr.contains "devops" role_key then
    generate_devops_curriculum proficiency
  else
    generate_fullstack_curriculum proficiency.

(** [topic.get('prerequisites', [])]. *)
Definition prerequisites_of (x : Topic.t) : list string :=
  match Topic.prerequisites x with Some l => l | None => [] end.

(** The body of the inner loop of [optimize_learning_sequence]. *)
Definition lock_topic (current_skills_lower : list string) (x : Topic.t) : Topic.t :=
  let prerequisites := prerequisites_of x in
  let prereqs_met :=
    forallb (fun p => PyStr.mem (PyStr.lower p) current_skills_lower) prerequisites in
  Topic.set_locked (negb prereqs_met) x.

Definition optimize_learning_sequence (curriculum : Curriculum.t)
    (current_skills : list string) : Curriculum.t :=
  let current_skills_lower := map PyStr.lower current_skills in
  Curriculum.set_modules
    (map (fun m => Mod.set_topics (map (lock_topic current_skills_lower) (Mod.topics m)) m)
         (Curriculum.modules curriculum))
    curriculum.

(** [multipliers.get(proficiency, 1.0)]. *)
Definition multiplier_of (proficiency : string) : Q :=
  if String.eqb proficiency "beginner" then 3 # 2
  else if String.eqb proficiency "intermediate" then 1
  else if String.eqb proficiency "advanced" then 7 # 10
  else 1.

(** The inner loop of [calculate_time_estimates] over the topics of a
    module.  [randint k] is the value of the [k]-th call of
    [random.randint(2, 8)]; the loop returns the updated topics, the
    accumulated [module_hours] and the number of draws consumed. *)
Fixpoint estimate_topics (randint : nat -> Z) (k : nat) (multiplier : Q)
    (ts : list Topic.t) (module_hours : Q) : list Topic.t * Q * nat :=
  match ts with
  | [] => ([], module_hours, k)
  | x :: ts' =>
      let base_hours := randint k in
      let adjusted_hours := (inject_Z base_hours * multiplier)%Q in
      let x' := Topic.set_estimated_hours (PyNum.round1 adjusted_hours) x in
      let '(r, h, k') :=
        estimate_topics randint (S k) multiplier ts' (module_hours + adjusted_hours)%Q in
      (x' :: r, h, k')
  end.

(** The outer loop over the modules, threading [total_weeks]. *)
Fixpoint estimate_modules (randint : nat -> Z) (k : nat) (multiplier daily_hours : Q)
    (ms : list Mod.t) (total_weeks : Q) : list Mod.t * Q * nat :=
  match ms with
  | [] => ([], total_weeks, k)
  | m :: ms' =>
      let '(ts, module_hours, k1) :=
        estimate_topics randint k multiplier (Mod.topics m) 0%Q in
      let m' :=
        Mod.set_estimates (PyNum.round1 module_hours)
          (if PyNum.ltb 0 daily_hours then PyNum.int (module_hours / daily_hours) else 0%Z)
          (Mod.set_topics ts m) in
      let total_weeks' :=
        (total_weeks +
           (if PyNum.ltb 0 daily_hours then module_hours / daily_hours / 7 else 0))%Q in
      let '(r, w, k2) :=
        estimate_modules randint k1 multiplier daily_hours ms' total_weeks' in
      (m' :: r, w, k2)
  end.

(** [m['estimated_hours']] once the estimator has written it. *)
Definition module_estimated_hours (m : Mod.t) : Q :=
  match Mod.estimated_hours m with Some h => h | None => 0%Q end.

Definition calculate_time_estimates (randint : nat -> Z) (k : nat)
    (curriculum : Curriculum.t) (daily_hours : Q) (proficiency : string)
    : Curriculum.t * nat :=
  let multiplier := multiplier_of proficiency in
  let '(ms, total_weeks, k') :=
    estimate_modules randint k multiplier daily_hours
      (Curriculum.modules curriculum) 0%Q in
  (Curriculum.set_totals (PyNum.int total_weeks)
     (PyNum.sum (map module_estimated_hours ms))
     (Curriculum.set_modules ms curriculum), k').

Definition video_resource (topic_name : string) : Resource.t :=
  Resource.mk "video" (topic_name ++ " - Complete Tutorial")
    ("https://youtube.com/search?q=" ++ PyStr.replace " "%char "+"%char topic_name
       ++ "+tutorial")
    "2-3 hours" "YouTube".

Definition article_resource (topic_name : string) : Resource.t :=
  Resource.mk "article" ("Understanding " ++ topic_name)
    ("https://developer.mozilla.org/en-US/search?q="
       ++ PyStr.replace " "%char "+"%char topic_name)
    "30-45 min read" "MDN Docs".

Definition interactive_resource (topic_name : string) : Resource.t :=
  Resource.mk "interactive" (topic_name ++ " - Interactive Exercises")
    "https://www.freecodecamp.org/learn" "1-2 hours" "FreeCodeCamp".

Definition documentation_resource (topic_name : string) : Resource.t :=
  Resource.mk "documentation" (topic_name ++ " Official Docs")
    "#" "Reference" "Official Documentation".

Definition fetch_resources_for_topic (topic_name : string)
    (preferred_content : list string) : list Resource.t :=
  let resources := [] in
  let resources :=
    if PyStr.mem "videos" preferred_content || PyStr.mem "Videos" preferred_content
    then resources ++ [video_resource topic_name] else resources in
  let resources :=
    if PyStr.mem "articles" preferred_content || PyStr.mem "Articles" preferred_content
    then resources ++ [article_resource topic_name] else resources in
  let resources :=
    if PyStr.mem "interactive" preferred_content
       || PyStr.mem "Interactive Coding" preferred_content
    then resources ++ [interactive_resource topic_name] else resources in
  resources ++ [documentation_resource topic_name].

(** [add_personalized_resources].  The topic record keeps no
    [resources] key, so the lists the loop writes under that key are
    returned beside the curriculum, module by module and topic by
    topic; the keys the record keeps are left as they are. *)
Definition add_personalized_resources (curriculum : Curriculum.t)
    (preferred_content : list string)
    : Curriculum.t * list (list (list Resource.t)) :=
  (curriculum,
   map (fun m =>
          map (fun x => fetch_resources_for_topic (Topic.title x) preferred_content)
              (Mod.topics m))
       (Curriculum.modules curriculum)).

(** [generate_personalized_path]: the six steps in their order.  The
    result is the final curriculum, the resources written by step 5
    and the number of draws consumed. *)
Definition generate_personalized_path (randint : nat -> Z) (k : nat)
    (user_data : UserData.t)
    : Curriculum.t * list (list (list Resource.t)) * nat :=
  let skill_gaps :=
    analyze_skill_gaps (UserData.current_skills user_data)
      (UserData.target_role user_data) in
  let proficiency :=
    determine_proficiency_level (UserData.current_skills user_data)
      (UserData.assessment_score user_data) in
  let curriculum :=
    build_curriculum (UserData.target_role user_data) skill_gaps proficiency
      (UserData.learning_pace user_data) in
  let optimized_curriculum :=
    optimize_learning_sequence curriculum (UserData.current_skills user_data) in
  let '(enriched_curriculum, resources) :=
    add_personalized_resources optimized_curriculum
      (UserData.preferred_content user_data) in
  let '(final_curriculum, k') :=
    calculate_time_estimates randint k enriched_curriculum
      (UserData.daily_hours user_data) proficiency in
  (final_curriculum, resources, k').

End AIPathGenerator.

(* ================================================================= *)
(** ** class AIRecommender *)

(** One entry of the list returned by [recommend_next_topics]. *)
Module Recommendation.
Record t : Type := mk {
  topic_id : string;
  topic_title : string;
  module_title : string;
  reason : string;
  priority : string;
  estimated_hours : Q
}.
End Recommendation.

(** The dictionary returned by [suggest_study_schedule].  The
    [daily_breakdown] dictionary keeps its keys in insertion order. *)
Module Schedule.
Record day_plan : Type := mk_day {
  topics : list Topic.t;
  day_total_hours : Q
}.

Record t : Type := mk {
  weekly_plan : list string;
  daily_breakdown : list (string * day_plan);
  total_hours : Q
}.
End Schedule.

Module AIRecommender.

(** [_is_completed]: some topic of the path carries this title and
    has its id among the completed ones. *)
Definition _is_completed (topic_title : string) (completed_ids : list string)
    (learning_path : Curriculum.t) : bool :=
  existsb
    (fun m =>
       existsb
         (fun x => String.eqb (Topic.title x) topic_title
                   && PyStr.mem (Topic.id x) completed_ids)
         (Mod.topics m))
    (Curriculum.modules learning_path).

(** [topic.get('locked', False)]. *)
Definition locked_of (x : Topic.t) : bool :=
  match Topic.locked x with Some b => b | None => false end.

(** [topic.get('estimated_hours', d)]. *)
Definition hours_of (d : Q) (x : Topic.t) : Q :=
  match Topic.estimated_hours x with Some h => h | None => d end.

(** The test [prereqs_met] of the loop body. *)
Definition prereqs_met (user_progress user_skills : list string)
    (learning_path : Curriculum.t) (x : Topic.t) : bool :=
  forallb
    (fun p => PyStr.mem p user_skills || _is_completed p user_progress learning_path)
    (AIPathGenerator.prerequisites_of x).

(** The dictionary appended for topic [x] of module [m]. *)
Definition recommendation_for (m : Mod.t) (x : Topic.t) : Recommendation.t :=
  Recommendation.mk (Topic.id x) (Topic.title x) (Mod.title m)
    "Prerequisites completed, ready to start" "high" (hours_of 3 x).

(** The loop body appends a recommendation for a topic exactly when
    the topic passes the [continue] guard and the [if] that follows. *)
Definition qualifies (user_progress user_skills : list string)
    (learning_path : Curriculum.t) (mx : Mod.t * Topic.t) : bool :=
  negb (PyStr.mem (Topic.id (snd mx)) user_progress)
  && (prereqs_met user_progress user_skills learning_path (snd mx)
      && negb (locked_of (snd mx))).

(** One turn of the inner loop: what it appends to [recommendations]. *)
Definition visit (user_progress user_skills : list string)
    (learning_path : Curriculum.t) (m : Mod.t) (x : Topic.t)
    : list Recommendation.t :=
  if PyStr.mem (Topic.id x) user_progress then []
  else if prereqs_met user_progress user_skills learning_path x
          && negb (locked_of x)
  then [recommendation_for m x]
  else [].

(** The list [recommendations] when both loops have ended. *)
Definition collect (user_progress user_skills : list string)
    (learning_path : Curriculum.t) : list Recommendation.t :=
  flat_map
    (fun m => flat_map (visit user_progress user_skills learning_path m) (Mod.topics m))
    (Curriculum.modules learning_path).

(** [list.sort(key=priority, reverse=True)]: a stable sort, larger
    keys first, entries with equal keys keeping their order. *)
Fixpoint insert_desc (x : Recommendation.t) (l : list Recommendation.t)
    : list Recommendation.t :=
  match l with
  | [] => [x]
  | y :: l' =>
      if String.ltb (Recommendation.priority x) (Recommendation.priority y)
      then y :: insert_desc x l'
      else x :: l
  end.

Definition sort_by_priority (l : list Recommendation.t) : list Recommendation.t :=
  fold_right insert_desc [] l.

Definition recommend_next_topics (user_progress user_skills : list string)
    (learning_path : Curriculum.t) : list Recommendation.t :=
  firstn 5 (sort_by_priority (collect user_progress user_skills learning_path)).

Definition days_of_week : list string :=
  ["Monday"; "Tuesday"; "Wednesday"; "Thursday"; "Friday"; "Saturday"; "Sunday"].

(** The [while] loop that fills one day.  [upcoming] is the part of
    [upcoming_topics] from [topic_index] on; the loop returns
    [daily_topics], [day_hours] and the part still to be placed. *)
Fixpoint fill_day (hours_per_day day_hours : Q) (daily_topics upcoming : list Topic.t)
    : list Topic.t * Q * list Topic.t :=
  match upcoming with
  | [] => (daily_topics, day_hours, [])
  | topic :: rest =>
      if PyNum.ltb day_hours hours_per_day then
        let topic_hours := hours_of 2 topic in
        if PyNum.leb (day_hours + topic_hours) hours_per_day then
          fill_day hours_per_day (day_hours + topic_hours)%Q
                   (daily_topics ++ [topic]) rest
        else (daily_topics, day_hours, upcoming)
      else (daily_topics, day_hours, upcoming)
  end.

(** The [for] loop over the days. *)
Fixpoint plan_days (hours_per_day : Q) (days : list string)
    (upcoming : list Topic.t) (schedule : Schedule.t) : Schedule.t :=
  match days with
  | [] => schedule
  | day :: days' =>
      match upcoming with
      | [] => schedule
      | _ :: _ =>
          let '(daily_topics, day_hours, rest) :=
            fill_day hours_per_day 0%Q [] upcoming in
          let schedule' :=
            match daily_topics with
            | [] => schedule
            | _ :: _ =>
                Schedule.mk (Schedule.weekly_plan schedule)
                  (Schedule.daily_breakdown schedule
                     ++ [(day, Schedule.mk_day daily_topics day_hours)])
                  (Schedule.total_hours schedule + day_hours)%Q
            end in
          plan_days hours_per_day days' rest schedule'
      end
  end.

(** [suggest_study_schedule]; [learning_pace] is accepted and never
    read, as in the source. *)
Definition suggest_study_schedule (available_hours : Q) (learning_pace : string)
    (upcoming_topics : list Topic.t) : Schedule.t :=
  let hours_per_day := available_hours in
  plan_days hours_per_day days_of_week upcoming_topics (Schedule.mk [] [] 0%Q).

End AIRecommender.

(* ================================================================= *)
(** ** class AIAdaptiveLearning *)

(** One performance record; only its [score] key is read. *)
Module Performance.
Record t : Type := mk { score : option Q }.
End Performance.

(** The dictionary returned by [adapt_curriculum]; each entry is a
    small dictionary of strings. *)
Module Adaptations.
Definition entry : Type := list (string * string).

Record t : Type := mk {
  difficulty_changes : list entry;
  topic_additions : list entry;
  topic_removals : list entry;
  pace_adjustments : list entry
}.
End Adaptations.

(** The dictionary returned by [predict_completion_date]; the two day
    counts are absent from the low-confidence answer. *)
Module Prediction.
Record t : Type := mk {
  estimated_date : string;
  days_remaining : option Z;
  weeks_remaining : option Z;
  confidence : string;
  message : string
}.
End Prediction.

(** One activity log; every key is read with [.get]. *)
Module Activity.
Record t : Type := mk {
  topics_completed : option Z;
  learning_minutes : option Z;
  time_of_day : option string
}.
End Activity.

(** The dictionary returned by [analyze_learning_velocity]; the three
    middle keys are absent from the answer to an empty log list. *)
Module Velocity.
Record t : Type := mk {
  velocity : string;
  topics_per_day : option Q;
  topics_per_week : option Q;
  recommendation : option string;
  trend : string
}.
End Velocity.

(** One progress record; [topic_id] is read with [progress['topic_id']],
    the other keys with [.get]. *)
Module ProgressRecord.
Record t : Type := mk {
  topic_id : string;
  topic_title : option string;
  expected_minutes : option Q;
  time_spent_minutes : option Q;
  difficulty_feedback : option string;
  status : option string
}.
End ProgressRecord.

(** One entry of the list returned by [detect_struggling_topics]: the
    time rule writes [time_ratio], the feedback rule [user_feedback]. *)
Module Struggle.
Record t : Type := mk {
  topic_id : string;
  topic_title : string;
  time_ratio : option Q;
  user_feedback : option string;
  suggestion : string
}.
End Struggle.

(** The dictionary returned by [generate_personalized_insights]. *)
Module Insights.
Record t : Type := mk {
  strengths : list string;
  areas_for_improvement : list string;
  learning_patterns : list string;
  recommendations : list string
}.
End Insights.

Module AIAdaptiveLearning.

(** [p.get('score', 0)]. *)
Definition score_of (p : Performance.t) : Q :=
  match Performance.score p with Some s => s | None => 0%Q end.

(** The value of [avg_performance]. *)
Definition avg_performance (user_performance : list Performance.t) : Q :=
  match user_performance with
  | [] => 0
  | _ :: _ =>
      PyNum.sum (map score_of user_performance)
        / inject_Z (Z.of_nat (List.length user_performance))
  end%Q.





Section Clock.

(** The calendar collaborator: [strftime_after d] is the text of
    [(datetime.now() + timedelta(days=d)).strftime('%B %d, %Y')],
    and [None] when that date arithmetic raises [OverflowError]. *)
Variable strftime_after : Q -> option string.

(** [predict_completion_date]; [None] is the exception that the
    date arithmetic lets escape. *)
Definition predict_completion_date (current_progress total_topics : Z)
    (learning_velocity : Q) : option Prediction.t :=
  let remaining_topics := (total_topics - current_progress)%Z in
  if PyNum.eqb learning_velocity 0 then
    Some (Prediction.mk "Cannot estimate" None None "low"
            "Complete more topics to get accurate prediction")
  else
    let days_remaining := (inject_Z remaining_topics / learning_velocity)%Q in
    match strftime_after days_remaining with
    | None => None
    | Some completion_date =>
        let confidence :=
          if PyNum.ltb days_remaining 100 then "high" else "medium" in
        Some (Prediction.mk completion_date
                (Some (PyNum.int days_remaining))
                (Some (PyNum.int (days_remaining / 7)))
                confidence
                ("At your current pace, you'll complete in "
                   ++ PyStr.of_Z (PyNum.int (days_remaining / 7)) ++ " weeks"))
    end.

End Clock.

(** [l[-7:]]. *)
Definition last7 {A : Type} (l : list A) : list A :=
  skipn (List.length l - 7) l.

(** [sum(log.get('topics_completed', 0) for log in recent_logs)]. *)
Definition topics_completed_in (recent_logs : list Activity.t) : Z :=
  fold_left Z.add
    (map (fun log => match Activity.topics_completed log with
                     | Some n => n | None => 0%Z end) recent_logs) 0%Z.

Definition analyze_learning_velocity (activity_logs : list Activity.t) : Velocity.t :=
  match activity_logs with
  | [] => Velocity.mk "insufficient_data" None None None "N/A"
  | _ :: _ =>
      let recent_logs := last7 activity_logs in
      let topics_completed := topics_completed_in recent_logs in
      let velocity := (inject_Z topics_completed / 7)%Q in
      let '(speed, recommendation) :=
        if PyNum.leb 2 velocity then
          ("fast", "Consider increasing difficulty")
        else if PyNum.leb 1 velocity then
          ("moderate", "Good pace, maintain consistency")
        else
          ("slow", "Consider reducing complexity or increasing time") in
      Velocity.mk speed (Some (PyNum.round2 velocity))
        (Some (PyNum.round1 (velocity * 7)%Q)) (Some recommendation) "stable"
  end.

(** [progress.get('topic_title', 'Unknown')]. *)
Definition title_of (progress : ProgressRecord.t) : string :=
  match ProgressRecord.topic_title progress with Some s => s | None => "Unknown" end.

(** One turn of the loop of [detect_struggling_topics]; [None] is the
    [ZeroDivisionError] of [actual_time / expected_time]. *)
Definition detect_step (struggling_topics : list Struggle.t)
    (progress : ProgressRecord.t) : option (list Struggle.t) :=
  let expected_time :=
    match ProgressRecord.expected_minutes progress with
    | Some e => e | None => 120%Q end in
  let actual_time :=
    match ProgressRecord.time_spent_minutes progress with
    | Some a => a | None => 0%Q end in
  let after_time :=
    if PyNum.ltb (expected_time * (3 # 2))%Q actual_time then
      if PyNum.eqb expected_time 0 then None
      else Some (struggling_topics ++
                   [ Struggle.mk (ProgressRecord.topic_id progress) (title_of progress)
                       (Some (actual_time / expected_time)%Q) None
                       "Review prerequisites or seek additional resources" ])
    else Some struggling_topics in
  match after_time with
  | None => None
  | Some struggling_topics =>
      match ProgressRecord.difficulty_feedback progress with
      | Some feedback =>
          if String.eqb feedback "too_hard"
             && negb (PyStr.mem (ProgressRecord.topic_id progress)
                        (map Struggle.topic_id struggling_topics))
          then Some (struggling_topics ++
                       [ Struggle.mk (ProgressRecord.topic_id progress)
                           (title_of progress) None (Some "marked_as_difficult")
                           "Consider easier alternative resources" ])
          else Some struggling_topics
      | None => Some struggling_topics
      end
  end.

(** The loop, from the list accumulated so far. *)
Fixpoint detect_from (struggling_topics : list Struggle.t)
    (progress_data : list ProgressRecord.t) : option (list Struggle.t) :=
  match progress_data with
  | [] => Some struggling_topics
  | progress :: rest =>
      match detect_step struggling_topics progress with
      | None => None
      | Some struggling_topics' => detect_from struggling_topics' rest
      end
  end.

Definition detect_struggling_topics (progress_data : list ProgressRecord.t)
    : option (list Struggle.t) :=
  detect_from [] progress_data.

(** [sum(log.get('learning_minutes', 0) for log in activity_logs if
    log.get('time_of_day') == tag)]. *)
Definition minutes_tagged (tag : string) (activity_logs : list Activity.t) : Z :=
  fold_left Z.add
    (map (fun log => match Activity.learning_minutes log with
                     | Some n => n | None => 0%Z end)
         (filter (fun log => match Activity.time_of_day log with
                             | Some t => String.eqb t tag | None => false end)
                 activity_logs)) 0%Z.

(** [len([p for p in progress_data if p.get('status') == 'completed'])]. *)
Definition completed_count (progress_data : list ProgressRecord.t) : nat :=
  List.length
    (filter (fun p => match ProgressRecord.status p with
                      | Some s => String.eqb s "completed" | None => false end)
            progress_data).

(** [len([log for log in activity_logs[-7:] if
    log.get('learning_minutes', 0) > 0])]. *)
Definition active_days (activity_logs : list Activity.t) : nat :=
  List.length
    (filter (fun log => match Activity.learning_minutes log with
                        | Some n => (0 <? n)%Z | None => false end)
            (last7 activity_logs)).

(** [generate_personalized_insights]; [user_data] is accepted and never
    read, as in the source. *)
Definition generate_personalized_insights (user_data : UserData.t)
    (progress_data : list ProgressRecord.t) (activity_logs : list Activity.t)
    : Insights.t :=
  let insights := Insights.mk [] [] [] [] in
  let insights :=
    match activity_logs with
    | [] => insights
    | _ :: _ =>
        let morning_hours := minutes_tagged "morning" activity_logs in
        let evening_hours := minutes_tagged "evening" activity_logs in
        if (evening_hours <? morning_hours)%Z then
          Insights.mk (Insights.strengths insights)
            (Insights.areas_for_improvement insights)
            (Insights.learning_patterns insights
               ++ ["You're most productive in the morning"])
            (Insights.recommendations insights
               ++ ["Schedule challenging topics for morning sessions"])
        else
          Insights.mk (Insights.strengths insights)
            (Insights.areas_for_improvement insights)
            (Insights.learning_patterns insights
               ++ ["You're most productive in the evening"])
            (Insights.recommendations insights
               ++ ["Focus on complex topics during evening study time"])
    end in
  let insights :=
    match progress_data with
    | [] => insights
    | _ :: _ =>
        let completion_rate :=
          (inject_Z (Z.of_nat (completed_count progress_data))
             / inject_Z (Z.of_nat (List.length progress_data)))%Q in
        if PyNum.ltb (8 # 10) completion_rate then
          Insights.mk
            (Insights.strengths insights
               ++ ["High completion rate - you finish what you start!"])
            (Insights.areas_for_improvement insights)
            (Insights.learning_patterns insights)
            (Insights.recommendations insights)
        else if PyNum.ltb completion_rate (5 # 10) then
          Insights.mk (Insights.strengths insights)
            (Insights.areas_for_improvement insights
               ++ ["Try to complete topics before moving to new ones"])
            (Insights.learning_patterns insights)
            (Insights.recommendations insights
               ++ ["Focus on one topic at a time to improve retention"])
        else insights
    end in
  if (7 <=? List.length activity_logs)%nat then
    let active_days := active_days activity_logs in
    if (6 <=? active_days)%nat then
      Insights.mk
        (Insights.strengths insights
           ++ ["Excellent consistency! You learn almost every day."])
        (Insights.areas_for_improvement insights)
        (Insights.learning_patterns insights)
        (Insights.recommendations insights)
    else if (active_days <=? 3)%nat then
      Insights.mk (Insights.strengths insights)
        (Insights.areas_for_improvement insights
           ++ ["Consistency could be improved"])
        (Insights.learning_patterns insights)
        (Insights.recommendations insights
           ++ ["Try to establish a daily learning habit, even if just 30 minutes"])
    else insights
  else insights.

End AIAdaptiveLearning.

(* ================================================================= *)
(** ** utils.py *)

(** One activity log as the routes hand it to [utils]: the [date] key
    holds an ISO date, represented by the number of the day it denotes
    (the order of ISO date strings is the order of the days), and is
    read with [log['date']]. *)
Module DatedLog.
Record t : Type := mk {
  date : Z;
  learning_minutes : option Z
}.
End DatedLog.

(** One entry of [achievements_criteria]. *)
Module Achievement.
Record t : Type := mk {
  name : string;
  criteria : bool;
  xp : Z
}.
End Achievement.

(** One entry of the list returned by [generate_heatmap]. *)
Module HeatmapCell.
Record t : Type := mk {
  date : Z;
  minutes : Z;
  intensity : Z
}.
End HeatmapCell.

Module Utils.

(** [sorted(activity_logs, key=date, reverse=True)]: a stable sort,
    later days first. *)
Fixpoint insert_by_date (x : DatedLog.t) (l : list DatedLog.t) : list DatedLog.t :=
  match l with
  | [] => [x]
  | y :: l' =>
      if (DatedLog.date x <? DatedLog.date y)%Z
      then y :: insert_by_date x l'
      else x :: l
  end.

Definition sort_by_date (l : list DatedLog.t) : list DatedLog.t :=
  fold_right insert_by_date [] l.

(** The [for] loop of [calculate_streak]; [current_date] is
    [datetime.now().date()]. *)
Fixpoint streak_loop (current_date : Z) (streak : nat) (sorted_logs : list DatedLog.t)
    : nat :=
  match sorted_logs with
  | [] => streak
  | log :: rest =>
      let log_date := DatedLog.date log in
      let expected_date := (current_date - Z.of_nat streak)%Z in
      if (log_date =? expected_date)%Z then streak_loop current_date (S streak) rest
      else if (log_date <? expected_date)%Z then streak
      else streak_loop current_date streak rest
  end.

Definition calculate_streak (current_date : Z) (activity_logs : list DatedLog.t) : nat :=
  match activity_logs with
  | [] => 0
  | _ :: _ => streak_loop current_date 0 (sort_by_date activity_logs)
  end.

(** [d[k] = v] on a dictionary kept as an association list. *)
Fixpoint dict_set (d : list (Z * Z)) (k v : Z) : list (Z * Z) :=
  match d with
  | [] => [(k, v)]
  | (k', v') :: d' =>
      if (k' =? k)%Z then (k, v) :: d' else (k', v') :: dict_set d' k v
  end.

(** [d.get(k, default)]. *)
Fixpoint dict_get (d : list (Z * Z)) (k default : Z) : Z :=
  match d with
  | [] => default
  | (k', v') :: d' => if (k' =? k)%Z then v' else dict_get d' k default
  end.

(** The first loop of [generate_heatmap]. *)
Definition activity_dict (activity_logs : list DatedLog.t) : list (Z * Z) :=
  fold_left
    (fun d log =>
       dict_set d (DatedLog.date log)
         (match DatedLog.learning_minutes log with Some n => n | None => 0%Z end))
    activity_logs [].

(** [int(min(minutes / 60, 4))]. *)
Definition intensity_of (minutes : Z) : Z :=
  let ratio := (inject_Z minutes / 60)%Q in
  PyNum.int (if PyNum.ltb 4 ratio then 4%Q else ratio).

(** The [while] loop of [generate_heatmap], for the [n] days from
    [current_date] to [end_date]. *)
Fixpoint heatmap_days (d : list (Z * Z)) (n : nat) (current_date : Z)
    : list HeatmapCell.t :=
  match n with
  | O => []
  | S n' =>
      let minutes := dict_get d current_date 0%Z in
      HeatmapCell.mk current_date minutes (intensity_of minutes)
        :: heatmap_days d n' (current_date + 1)%Z
  end.

(** [generate_heatmap]; [end_date] is [datetime.now().date()]. *)
Definition generate_heatmap (end_date : Z) (activity_logs : list DatedLog.t)
    (weeks : Z) : list HeatmapCell.t :=
  let start_date := (end_date - 7 * weeks)%Z in
  heatmap_days (activity_dict activity_logs)
    (Z.to_nat (end_date - start_date + 1)) start_date.

(** [check_achievements]; [current_level] is [user.current_level]. *)
Definition check_achievements (current_level progress_count streak : Z)
    : list Achievement.t :=
  let achievements_criteria :=
    [ Achievement.mk "First Steps" (1 <=? progress_count)%Z 50;
      Achievement.mk "10 Topics Master" (10 <=? progress_count)%Z 100;
      Achievement.mk "50 Topics Master" (50 <=? progress_count)%Z 500;
      Achievement.mk "Week Warrior" (7 <=? streak)%Z 200;
      Achievement.mk "Month Champion" (30 <=? streak)%Z 1000;
      Achievement.mk "Level 5 Achieved" (5 <=? current_level)%Z 300;
      Achievement.mk "Level 10 Achieved" (10 <=? current_level)%Z 500 ] in
  filter Achievement.criteria achievements_criteria.

Definition calculate_xp_for_level (level : Z) : Z := (level * 1000)%Z.

Definition get_level_from_xp (xp : Z) : Z := Z.max 1 (xp / 1000).

End Utils.

(* ================================================================= *)
(** ** auth.py *)

(** The registration form; each key is read with [data.get]. *)
Module Registration.
Record t : Type := mk {
  username : option string;
  email : option string;
  password : option string
}.
End Registration.

Module Auth.

(** [not s], for the value of [data.get(key)]. *)
Definition falsy (s : option string) : bool :=
  match s with
  | None => true
  | Some s' => String.eqb s' ""
  end.

(** [data.get(key, '')]. *)
Definition text_of (s : option string) : string :=
  match s with Some s' => s' | None => "" end.

Definition validate_registration_data (data : Registration.t) : list string :=
  let errors := [] in
  let errors :=
    if falsy (Registration.username data)
       || (String.length (text_of (Registration.username data)) <? 3)%nat
    then errors ++ ["Username must be at least 3 characters"] else errors in
  let errors :=
    if falsy (Registration.email data)
       || negb (PyStr.contains "@" (text_of (Registration.email data)))
    then errors ++ ["Valid email is required"] else errors in
  let errors :=
    if falsy (Registration.password data)
       || (String.length (text_of (Registration.password data)) <? 6)%nat
    then errors ++ ["Password must be at least 6 characters"] else errors in
  errors.

End Auth.

(* ================================================================= *)
(** ** app.py: what the routes compute around the engine *)

(** The columns of the user row that [generate_path] reads; a column
    that may be NULL is an [option]. *)
Module UserRow.
Record t : Type := mk {
  current_skills : list string;
  preferred_content : list string;
  target_role : option string;
  learning_pace : option string;
  daily_hours : option Q;
  assessment_score : option Q
}.
End UserRow.

(** The columns of the learning-path row that [generate_path] writes. *)
Module PathRow.
Record t : Type := mk {
  title : string;
  description : string;
  target_role : string;
  estimated_duration_weeks : Z;
  difficulty_level : string;
  total_modules : nat;
  total_topics : nat
}.
End PathRow.

Module App.

(** [s or default] on a text column. *)
Definition text_or (s : option string) (default : string) : string :=
  match s with
  | None => default
  | Some s' => if String.eqb s' "" then default else s'
  end.

(** [x or default] on a numeric column. *)
Definition number_or (x : option Q) (default : Q) : Q :=
  match x with
  | None => default
  | Some x' => if PyNum.eqb x' 0 then default else x'
  end.

(** The [target_role] local of [generate_path]. *)
Definition target_role_of (user : UserRow.t) : string :=
  text_or (UserRow.target_role user) "Full Stack Developer".

(** The [user_data] dictionary that [generate_path] builds. *)
Definition user_data_of (user : UserRow.t) : UserData.t :=
  UserData.mk (UserRow.current_skills user)
    (target_role_of user)
    (text_or (UserRow.learning_pace user) "moderate")
    (number_or (UserRow.daily_hours user) 2)
    (number_or (UserRow.assessment_score user) 0)
    (match UserRow.preferred_content user with
     | [] => ["videos"; "articles"; "interactive"]
     | _ :: _ => UserRow.preferred_content user
     end).

(** [generate_path] without its database traffic: the curriculum, the
    resources, the row stored for it and the number of draws consumed. *)
Definition generate_path (randint : nat -> Z) (k : nat) (user : UserRow.t)
    : Curriculum.t * list (list (list Resource.t)) * PathRow.t * nat :=
  let target_role := target_role_of user in
  let '(curriculum, resources, k') :=
    AIPathGenerator.generate_personalized_path randint k (user_data_of user) in
  (curriculum, resources,
   PathRow.mk
     (Curriculum.title curriculum ++ " (" ++ target_role ++ ")")
     (Curriculum.description curriculum)
     target_role
     (match Curriculum.total_estimated_weeks curriculum with
      | Some w => w | None => 0%Z end)
     (Curriculum.difficulty curriculum)
     (List.length (Curriculum.modules curriculum))
     (fold_left Nat.add
        (map (fun m => List.length (Mod.topics m)) (Curriculum.modules curriculum)) 0),
   k').

(** [analytics_predictions] once the path row and the logs are read:
    [total_topics] is the column of the path row, [None] for NULL. *)
Definition analytics_predictions (strftime_after : Q -> option string)
    (completed_topics : Z) (total_topics : option Z)
    (activity_logs : list Activity.t) : option Prediction.t :=
  let velocity_info := AIAdaptiveLearning.analyze_learning_velocity activity_logs in
  let topics_per_day :=
    match Velocity.topics_per_day velocity_info with
    | Some v => v | None => 0%Q end in
  AIAdaptiveLearning.predict_completion_date strftime_after completed_topics
    (match total_topics with
     | None => 1%Z
     | Some n => if (n =? 0)%Z then 1%Z else n
     end)
    topics_per_day.

End App.

(* ================================================================= *)
(** ** Vocabulary of the specification *)

Module Spec.

(** The ordering beginner < intermediate < advanced of the tiers. *)
Definition tier_rank (tier : string) : nat :=
  if String.eqb tier "advanced" then 2
  else if String.eqb tier "intermediate" then 1
  else 0.

(** The six tracks that own a generator. *)
Inductive track : Type :=
  Fullstack | Frontend | Backend | DataScience | Mobile | DevOps.

Definition generator (tr : track) : string -> Curriculum.t :=
  match tr with
  | Fullstack => AIPathGenerator.generate_fullstack_curriculum
  | Frontend => AIPathGenerator.generate_frontend_curriculum
  | Backend => AIPathGenerator.generate_backend_curriculum
  | DataScience => AIPathGenerator.generate_datascience_curriculum
  | Mobile => AIPathGenerator.generate_mobile_curriculum
  | DevOps => AIPathGenerator.generate_devops_curriculum
  end.

(** The ordered rule list of the specification: a test on the role
    key and the curriculum the rule selects. *)
Definition routing_rules : list ((string -> bool) * (string -> Curriculum.t)) :=
  [ (fun k => String.eqb k "fullstack" || String.eqb k "full_stack_developer",
     generator Fullstack);
    (PyStr.contains "frontend", generator Frontend);
    (PyStr.contains "backend", generator Backend);
    (PyStr.contains "data", generator DataScience);
    (PyStr.contains "mobile", generator Mobile);
    (fun k => PyStr.contains "machine_learning" k || PyStr.contains "ml" k,
     fun p => Curriculum.set_title_role "Machine Learning Engineer Path"
                "Machine Learning Engineer" (generator DataScience p));
    (PyStr.contains "ai",
     fun p => Curriculum.set_title_role "AI Engineer Path" "AI Engineer"
                (generator DataScience p));
    (PyStr.contains "devops", generator DevOps) ].

(** The first rule whose test accepts the key, if any. *)
Fixpoint first_match {A : Type} (rules : list ((string -> bool) * A)) (k : string)
    : option A :=
  match rules with
  | [] => None
  | (test, a) :: rules' => if test k then Some a else first_match rules' k
  end.

(** The sum of a list of numbers. *)
Definition total (l : list Q) : Q := fold_right Qplus 0%Q l.

(** The hours of a module: the sum of the hours of its topics. *)
Definition module_hours (m : Mod.t) : Q :=
  total (map (AIRecommender.hours_of 0) (Mod.topics m)).

(** Topic [x'] is topic [x] with an [estimated_hours] between [lo] and
    [hi]. *)
Definition estimated_within (lo hi : Q) (x x' : Topic.t) : Prop :=
  exists e : Q, x' = Topic.set_estimated_hours e x /\ (lo <= e)%Q /\ (e <= hi)%Q.

(** The [estimated_hours] of module [m] is the sum of the hours of its
    topics, and that sum is not negative. *)
Definition hours_rolled_up (m : Mod.t) : Prop :=
  (exists e : Q, Mod.estimated_hours m = Some e /\ (e == module_hours m)%Q)
  /\ (0 <= module_hours m)%Q.

(** The binary64 run of the loop body of the estimator for the draw
    [b] and the multiplier [num / den]: the rounded estimate lies
    between 2 and 8 times the multiplier and is the float of the tenth
    that the rational model computes. *)
Definition binary64_estimate_ok (num den b : Z) : bool :=
  let multiplier := PyFloat.ratio num den in
  let adjusted_hours := PrimFloat.mul (PyFloat.of_Z b) multiplier in
  let estimated := PyFloat.round1 adjusted_hours in
  PrimFloat.leb (PrimFloat.mul (PyFloat.of_Z 2) multiplier) estimated
  && PrimFloat.leb estimated (PrimFloat.mul (PyFloat.of_Z 8) multiplier)
  && PrimFloat.eqb estimated (PyFloat.ratio (b * num * 10 / den) 10).

(** What the sequencer does to one module, the skills being lowered
    already. *)
Definition lock_module (lowered : list string) (m : Mod.t) : Mod.t :=
  Mod.set_topics (map (AIPathGenerator.lock_topic lowered) (Mod.topics m)) m.

(** [progress.get('expected_minutes', 120)]. *)
Definition expected_of (p : ProgressRecord.t) : Q :=
  match ProgressRecord.expected_minutes p with Some e => e | None => 120%Q end.

(** [progress.get('time_spent_minutes', 0)]. *)
Definition actual_of (p : ProgressRecord.t) : Q :=
  match ProgressRecord.time_spent_minutes p with Some a => a | None => 0%Q end.

(** The record took more than one and a half times its expected time. *)
Definition slow (p : ProgressRecord.t) : Prop :=
  (expected_of p * (3 # 2) < actual_of p)%Q.

(** The record carries the feedback too_hard. *)
Definition too_hard (p : ProgressRecord.t) : Prop :=
  ProgressRecord.difficulty_feedback p = Some "too_hard".

(** Some log bears the day [d]. *)
Definition has_log (logs : list DatedLog.t) (d : Z) : Prop :=
  In d (map DatedLog.date logs).

(** [log.get('learning_minutes', 0)]. *)
Definition minutes_of (log : DatedLog.t) : Z :=
  match DatedLog.learning_minutes log with Some n => n | None => 0%Z end.

(** The minutes of the last log that bears the day [d], 0 without one. *)
Definition last_minutes (logs : list DatedLog.t) (d : Z) : Z :=
  fold_left (fun acc log => if (DatedLog.date log =? d)%Z then minutes_of log else acc)
            logs 0%Z.

(** Log [a] is not of an earlier day than log [b]. *)
Definition later_first (a b : DatedLog.t) : Prop :=
  (DatedLog.date b <= DatedLog.date a)%Z.

(** A number with at most one decimal digit. *)
Definition tenths (q : Q) : Prop := exists n : Z, (q * 10 == inject_Z n)%Q.

(** Two strings are equal up to letter case. *)
Definition same_ignoring_case (a b : string) : Prop :=
  PyStr.lower a = PyStr.lower b.

(** The topics of one entry of [daily_breakdown]. *)
Definition day_topics (d : string * Schedule.day_plan) : list Topic.t :=
  Schedule.topics (snd d).

(** The topics a schedule places, day after day. *)
Definition scheduled (s : Schedule.t) : list Topic.t :=
  flat_map day_topics (Schedule.daily_breakdown s).

(** A day of the schedule totals at most the daily budget. *)
Definition within_budget (hours_per_day : Q) (d : string * Schedule.day_plan) : Prop :=
  (Schedule.day_total_hours (snd d) <= hours_per_day)%Q.

(** [p] is the title of a topic of the path whose id is completed. *)
Definition completed_title (progress : list string) (path : Curriculum.t)
    (p : string) : Prop :=
  exists m x,
    In m (Curriculum.modules path) /\ In x (Mod.topics m)
    /\ Topic.title x = p /\ In (Topic.id x) progress.

(** [p] is a declared skill, letter for letter, or a completed title. *)
Definition resolves_literally (skills progress : list string) (path : Curriculum.t)
    (p : string) : Prop :=
  In p skills \/ completed_title progress path p.

(** [p] is a declared skill up to letter case, or a completed title. *)
Definition resolves_ignoring_case (skills progress : list string)
    (path : Curriculum.t) (p : string) : Prop :=
  (exists s, In s skills /\ same_ignoring_case p s)
  \/ completed_title progress path p.

End Spec.

(* ================================================================= *)
(** ** Basic facts about strings and numbers *)

Lemma mem_true_iff (x : string) (l : list string) :
  PyStr.mem x l = true <-> In x l.
Proof.
  unfold PyStr.mem. rewrite existsb_exists. split.
  - intros [y [Hy Heq]]. apply String.eqb_eq in Heq. now subst.
  - intros H. exists x. split; [assumption | apply String.eqb_refl].
Qed.

Lemma mem_false_iff (x : string) (l : list string) :
  PyStr.mem x l = false <-> ~ In x l.
Proof.
  rewrite <- mem_true_iff. destruct (PyStr.mem x l); split; congruence.
Qed.

Lemma prefix_refl (s : string) : String.prefix s s = true.
Proof.
  induction s as [| c s IH]; simpl; [reflexivity |].
  destruct (ascii_dec c c); [assumption | congruence].
Qed.

Lemma contains_refl (s : string) : PyStr.contains s s = true.
Proof.
  destruct s; simpl; [reflexivity |].
  destruct (ascii_dec a a); [| congruence].
  now rewrite prefix_refl.
Qed.

(** An equality test that is subsumed by a containment test. *)
Lemma eqb_or_contains (sub k : string) :
  String.eqb k sub || PyStr.contains sub k = PyStr.contains sub k.
Proof.
  destruct (String.eqb_spec k sub) as [-> | _]; [| reflexivity].
  now rewrite contains_refl.
Qed.

Lemma contains_or_eqb (sub k full : string) :
  PyStr.contains sub full = true ->
  PyStr.contains sub k || String.eqb k full = PyStr.contains sub k.
Proof.
  intros H. destruct (String.eqb_spec k full) as [-> | _].
  - rewrite H. reflexivity.
  - apply orb_false_r.
Qed.

Lemma leb_iff (x y : Q) : PyNum.leb x y = true <-> (x <= y)%Q.
Proof. apply Qle_bool_iff. Qed.

Lemma ltb_iff (x y : Q) : PyNum.ltb x y = true <-> (x < y)%Q.
Proof.
  unfold PyNum.ltb. rewrite negb_true_iff.
  destruct (Qle_bool y x) eqn:E; split; intros H; try congruence.
  - apply Qle_bool_iff in E. exfalso. exact (Qlt_not_le _ _ H E).
  - apply Qnot_le_lt. intros C. apply Qle_bool_iff in C. congruence.
Qed.

Lemma ltb_false_iff (x y : Q) : PyNum.ltb x y = false <-> (y <= x)%Q.
Proof.
  unfold PyNum.ltb. rewrite negb_false_iff. apply Qle_bool_iff.
Qed.

Lemma leb_false_iff (x y : Q) : PyNum.leb x y = false <-> (y < x)%Q.
Proof.
  rewrite <- ltb_iff. unfold PyNum.ltb, PyNum.leb.
  destruct (Qle_bool x y); simpl; split; congruence.
Qed.

(* ================================================================= *)
(** ** The proficiency classifier *)

Section Proficiency.

Import AIPathGenerator.

Lemma proficiency_advanced_iff (skills : list string) (score : Q) :
  determine_proficiency_level skills score = "advanced"
  <-> (80 <= score)%Q /\ 10 <= List.length skills.
Proof.
  unfold determine_proficiency_level.
  rewrite <- leb_iff, <- Nat.leb_le, <- andb_true_iff.
  destruct (PyNum.leb 80 score && (10 <=? List.length skills)%nat).
  - split; reflexivity.
  - destruct (PyNum.leb 50 score && (5 <=? List.length skills)%nat);
      split; discriminate.
Qed.

Lemma proficiency_intermediate_iff (skills : list string) (score : Q) :
  determine_proficiency_level skills score = "intermediate"
  <-> ~ ((80 <= score)%Q /\ 10 <= List.length skills)
      /\ (50 <= score)%Q /\ 5 <= List.length skills.
Proof.
  unfold determine_proficiency_level.
  rewrite <- !leb_iff, <- !Nat.leb_le, <- !andb_true_iff.
  destruct (PyNum.leb 80 score && (10 <=? List.length skills)%nat).
  - split; [discriminate | intros [H _]; now contradiction H].
  - destruct (PyNum.leb 50 score && (5 <=? List.length skills)%nat).
    + split; [intros _; split; [discriminate | reflexivity] | reflexivity].
    + split; [discriminate | intros [_ H]; discriminate].
Qed.

Lemma proficiency_values (skills : list string) (score : Q) :
  In (determine_proficiency_level skills score)
     ["beginner"; "intermediate"; "advanced"].
Proof.
  unfold determine_proficiency_level.
  destruct (_ && _); [simpl; tauto |].
  destruct (_ && _); simpl; tauto.
Qed.

Lemma proficiency_rank_monotone (skills1 skills2 : list string) (score1 score2 : Q) :
  (score1 <= score2)%Q ->
  List.length skills1 <= List.length skills2 ->
  Spec.tier_rank (determine_proficiency_level skills1 score1)
  <= Spec.tier_rank (determine_proficiency_level skills2 score2).
Proof.
  intros Hs Hn. unfold determine_proficiency_level.
  destruct (PyNum.leb 80 score1 && (10 <=? List.length skills1)%nat) eqn:A1.
  - apply andb_true_iff in A1. destruct A1 as [A B].
    apply leb_iff in A. apply Nat.leb_le in B.
    assert (PyNum.leb 80 score2 = true) as -> by (apply leb_iff; eapply Qle_trans; eauto).
    assert ((10 <=? List.length skills2)%nat = true) as -> by (apply Nat.leb_le; lia).
    simpl. lia.
  - destruct (PyNum.leb 50 score1 && (5 <=? List.length skills1)%nat) eqn:B1.
    + apply andb_true_iff in B1. destruct B1 as [A B].
      apply leb_iff in A. apply Nat.leb_le in B.
      assert (PyNum.leb 50 score2 = true) as -> by (apply leb_iff; eapply Qle_trans; eauto).
      assert ((5 <=? List.length skills2)%nat = true) as -> by (apply Nat.leb_le; lia).
      destruct (PyNum.leb 80 score2 && (10 <=? List.length skills2)%nat); cbn; lia.
    + change (Spec.tier_rank "beginner") with 0. lia.
Qed.

(** C8.  [determine_proficiency_level] is monotone in the score and in
    the number of skills for the order beginner < intermediate <
    advanced; it answers advanced exactly when the score is at least
    80 and there are at least 10 skills, and intermediate exactly when
    that fails while the score is at least 50 and there are at least
    5 skills. *)
Theorem determine_proficiency_level_monotone
    (skills1 skills2 : list string) (score1 score2 : Q) :
  ((score1 <= score2)%Q ->
   List.length skills1 <= List.length skills2 ->
   Spec.tier_rank (determine_proficiency_level skills1 score1)
   <= Spec.tier_rank (determine_proficiency_level skills2 score2))
  /\ (determine_proficiency_level skills1 score1 = "advanced"
      <-> (80 <= score1)%Q /\ 10 <= List.length skills1)
  /\ (determine_proficiency_level skills1 score1 = "intermediate"
      <-> ~ ((80 <= score1)%Q /\ 10 <= List.length skills1)
          /\ (50 <= score1)%Q /\ 5 <= List.length skills1)
  /\ In (determine_proficiency_level skills1 score1)
        ["beginner"; "intermediate"; "advanced"].
Proof.
  split; [apply proficiency_rank_monotone |].
  split; [apply proficiency_advanced_iff |].
  split; [apply proficiency_intermediate_iff | apply proficiency_values].
Qed.

Lemma determine_proficiency_level_monotone_witness :
  let few := ["HTML"; "CSS"; "Git"; "SQL"; "Python"] in
  let many := few ++ few in
  (60 <= 85)%Q /\ List.length few <= List.length many
  /\ Spec.tier_rank (determine_proficiency_level few 60)
     <= Spec.tier_rank (determine_proficiency_level many 85).
Proof.
  intros few many.
  assert (Hs : (60 <= 85)%Q) by (unfold Qle; simpl; lia).
  assert (Hn : List.length few <= List.length many) by (simpl; lia).
  split; [exact Hs |]. split; [exact Hn |].
  exact (proj1 (determine_proficiency_level_monotone few many 60 85) Hs Hn).
Defined.

End Proficiency.

(* ================================================================= *)
(** ** The gap analyser *)

Section SkillGapAnalysis.

Import AIPathGenerator.

(** Every track of the taxonomy asks for at least eleven skills. *)
Lemma known_role_required (target_role : string) :
  lookup (role_key_of target_role) load_skill_hierarchy <> None ->
  11 <= List.length (required_skills_of target_role).
Proof.
  unfold required_skills_of, load_skill_hierarchy. simpl.
  repeat (match goal with
          | |- context [String.eqb ?a ?b] => destruct (String.eqb a b)
          end; [intros _; vm_compute; repeat constructor |]).
  intros H. now contradiction H.
Qed.

Lemma ratio_above_one (k n : nat) :
  0 < n -> n < k ->
  (100 < inject_Z (Z.of_nat k) / inject_Z (Z.of_nat n) * 100)%Q.
Proof.
  intros Hn Hk.
  assert (Hpos : (0 < inject_Z (Z.of_nat n))%Q).
  { change 0%Q with (inject_Z 0). rewrite <- Zlt_Qlt. lia. }
  assert (Hone : (1 < inject_Z (Z.of_nat k) / inject_Z (Z.of_nat n))%Q).
  { apply Qlt_shift_div_l; [assumption |].
    rewrite Qmult_1_l. rewrite <- Zlt_Qlt. lia. }
  setoid_replace 100%Q with (1 * 100)%Q at 1 by ring.
  apply Qmult_lt_compat_r; [reflexivity | assumption].
Qed.

(** C9.  [analyze_skill_gaps] divides the number of declared skills,
    whatever they are, by the number of required skills: the
    percentage depends on the declared list through its length only,
    it is 0 when nothing is required, and for a role of the taxonomy
    with more declared skills than required ones it exceeds 100. *)
Theorem analyze_skill_gaps_percentage
    (current_skills : list string) (target_role : string) :
  let r := analyze_skill_gaps current_skills target_role in
  let required := required_skills_of target_role in
  SkillGaps.total_required r = List.length required
  /\ (required = [] -> (SkillGaps.completion_percentage r == 0)%Q)
  /\ (required <> [] ->
      (SkillGaps.completion_percentage r
       == inject_Z (Z.of_nat (List.length current_skills))
          / inject_Z (Z.of_nat (List.length required)) * 100)%Q)
  /\ (forall other : list string,
        List.length other = List.length current_skills ->
        (SkillGaps.completion_percentage (analyze_skill_gaps other target_role)
         == SkillGaps.completion_percentage r)%Q)
  /\ (lookup (role_key_of target_role) load_skill_hierarchy <> None ->
      List.length required < List.length current_skills ->
      (100 < SkillGaps.completion_percentage r)%Q).
Proof.
  intros r required. subst r. unfold analyze_skill_gaps. simpl.
  fold required.
  split; [reflexivity |].
  split; [intros ->; reflexivity |].
  split; [destruct required; [congruence | reflexivity] |].
  split.
  - intros other Hlen. destruct required; [reflexivity |].
    rewrite Hlen. reflexivity.
  - intros Hknown Hmore.
    pose proof (known_role_required target_role Hknown) as Hreq.
    fold required in Hreq.
    destruct required as [| s required']; [simpl in Hreq; lia |].
    apply ratio_above_one; [simpl; lia | assumption].
Qed.

Lemma analyze_skill_gaps_percentage_witness :
  let declared := repeat "HTML" 13 in
  (required_skills_of "Frontend" <> []
   /\ lookup (role_key_of "Frontend") load_skill_hierarchy <> None
   /\ List.length (required_skills_of "Frontend") < List.length declared)
  /\ (SkillGaps.completion_percentage (analyze_skill_gaps declared "Frontend")
      == 1300 # 12)%Q
  /\ (100 < SkillGaps.completion_percentage (analyze_skill_gaps declared "Frontend"))%Q.
Proof.
  intros declared.
  assert (H1 : required_skills_of "Frontend" <> []) by (vm_compute; discriminate).
  assert (H2 : lookup (role_key_of "Frontend") load_skill_hierarchy <> None)
    by (vm_compute; discriminate).
  assert (H3 : List.length (required_skills_of "Frontend") < List.length declared)
    by (vm_compute; repeat constructor).
  destruct (analyze_skill_gaps_percentage declared "Frontend")
    as (_ & _ & Hpct & _ & Hover).
  split; [auto |]. split.
  - rewrite (Hpct H1). vm_compute. reflexivity.
  - exact (Hover H2 H3).
Defined.

End SkillGapAnalysis.

(* ================================================================= *)
(** ** The curriculum builder *)

Section Builder.

Import AIPathGenerator.

(** C3.  [build_curriculum] answers with the curriculum of the first
    rule of the ordered rule list that accepts the normalised role
    key, and with the fullstack curriculum when no rule accepts it;
    it answers for every role string. *)
Theorem build_curriculum_routing
    (target_role : string) (skill_gaps : SkillGaps.t)
    (proficiency learning_pace : string) :
  build_curriculum target_role skill_gaps proficiency learning_pace
  = match Spec.first_match Spec.routing_rules (role_key_of target_role) with
    | Some selected => selected proficiency
    | None => generate_fullstack_curriculum proficiency
    end.
Proof.
  unfold build_curriculum, Spec.routing_rules, Spec.first_match, Spec.generator.
  set (k := role_key_of target_role).
  rewrite !eqb_or_contains.
  rewrite (contains_or_eqb "data" k "data_scientist") by reflexivity.
  rewrite (contains_or_eqb "mobile" k "mobile_app_developer") by reflexivity.
  rewrite (contains_or_eqb "ai" k "ai_engineer") by reflexivity.
  repeat (match goal with
          | |- context [if ?b then _ else _] => destruct b; [reflexivity |]
          end).
  reflexivity.
Qed.

(** The beginner and the advanced module lists of the five tracks
    that branch on the proficiency are different lists. *)
Lemma branching_tracks_differ (tr : Spec.track) (proficiency : string) :
  tr <> Spec.Frontend ->
  proficiency <> "beginner" ->
  Curriculum.modules (Spec.generator tr "beginner")
  <> Curriculum.modules (Spec.generator tr proficiency)
  /\ 3 <= List.length (Curriculum.modules (Spec.generator tr "beginner"))
  /\ List.length (Curriculum.modules (Spec.generator tr proficiency)) = 1
  /\ Forall (fun m => Mod.difficulty m = "advanced")
            (Curriculum.modules (Spec.generator tr proficiency)).
Proof.
  intros Htr Hp. apply String.eqb_neq in Hp.
  destruct tr; try (now contradiction Htr); simpl;
    unfold generate_fullstack_curriculum, generate_backend_curriculum,
      generate_datascience_curriculum, generate_mobile_curriculum,
      generate_devops_curriculum; simpl Curriculum.modules; rewrite Hp;
    (split; [intros E; apply (f_equal (@List.length Mod.t)) in E; discriminate E |]);
    (split; [vm_compute; repeat constructor |]);
    (split; [reflexivity | repeat constructor]).
Qed.

(** C2, as amended.  For every track but the frontend one, a
    proficiency other than beginner selects a one-module list of
    advanced difficulty that differs from the beginner list, which
    has at least three modules; the frontend generator returns the
    same single module for every proficiency. *)
Theorem generators_by_tier (tr : Spec.track) (proficiency : string) :
  proficiency <> "beginner" ->
  Curriculum.difficulty (Spec.generator tr proficiency) = proficiency
  /\ match tr with
     | Spec.Frontend =>
         Curriculum.modules (Spec.generator tr proficiency)
         = Curriculum.modules (Spec.generator tr "beginner")
         /\ List.length (Curriculum.modules (Spec.generator tr "beginner")) = 1
     | _ =>
         Curriculum.modules (Spec.generator tr "beginner")
         <> Curriculum.modules (Spec.generator tr proficiency)
         /\ 3 <= List.length (Curriculum.modules (Spec.generator tr "beginner"))
         /\ List.length (Curriculum.modules (Spec.generator tr proficiency)) = 1
         /\ Forall (fun m => Mod.difficulty m = "advanced")
                   (Curriculum.modules (Spec.generator tr proficiency))
     end.
Proof.
  intros Hp. split; [destruct tr; reflexivity |].
  destruct tr;
    try (apply branching_tracks_differ; [discriminate | assumption]).
  split; reflexivity.
Qed.

Lemma generators_by_tier_witness :
  "advanced" <> "beginner"
  /\ Curriculum.modules (generate_backend_curriculum "beginner")
     <> Curriculum.modules (generate_backend_curriculum "advanced").
Proof.
  assert (H : "advanced" <> "beginner") by discriminate.
  split; [exact H |].
  exact (proj1 (proj2 (generators_by_tier Spec.Backend "advanced" H))).
Defined.

(** The claim of C2 fails on the frontend track: its beginner and its
    advanced module lists are one and the same single module. *)
Lemma frontend_tiers_coincide :
  Curriculum.modules (generate_frontend_curriculum "beginner")
  = Curriculum.modules (generate_frontend_curriculum "advanced")
  /\ List.length (Curriculum.modules (generate_frontend_curriculum "beginner")) = 1
  /\ ~ (forall (tr : Spec.track) (p : string),
          In p ["intermediate"; "advanced"] ->
          Curriculum.modules (Spec.generator tr "beginner")
          <> Curriculum.modules (Spec.generator tr p)).
Proof.
  split; [reflexivity |]. split; [reflexivity |].
  intros H. apply (H Spec.Frontend "advanced"); [simpl; tauto | reflexivity].
Qed.

End Builder.

(* ================================================================= *)
(** ** The adaptive engine *)

Section Adaptive.

Import AIAdaptiveLearning.

Lemma avg_performance_empty : avg_performance [] = 0%Q.
Proof. reflexivity. Qed.




Lemma eqb_true_iff (x y : Q) : PyNum.eqb x y = true <-> (x == y)%Q.
Proof. apply Qeq_bool_iff. Qed.

Lemma eqb_false_iff (x y : Q) : PyNum.eqb x y = false <-> ~ (x == y)%Q.
Proof.
  rewrite <- eqb_true_iff. destruct (PyNum.eqb x y); split; congruence.
Qed.




End Adaptive.

(* ================================================================= *)
(** ** The sequencer *)

Section Sequencer.

Import AIPathGenerator.

Lemma negb_forallb_true_iff {A : Type} (f : A -> bool) (l : list A) :
  negb (forallb f l) = true <-> exists x, In x l /\ f x = false.
Proof.
  induction l as [| a l IH]; simpl.
  - split; [discriminate | intros [x [[] _]]].
  - destruct (f a) eqn:E; simpl.
    + rewrite IH. split.
      * intros [x [Hx Hf]]. exists x. tauto.
      * intros [x [[-> | Hx] Hf]]; [congruence | exists x; tauto].
    + split; [intros _; exists a; tauto | reflexivity].
Qed.

(** A lowered prerequisite is missing from the lowered skills exactly
    when no skill equals it up to letter case. *)
Lemma mem_lower_false_iff (p : string) (skills : list string) :
  PyStr.mem (PyStr.lower p) (map PyStr.lower skills) = false
  <-> forall s, In s skills -> ~ Spec.same_ignoring_case p s.
Proof.
  rewrite mem_false_iff, in_map_iff. unfold Spec.same_ignoring_case. split.
  - intros H s Hs E. apply H. exists s. split; [symmetry; exact E | exact Hs].
  - intros H [s [E Hs]]. apply (H s Hs). symmetry. exact E.
Qed.

Lemma lock_topic_spec (skills : list string) (x : Topic.t) :
  exists b : bool,
    lock_topic (map PyStr.lower skills) x = Topic.set_locked b x
    /\ (b = true <->
        exists p, In p (prerequisites_of x)
                  /\ forall s, In s skills -> ~ Spec.same_ignoring_case p s)
    /\ (prerequisites_of x = [] -> b = false).
Proof.
  unfold lock_topic. eexists. split; [reflexivity |]. split.
  - rewrite negb_forallb_true_iff. split.
    + intros [p [Hp Hm]]. exists p. split; [exact Hp |].
      now apply mem_lower_false_iff.
    + intros [p [Hp Hm]]. exists p. split; [exact Hp |].
      now apply mem_lower_false_iff.
  - intros ->. reflexivity.
Qed.

Lemma lock_topic_idempotent (lowered : list string) (x : Topic.t) :
  lock_topic lowered (lock_topic lowered x) = lock_topic lowered x.
Proof. reflexivity. Qed.

Lemma all_topics_optimized (c : Curriculum.t) (skills : list string) :
  Curriculum.all_topics (optimize_learning_sequence c skills)
  = map (lock_topic (map PyStr.lower skills)) (Curriculum.all_topics c).
Proof.
  unfold optimize_learning_sequence, Curriculum.all_topics. simpl.
  induction (Curriculum.modules c) as [| m ms IH]; simpl; [reflexivity |].
  rewrite map_app, IH. reflexivity.
Qed.

Lemma Forall2_map_right {A B : Type} (R : A -> B -> Prop) (f : A -> B) (l : list A) :
  (forall x, In x l -> R x (f x)) -> Forall2 R l (map f l).
Proof.
  induction l as [| a l IH]; simpl; intros H; constructor.
  - apply H. now left.
  - apply IH. intros x Hx. apply H. now right.
Qed.

(** C7.  [optimize_learning_sequence] rewrites the [locked] key of
    every topic and nothing else; the new value is true exactly when
    some prerequisite equals no declared skill up to letter case, so
    a topic without prerequisites is unlocked; running the operation
    again with the same skills changes nothing. *)
Theorem optimize_learning_sequence_locks
    (curriculum : Curriculum.t) (current_skills : list string) :
  let once := optimize_learning_sequence curriculum current_skills in
  Forall2
    (fun x x' =>
       exists b : bool,
         x' = Topic.set_locked b x
         /\ (b = true <->
             exists p, In p (prerequisites_of x)
                       /\ forall s, In s current_skills ->
                                    ~ Spec.same_ignoring_case p s)
         /\ (prerequisites_of x = [] -> b = false))
    (Curriculum.all_topics curriculum) (Curriculum.all_topics once)
  /\ Forall2 (fun m m' => m' = Mod.set_topics (Mod.topics m') m
                          /\ List.length (Mod.topics m') = List.length (Mod.topics m))
       (Curriculum.modules curriculum) (Curriculum.modules once)
  /\ optimize_learning_sequence once current_skills = once.
Proof.
  intros once. subst once. split; [| split].
  - rewrite all_topics_optimized. apply Forall2_map_right.
    intros x _. apply lock_topic_spec.
  - unfold optimize_learning_sequence. simpl. apply Forall2_map_right.
    intros m _. simpl. split; [reflexivity | apply length_map].
  - unfold optimize_learning_sequence, Curriculum.set_modules. simpl. f_equal.
    rewrite map_map. apply map_ext. intros m. simpl.
    unfold Mod.set_topics. simpl. f_equal.
    rewrite map_map. apply map_ext. intros x. apply lock_topic_idempotent.
Qed.

End Sequencer.

(* ================================================================= *)
(** ** The weekly scheduler *)

Section Scheduler.

Import AIRecommender.

Variable hours_per_day : Q.

(** What one day takes is a leading part of what was still to place;
    a day that took something stays within the daily budget. *)
Lemma fill_day_prefix (upcoming daily_topics : list Topic.t) (day_hours : Q) :
  exists (placed rest : list Topic.t) (total : Q),
    fill_day hours_per_day day_hours daily_topics upcoming
    = (daily_topics ++ placed, total, rest)
    /\ upcoming = placed ++ rest
    /\ ((placed = [] /\ total = day_hours) \/ (total <= hours_per_day)%Q).
Proof.
  revert daily_topics day_hours.
  induction upcoming as [| x rest IH]; intros daily_topics day_hours; simpl.
  - exists [], [], day_hours. rewrite app_nil_r. auto.
  - destruct (PyNum.ltb day_hours hours_per_day);
      [| exists [], (x :: rest), day_hours; rewrite app_nil_r; auto].
    destruct (PyNum.leb (day_hours + hours_of 2 x) hours_per_day) eqn:Hfit;
      [| exists [], (x :: rest), day_hours; rewrite app_nil_r; auto].
    destruct (IH (daily_topics ++ [x]) (day_hours + hours_of 2 x)%Q)
      as (placed & rest' & total & Heq & Hsplit & Hbound).
    exists (x :: placed), rest', total.
    rewrite Heq, <- app_assoc. simpl. split; [reflexivity |].
    split; [now rewrite Hsplit |].
    right. destruct Hbound as [[_ ->] | Hb]; [| exact Hb].
    now apply leb_iff.
Qed.

(** A topic that exceeds the daily budget stops the day, provided the
    hours accumulated so far are not negative. *)
Lemma fill_day_blocked (pre post daily_topics : list Topic.t) (x : Topic.t)
    (day_hours : Q) :
  (hours_per_day < hours_of 2 x)%Q ->
  Forall (fun y => (0 <= hours_of 2 y)%Q) pre ->
  (0 <= day_hours)%Q ->
  exists (placed pre' : list Topic.t) (total : Q),
    fill_day hours_per_day day_hours daily_topics (pre ++ x :: post)
    = (daily_topics ++ placed, total, pre' ++ x :: post)
    /\ pre = placed ++ pre'.
Proof.
  intros Hbig. revert daily_topics day_hours.
  induction pre as [| y pre IH]; intros daily_topics day_hours Hpre Hday; simpl.
  - exists [], [], day_hours. rewrite app_nil_r. split; [| reflexivity].
    destruct (PyNum.ltb day_hours hours_per_day); [| reflexivity].
    assert (Hno : PyNum.leb (day_hours + hours_of 2 x) hours_per_day = false).
    { apply leb_false_iff.
      apply Qlt_le_trans with (hours_of 2 x); [exact Hbig |].
      rewrite <- (Qplus_0_l (hours_of 2 x)) at 1.
      apply Qplus_le_compat; [exact Hday | apply Qle_refl]. }
    rewrite Hno. reflexivity.
  - inversion Hpre as [| ? ? Hy Hpre']; subst.
    destruct (PyNum.ltb day_hours hours_per_day);
      [| exists [], (y :: pre), day_hours; rewrite app_nil_r; auto].
    destruct (PyNum.leb (day_hours + hours_of 2 y) hours_per_day);
      [| exists [], (y :: pre), day_hours; rewrite app_nil_r; auto].
    assert (Hday' : (0 <= day_hours + hours_of 2 y)%Q).
    { rewrite <- (Qplus_0_l 0). now apply Qplus_le_compat. }
    destruct (IH (daily_topics ++ [y]) (day_hours + hours_of 2 y)%Q Hpre' Hday')
      as (placed & pre' & total & Heq & Hsplit).
    exists (y :: placed), pre', total.
    rewrite Heq, <- app_assoc. simpl. split; [reflexivity | now rewrite Hsplit].
Qed.

(** The days added by the loop place a leading part of the topics and
    each of them stays within the daily budget. *)
Lemma plan_days_prefix (days : list string) (upcoming : list Topic.t)
    (schedule : Schedule.t) :
  exists (added : list (string * Schedule.day_plan)) (rest : list Topic.t),
    Schedule.daily_breakdown (plan_days hours_per_day days upcoming schedule)
    = Schedule.daily_breakdown schedule ++ added
    /\ upcoming = flat_map Spec.day_topics added ++ rest
    /\ Forall (Spec.within_budget hours_per_day) added.
Proof.
  revert upcoming schedule.
  induction days as [| day days IH]; intros upcoming schedule; simpl.
  - exists [], upcoming. rewrite app_nil_r. auto.
  - destruct upcoming as [| x upcoming'].
    + exists [], []. rewrite app_nil_r. auto.
    + destruct (fill_day_prefix (x :: upcoming') [] 0%Q)
        as (placed & rest & total & Heq & Hsplit & Hbound).
      rewrite Heq. simpl app.
      destruct placed as [| p placed'].
      * destruct (IH rest schedule) as (added & rest' & Hd & Hs & Hb).
        exists added, rest'. rewrite Hsplit. auto.
      * match goal with
        | |- context [plan_days _ _ _ ?s] => destruct (IH rest s) as (added & rest' & Hd & Hs & Hb)
        end.
        simpl in Hd.
        exists ((day, Schedule.mk_day (p :: placed') total) :: added), rest'.
        rewrite Hd, <- app_assoc. split; [reflexivity |]. split.
        -- rewrite Hsplit, Hs. simpl. unfold Spec.day_topics at 1. simpl.
           now rewrite <- app_assoc.
        -- constructor; [| exact Hb]. unfold Spec.within_budget. simpl.
           destruct Hbound as [[Hnil _] | Hb']; [discriminate | exact Hb'].
Qed.

(** With non-negative hours before it, a topic that exceeds the daily
    budget is never passed by the loop over the days. *)
Lemma plan_days_blocked (days : list string) (pre post : list Topic.t) (x : Topic.t)
    (schedule : Schedule.t) :
  (hours_per_day < hours_of 2 x)%Q ->
  Forall (fun y => (0 <= hours_of 2 y)%Q) pre ->
  exists (added : list (string * Schedule.day_plan)) (pre' : list Topic.t),
    Schedule.daily_breakdown
      (plan_days hours_per_day days (pre ++ x :: post) schedule)
    = Schedule.daily_breakdown schedule ++ added
    /\ pre = flat_map Spec.day_topics added ++ pre'.
Proof.
  intros Hbig. revert pre schedule.
  induction days as [| day days IH]; intros pre schedule Hpre; simpl.
  - exists [], pre. rewrite app_nil_r. auto.
  - destruct (pre ++ x :: post) as [| z zs] eqn:Hz;
      [destruct pre; discriminate |].
    rewrite <- Hz. clear Hz z zs.
    destruct (fill_day_blocked pre post [] x 0%Q Hbig Hpre (Qle_refl 0))
      as (placed & pre' & total & Heq & Hsplit).
    rewrite Heq. simpl app.
    assert (Hpre' : Forall (fun y => (0 <= hours_of 2 y)%Q) pre').
    { rewrite Hsplit in Hpre. apply Forall_app in Hpre. tauto. }
    destruct placed as [| p placed'].
    + destruct (IH pre' schedule Hpre') as (added & pre'' & Hd & Hs).
      exists added, pre''. rewrite Hsplit. auto.
    + match goal with
      | |- context [plan_days _ _ _ ?s] =>
          destruct (IH pre' s Hpre') as (added & pre'' & Hd & Hs)
      end.
      simpl in Hd.
      exists ((day, Schedule.mk_day (p :: placed') total) :: added), pre''.
      rewrite Hd, <- app_assoc. split; [reflexivity |].
      rewrite Hsplit, Hs. simpl. unfold Spec.day_topics at 1. simpl.
      now rewrite <- app_assoc.
Qed.

End Scheduler.

Section SchedulerClaims.

Import AIRecommender.

(** C10, as amended.  With a positive daily budget every scheduled
    day totals at most the budget and the scheduled topics are a
    leading part of the input list; when a topic exceeds the budget
    and no topic before it has negative hours, the scheduled topics
    all come before it: neither that topic nor any later one is
    placed on any of the seven days. *)
Theorem suggest_study_schedule_blocking
    (available_hours : Q) (learning_pace : string) (upcoming_topics : list Topic.t) :
  (0 < available_hours)%Q ->
  let s := suggest_study_schedule available_hours learning_pace upcoming_topics in
  Forall (Spec.within_budget available_hours) (Schedule.daily_breakdown s)
  /\ (exists rest, upcoming_topics = Spec.scheduled s ++ rest)
  /\ (forall (pre post : list Topic.t) (x : Topic.t),
        upcoming_topics = pre ++ x :: post ->
        (available_hours < hours_of 2 x)%Q ->
        Forall (fun y => (0 <= hours_of 2 y)%Q) pre ->
        exists pre', pre = Spec.scheduled s ++ pre').
Proof.
  intros _ s. subst s. unfold suggest_study_schedule, Spec.scheduled.
  split; [| split].
  - destruct (plan_days_prefix available_hours days_of_week upcoming_topics
                (Schedule.mk [] [] 0%Q)) as (added & rest & Hd & _ & Hb).
    rewrite Hd. exact Hb.
  - destruct (plan_days_prefix available_hours days_of_week upcoming_topics
                (Schedule.mk [] [] 0%Q)) as (added & rest & Hd & Hs & _).
    rewrite Hd. exists rest. exact Hs.
  - intros pre post x -> Hbig Hpre.
    destruct (plan_days_blocked available_hours days_of_week pre post x
                (Schedule.mk [] [] 0%Q) Hbig Hpre) as (added & pre' & Hd & Hs).
    rewrite Hd. exists pre'. exact Hs.
Qed.

Lemma suggest_study_schedule_blocking_witness :
  let short := Topic.mk "t1" "Short" "" (Some []) [] None (Some 1%Q) in
  let long := Topic.mk "t2" "Long" "" (Some []) [] None (Some 5%Q) in
  let late := Topic.mk "t3" "Late" "" (Some []) [] None (Some 1%Q) in
  (0 < 2)%Q
  /\ Spec.scheduled (suggest_study_schedule 2 "moderate" [short; long; late]) = [short]
  /\ exists pre',
       [short] = Spec.scheduled (suggest_study_schedule 2 "moderate" [short; long; late])
                 ++ pre'.
Proof.
  intros short long late.
  assert (Hpos : (0 < 2)%Q) by reflexivity.
  split; [exact Hpos |]. split; [reflexivity |].
  refine (proj2 (proj2 (suggest_study_schedule_blocking 2 "moderate"
                          [short; long; late] Hpos)) [short] [late] long eq_refl _ _).
  - reflexivity.
  - repeat constructor. discriminate.
Defined.

(** The claim of C10 fails when hours may be negative: with a budget
    of 2 a topic of -5 hours lets the 6-hour topic after it through. *)
Lemma negative_hours_unblock :
  let credit := Topic.mk "t1" "Credit" "" (Some []) [] None (Some (-5)%Q) in
  let long := Topic.mk "t2" "Long" "" (Some []) [] None (Some 6%Q) in
  (0 < 2)%Q /\ (2 < hours_of 2 long)%Q
  /\ Spec.scheduled (suggest_study_schedule 2 "moderate" [credit; long])
     = [credit; long].
Proof.
  intros credit long. split; [reflexivity |]. split; reflexivity.
Qed.

End SchedulerClaims.

(* ================================================================= *)
(** ** The recommender *)

Section Recommender.

Import AIRecommender.

Variables user_progress user_skills : list string.
Variable learning_path : Curriculum.t.

Lemma is_completed_iff (p : string) :
  _is_completed p user_progress learning_path = true
  <-> Spec.completed_title user_progress learning_path p.
Proof.
  unfold _is_completed, Spec.completed_title. rewrite existsb_exists. split.
  - intros [m [Hm Hx]]. apply existsb_exists in Hx. destruct Hx as [x [Hx Ht]].
    apply andb_true_iff in Ht. destruct Ht as [Ht Hi].
    apply String.eqb_eq in Ht. apply mem_true_iff in Hi.
    exists m, x. auto.
  - intros (m & x & Hm & Hx & Ht & Hi). exists m. split; [exact Hm |].
    apply existsb_exists. exists x. split; [exact Hx |].
    apply andb_true_iff. split; [now apply String.eqb_eq | now apply mem_true_iff].
Qed.

Lemma prereqs_met_iff (x : Topic.t) :
  prereqs_met user_progress user_skills learning_path x = true
  <-> forall p, In p (AIPathGenerator.prerequisites_of x) ->
                Spec.resolves_literally user_skills user_progress learning_path p.
Proof.
  unfold prereqs_met, Spec.resolves_literally. rewrite forallb_forall.
  split; intros H p Hp; specialize (H p Hp).
  - apply orb_true_iff in H. rewrite mem_true_iff, is_completed_iff in H. exact H.
  - apply orb_true_iff. rewrite mem_true_iff, is_completed_iff. exact H.
Qed.

Lemma qualifies_iff (mx : Mod.t * Topic.t) :
  qualifies user_progress user_skills learning_path mx = true
  <-> ~ In (Topic.id (snd mx)) user_progress
      /\ locked_of (snd mx) = false
      /\ forall p, In p (AIPathGenerator.prerequisites_of (snd mx)) ->
                   Spec.resolves_literally user_skills user_progress learning_path p.
Proof.
  unfold qualifies.
  rewrite !andb_true_iff, !negb_true_iff, mem_false_iff, prereqs_met_iff. tauto.
Qed.

Lemma collect_filter :
  collect user_progress user_skills learning_path
  = map (fun mx => recommendation_for (fst mx) (snd mx))
        (filter (qualifies user_progress user_skills learning_path)
                (Curriculum.scan learning_path)).
Proof.
  unfold collect, Curriculum.scan.
  induction (Curriculum.modules learning_path) as [| m ms IH]; simpl; [reflexivity |].
  rewrite filter_app, map_app, IH. f_equal. clear IH.
  induction (Mod.topics m) as [| x xs IHx]; simpl; [reflexivity |].
  rewrite IHx. unfold visit, qualifies. simpl.
  destruct (PyStr.mem (Topic.id x) user_progress); simpl; [reflexivity |].
  destruct (prereqs_met user_progress user_skills learning_path x && negb (locked_of x));
    reflexivity.
Qed.

Lemma sort_by_priority_constant (l : list Recommendation.t) :
  Forall (fun r => Recommendation.priority r = "high") l ->
  sort_by_priority l = l.
Proof.
  induction 1 as [| r l Hr Hl IH]; simpl; [reflexivity |].
  fold (sort_by_priority l). rewrite IH.
  destruct l as [| y l']; simpl; [reflexivity |].
  inversion Hl as [| ? ? Hy _]; subst. rewrite Hr, Hy. reflexivity.
Qed.

Lemma collect_priority :
  Forall (fun r => Recommendation.priority r = "high")
         (collect user_progress user_skills learning_path).
Proof.
  rewrite collect_filter. apply Forall_forall. intros r Hr.
  apply in_map_iff in Hr. destruct Hr as [mx [<- _]]. reflexivity.
Qed.

(** The exact shape of the answer: the first five qualifying topics
    of the scan, the sort being idle on a constant key. *)
Lemma recommend_next_topics_shape :
  recommend_next_topics user_progress user_skills learning_path
  = firstn 5 (map (fun mx => recommendation_for (fst mx) (snd mx))
                  (filter (qualifies user_progress user_skills learning_path)
                (Curriculum.scan learning_path))).
Proof.
  unfold recommend_next_topics.
  rewrite (sort_by_priority_constant _ collect_priority), collect_filter.
  reflexivity.
Qed.

Lemma literally_ignoring_case (p : string) :
  Spec.resolves_literally user_skills user_progress learning_path p ->
  Spec.resolves_ignoring_case user_skills user_progress learning_path p.
Proof.
  intros [H | H]; [left | right; exact H].
  exists p. split; [exact H | reflexivity].
Qed.

End Recommender.

Section RecommenderClaims.

Import AIRecommender.

(** C1, as amended.  [recommend_next_topics] returns the first five,
    in scan order, of the topics it keeps.  A kept topic is not
    completed, not locked, and each of its prerequisites is a
    declared skill up to letter case or the exact title of a topic
    whose id is completed; and a topic that is not completed, not
    locked, and whose prerequisites are each a declared skill letter
    for letter or such a title is kept. *)
Theorem recommend_next_topics_gate
    (user_progress user_skills : list string) (learning_path : Curriculum.t) :
  exists keep : Mod.t * Topic.t -> bool,
    recommend_next_topics user_progress user_skills learning_path
    = firstn 5 (map (fun mx => recommendation_for (fst mx) (snd mx))
                    (filter keep (Curriculum.scan learning_path)))
    /\ forall (m : Mod.t) (x : Topic.t),
         (keep (m, x) = true ->
          ~ In (Topic.id x) user_progress
          /\ locked_of x = false
          /\ forall p, In p (AIPathGenerator.prerequisites_of x) ->
               Spec.resolves_ignoring_case user_skills user_progress learning_path p)
         /\ (~ In (Topic.id x) user_progress ->
             locked_of x = false ->
             (forall p, In p (AIPathGenerator.prerequisites_of x) ->
                Spec.resolves_literally user_skills user_progress learning_path p) ->
             keep (m, x) = true).
Proof.
  exists (qualifies user_progress user_skills learning_path).
  split; [apply recommend_next_topics_shape |].
  intros m x. split.
  - intros H. apply qualifies_iff in H. simpl in H.
    destruct H as (H1 & H2 & H3). repeat split; try assumption.
    intros p Hp. apply literally_ignoring_case. now apply H3.
  - intros H1 H2 H3. apply qualifies_iff. simpl. auto.
Qed.

(** The claim of C1 fails in two ways on the fullstack catalogue.  With
    seven topics completed, six topics are ready and the sixth,
    topic_5_4, is left out by the cut after five.  With the one skill
    introduction to programming, in lower case, topic_1_2 is unlocked
    by the sequencer and its prerequisite is a declared skill up to
    letter case, yet the path of four recommendations omits it. *)
Lemma recommend_next_topics_not_exact :
  let path := AIPathGenerator.generate_fullstack_curriculum "beginner" in
  let progress :=
    ["topic_1_1"; "topic_1_2"; "topic_1_3"; "topic_2_1"; "topic_2_2";
     "topic_5_1"; "topic_5_2"] in
  let skills := ["introduction to programming"] in
  let sequenced := AIPathGenerator.optimize_learning_sequence path skills in
  (map Recommendation.topic_id (recommend_next_topics progress [] path)
   = ["topic_1_4"; "topic_1_5"; "topic_2_3"; "topic_2_4"; "topic_5_3"]
   /\ exists m x,
        In (m, x) (Curriculum.scan path)
        /\ Topic.id x = "topic_5_4"
        /\ ~ In (Topic.id x) progress
        /\ locked_of x = false
        /\ forall p, In p (AIPathGenerator.prerequisites_of x) ->
                     Spec.resolves_ignoring_case [] progress path p)
  /\ (map Recommendation.topic_id (recommend_next_topics [] skills sequenced)
      = ["topic_1_1"; "topic_1_5"; "topic_2_1"; "topic_5_1"]
      /\ exists m x,
           In (m, x) (Curriculum.scan sequenced)
           /\ Topic.id x = "topic_1_2"
           /\ ~ In (Topic.id x) []
           /\ locked_of x = false
           /\ forall p, In p (AIPathGenerator.prerequisites_of x) ->
                        Spec.resolves_ignoring_case skills [] sequenced p).
Proof.
  intros path progress skills sequenced. split.
  - split; [vm_compute; reflexivity |].
    eexists. eexists. split; [do 21 right; left; reflexivity |].
    split; [reflexivity |].
    split; [intros H; simpl in H; intuition discriminate |].
    split; [reflexivity |].
    intros p Hp. simpl in Hp. destruct Hp as [<- | []].
    right. apply is_completed_iff. vm_compute. reflexivity.
  - split; [vm_compute; reflexivity |].
    eexists. eexists. split; [right; left; reflexivity |].
    split; [reflexivity |].
    split; [intros []|].
    split; [vm_compute; reflexivity |].
    intros p Hp. simpl in Hp. destruct Hp as [<- | []].
    left. exists "introduction to programming". split; [now left | reflexivity].
Qed.

End RecommenderClaims.

(* ================================================================= *)
(** ** The time estimator *)

Section Rounding.

Lemma round_half_even_Z (x : Q) (n : Z) :
  (x == inject_Z n)%Q -> PyNum.round_half_even x = n.
Proof.
  intros H. unfold PyNum.round_half_even. cbv zeta.
  assert (Hf : Qfloor x = n) by (rewrite H; apply Qfloor_Z).
  rewrite Hf.
  assert (Hc : Qcompare (x - inject_Z n) (1 # 2) = Lt).
  { assert (E : (x - inject_Z n == 0)%Q) by (rewrite H; ring).
    rewrite E. reflexivity. }
  rewrite Hc. reflexivity.
Qed.

Lemma round1_tenths (q : Q) : Spec.tenths q -> (PyNum.round1 q == q)%Q.
Proof.
  intros [n Hn]. unfold PyNum.round1.
  rewrite (round_half_even_Z _ _ Hn), <- Hn. field.
Qed.

Lemma tenths_zero : Spec.tenths 0.
Proof. exists 0%Z. reflexivity. Qed.

Lemma tenths_plus (a b : Q) : Spec.tenths a -> Spec.tenths b -> Spec.tenths (a + b).
Proof.
  intros [n Hn] [m Hm]. exists (n + m)%Z.
  rewrite inject_Z_plus, <- Hn, <- Hm. ring.
Qed.


Lemma total_nonneg (l : list Q) :
  Forall (fun q => (0 <= q)%Q) l -> (0 <= Spec.total l)%Q.
Proof.
  induction 1 as [| q l Hq _ IH]; simpl; [apply Qle_refl |].
  rewrite <- (Qplus_0_l 0). now apply Qplus_le_compat.
Qed.


End Rounding.

Section Estimator.

Import AIPathGenerator.

Lemma multiplier_positive (proficiency : string) : (0 < multiplier_of proficiency)%Q.
Proof.
  unfold multiplier_of.
  destruct (String.eqb proficiency "beginner"); [reflexivity |].
  destruct (String.eqb proficiency "intermediate"); [reflexivity |].
  destruct (String.eqb proficiency "advanced"); reflexivity.
Qed.

Lemma multiplier_tenths (proficiency : string) (b : Z) :
  Spec.tenths (inject_Z b * multiplier_of proficiency).
Proof.
  unfold multiplier_of, Spec.tenths.
  destruct (String.eqb proficiency "beginner");
    [exists (b * 15)%Z; rewrite inject_Z_mult; change (inject_Z 15) with 15%Q; field |].
  destruct (String.eqb proficiency "intermediate");
    [exists (b * 10)%Z; rewrite inject_Z_mult; change (inject_Z 10) with 10%Q; ring |].
  destruct (String.eqb proficiency "advanced");
    [exists (b * 7)%Z; rewrite inject_Z_mult; change (inject_Z 7) with 7%Q; field
    | exists (b * 10)%Z; rewrite inject_Z_mult; change (inject_Z 10) with 10%Q; ring].
Qed.


(** On binary64 numbers too, each of the seven draws gives, under each
    of the three multipliers, an estimate within the stated range that
    agrees with the rational model. *)
Lemma binary64_estimates_in_range :
  forallb
    (fun m => forallb (Spec.binary64_estimate_ok (fst m) (snd m)) [2; 3; 4; 5; 6; 7; 8]%Z)
    [(3, 2); (1, 1); (7, 10)]%Z
  = true.
Proof. vm_compute. reflexivity. Qed.

Variable randint : nat -> Z.
Hypothesis randint_range : forall i, (2 <= randint i <= 8)%Z.

Variable multiplier : Q.
Hypothesis multiplier_pos : (0 < multiplier)%Q.
Hypothesis adjusted_tenths : forall b : Z, Spec.tenths (inject_Z b * multiplier).

Lemma adjusted_range (i : nat) :
  (2 * multiplier <= inject_Z (randint i) * multiplier)%Q
  /\ (inject_Z (randint i) * multiplier <= 8 * multiplier)%Q.
Proof.
  destruct (randint_range i) as [Hlo Hhi].
  split; apply Qmult_le_compat_r; try (now apply Qlt_le_weak).
  - change 2%Q with (inject_Z 2). now rewrite <- Zle_Qle.
  - change 8%Q with (inject_Z 8). now rewrite <- Zle_Qle.
Qed.

Lemma estimate_topics_spec (ts : list Topic.t) :
  forall (k : nat) (h : Q),
    Spec.tenths h ->
    exists (ts' : list Topic.t) (h' : Q),
      estimate_topics randint k multiplier ts h = (ts', h', k + List.length ts)
      /\ Forall2 (Spec.estimated_within (2 * multiplier) (8 * multiplier)) ts ts'
      /\ (h' == h + Spec.total (map (AIRecommender.hours_of 0) ts'))%Q
      /\ Spec.tenths h'.
Proof.
  induction ts as [| x ts IH]; intros k h Hh; simpl.
  - exists [], h. rewrite Nat.add_0_r. repeat split; try constructor; try assumption.
    simpl. ring.
  - set (adjusted := (inject_Z (randint k) * multiplier)%Q).
    assert (Hadj : Spec.tenths adjusted) by apply adjusted_tenths.
    assert (Hround : (PyNum.round1 adjusted == adjusted)%Q) by now apply round1_tenths.
    destruct (IH (S k) (h + adjusted)%Q (tenths_plus _ _ Hh Hadj))
      as (ts' & h' & Heq & Hall & Hsum & Hten).
    rewrite Heq.
    exists (Topic.set_estimated_hours (PyNum.round1 adjusted) x :: ts'), h'.
    rewrite Nat.add_succ_r. split; [reflexivity |]. split; [| split; [| exact Hten]].
    + constructor; [| exact Hall].
      exists (PyNum.round1 adjusted). split; [reflexivity |].
      rewrite Hround. apply adjusted_range.
    + rewrite Hsum. simpl. unfold AIRecommender.hours_of at 2. simpl.
      rewrite Hround. ring.
Qed.

Lemma estimated_total_nonneg (ts ts' : list Topic.t) :
  Forall2 (Spec.estimated_within (2 * multiplier) (8 * multiplier)) ts ts' ->
  (0 <= Spec.total (map (AIRecommender.hours_of 0) ts'))%Q.
Proof.
  intros H. apply total_nonneg. apply Forall_map.
  induction H as [| x x' ts ts' Hx _ IH]; constructor; [| exact IH].
  destruct Hx as (e & -> & Hlo & _). simpl.
  apply Qle_trans with (2 * multiplier)%Q; [| exact Hlo].
  apply Qmult_le_0_compat; [discriminate | now apply Qlt_le_weak].
Qed.

Variable daily_hours : Q.

Lemma estimate_modules_spec (ms : list Mod.t) :
  forall (k : nat) (w : Q),
    exists (ms' : list Mod.t) (w' : Q) (k' : nat),
      estimate_modules randint k multiplier daily_hours ms w = (ms', w', k')
      /\ Forall2 (Spec.estimated_within (2 * multiplier) (8 * multiplier))
           (flat_map Mod.topics ms) (flat_map Mod.topics ms')
      /\ Forall Spec.hours_rolled_up ms'
      /\ (w' == w + (if PyNum.ltb 0 daily_hours
                     then Spec.total
                            (map (fun m => Spec.module_hours m / daily_hours / 7) ms')
                     else 0))%Q.
Proof.
  induction ms as [| m ms IH]; intros k w; simpl.
  - exists [], w, k. repeat split; try constructor.
    destruct (PyNum.ltb 0 daily_hours); simpl; ring.
  - destruct (estimate_topics_spec (Mod.topics m) k 0%Q tenths_zero)
      as (ts' & h' & Heq & Hall & Hsum & Hten).
    rewrite Heq.
    assert (Hh : (h' == Spec.total (map (AIRecommender.hours_of 0) ts'))%Q)
      by (rewrite Hsum; ring).
    match goal with
    | |- context [estimate_modules _ ?k1 _ _ _ ?w1] =>
        destruct (IH k1 w1) as (ms' & w' & k' & Hm & Hall' & Hroll & Hw)
    end.
    rewrite Hm. eexists (_ :: ms'), w', k'.
    split; [reflexivity |]. simpl. split; [| split].
    + apply Forall2_app; assumption.
    + constructor; [| exact Hroll]. unfold Spec.hours_rolled_up, Spec.module_hours.
      simpl. split.
      * exists (PyNum.round1 h'). split; [reflexivity |].
        rewrite (round1_tenths _ Hten). exact Hh.
      * eapply estimated_total_nonneg; eassumption.
    + rewrite Hw. unfold Spec.module_hours at 2. simpl.
      destruct (PyNum.ltb 0 daily_hours); simpl; [rewrite Hh |]; ring.
Qed.

End Estimator.

Section EstimatorClaims.

Import AIPathGenerator.



End EstimatorClaims.

(* ================================================================= *)
(** ** Further properties: recommender, gap analyser, sequencer *)

Section ListFacts.

Lemma In_firstn_list {A : Type} (n : nat) (l : list A) (x : A) :
  In x (firstn n l) -> In x l.
Proof.
  intros H. rewrite <- (firstn_skipn n l). apply in_or_app. now left.
Qed.

Lemma Forall2_map_both {A B C : Type} (R : B -> C -> Prop) (f : A -> B) (g : A -> C)
    (l : list A) :
  (forall x, In x l -> R (f x) (g x)) -> Forall2 R (map f l) (map g l).
Proof.
  induction l as [| a l IH]; simpl; intros H; constructor.
  - apply H. now left.
  - apply IH. intros x Hx. apply H. now right.
Qed.

Lemma scan_In (c : Curriculum.t) (m : Mod.t) (x : Topic.t) :
  In (m, x) (Curriculum.scan c) <-> In m (Curriculum.modules c) /\ In x (Mod.topics m).
Proof.
  unfold Curriculum.scan. rewrite in_flat_map. split.
  - intros [m' [Hm Hx]]. apply in_map_iff in Hx. destruct Hx as [x' [E Hx]].
    injection E as -> ->. auto.
  - intros [Hm Hx]. exists m. split; [exact Hm |]. apply in_map_iff. now exists x.
Qed.

Lemma scan_all_topics (c : Curriculum.t) (m : Mod.t) (x : Topic.t) :
  In (m, x) (Curriculum.scan c) -> In x (Curriculum.all_topics c).
Proof.
  intros H. apply scan_In in H. destruct H as [Hm Hx].
  unfold Curriculum.all_topics. apply in_flat_map. now exists m.
Qed.

Lemma mem_lower_true_iff (p : string) (skills : list string) :
  PyStr.mem (PyStr.lower p) (map PyStr.lower skills) = true
  <-> exists s, In s skills /\ Spec.same_ignoring_case p s.
Proof.
  rewrite mem_true_iff, in_map_iff. unfold Spec.same_ignoring_case. split.
  - intros [s [E Hs]]. exists s. split; [exact Hs | now symmetry].
  - intros [s [Hs E]]. exists s. split; [now symmetry | exact Hs].
Qed.

End ListFacts.

Section RecommenderExtras.

Import AIRecommender.

(** X1.  [recommend_next_topics] returns at most five entries; each of
    them describes a topic of the path that is not locked, has an id
    outside the completed ids, and carries the priority high. *)
Theorem recommend_next_topics_never_completed
    (user_progress user_skills : list string) (learning_path : Curriculum.t) :
  let recs := recommend_next_topics user_progress user_skills learning_path in
  List.length recs <= 5
  /\ forall r, In r recs ->
       ~ In (Recommendation.topic_id r) user_progress
       /\ Recommendation.priority r = "high"
       /\ exists m x,
            In m (Curriculum.modules learning_path) /\ In x (Mod.topics m)
            /\ r = recommendation_for m x /\ locked_of x = false.
Proof.
  intros recs. subst recs. rewrite recommend_next_topics_shape. split.
  - rewrite length_firstn. apply Nat.le_min_l.
  - intros r Hr. apply In_firstn_list in Hr. apply in_map_iff in Hr.
    destruct Hr as [[m x] [<- Hmx]]. apply filter_In in Hmx.
    destruct Hmx as [Hscan Hq]. apply qualifies_iff in Hq. simpl in Hq.
    destruct Hq as (Hnot & Hlock & _). apply scan_In in Hscan.
    split; [exact Hnot |]. split; [reflexivity |].
    exists m, x. tauto.
Qed.

(** X2.  On a path that went through [optimize_learning_sequence] with
    the skills [generation_skills], every recommendation is for a topic
    whose prerequisites are all among those skills up to letter case,
    whatever has been completed since and whatever skills are passed
    to the recommender: completing a prerequisite topic does not
    unlock the topics that depend on it. *)
Theorem sequenced_path_recommends_skill_ready_only
    (curriculum : Curriculum.t) (generation_skills : list string)
    (user_progress user_skills : list string) :
  Forall
    (fun r =>
       exists x,
         In x (Curriculum.all_topics curriculum)
         /\ Recommendation.topic_id r = Topic.id x
         /\ forall p, In p (AIPathGenerator.prerequisites_of x) ->
              exists s, In s generation_skills /\ Spec.same_ignoring_case p s)
    (recommend_next_topics user_progress user_skills
       (AIPathGenerator.optimize_learning_sequence curriculum generation_skills)).
Proof.
  apply Forall_forall.
  intros r Hr. rewrite recommend_next_topics_shape in Hr.
  apply In_firstn_list in Hr. apply in_map_iff in Hr.
  destruct Hr as [[m x'] [<- Hmx]]. apply filter_In in Hmx.
  destruct Hmx as [Hscan Hq]. apply qualifies_iff in Hq. simpl in Hq.
  destruct Hq as (_ & Hlock & _).
  apply scan_all_topics in Hscan. rewrite all_topics_optimized in Hscan.
  apply in_map_iff in Hscan. destruct Hscan as [x [<- Hx]].
  exists x. split; [exact Hx |]. split; [reflexivity |].
  intros p Hp. unfold AIPathGenerator.lock_topic, locked_of in Hlock. simpl in Hlock.
  apply negb_false_iff in Hlock. rewrite forallb_forall in Hlock.
  apply mem_lower_true_iff. now apply Hlock.
Qed.

End RecommenderExtras.

Section GapExtras.

Import AIPathGenerator.

(** X3.  The missing skills of [analyze_skill_gaps] are the required
    skills that equal no declared skill up to letter case, kept in
    taxonomy order; with no declared skill every required skill is missing, and
    a user who declares every required skill, in any letter case, has
    none missing.  The declared skills are echoed unchanged. *)
Theorem analyze_skill_gaps_missing
    (current_skills : list string) (target_role : string) :
  let r := analyze_skill_gaps current_skills target_role in
  let required := required_skills_of target_role in
  (forall s, In s (SkillGaps.missing_skills r) <->
        In s required
        /\ forall c, In c current_skills -> ~ Spec.same_ignoring_case s c)
  /\ (exists keep : string -> bool, SkillGaps.missing_skills r = filter keep required)
  /\ List.length (SkillGaps.missing_skills r) <= SkillGaps.total_required r
  /\ (current_skills = [] -> SkillGaps.missing_skills r = required)
  /\ ((forall s, In s required ->
         exists c, In c current_skills /\ Spec.same_ignoring_case s c) ->
      SkillGaps.missing_skills r = [])
  /\ SkillGaps.existing_skills r = current_skills.
Proof.
  intros r required. subst r. unfold analyze_skill_gaps. simpl. fold required.
  split; [| split; [| split; [| split; [| split]]]].
  - intros s. rewrite filter_In, negb_true_iff, mem_lower_false_iff. tauto.
  - eexists. reflexivity.
  - apply filter_length_le.
  - intros ->. simpl. induction required as [| s l IH]; simpl; [reflexivity |].
    now rewrite IH.
  - intros Hall. induction required as [| s l IH]; simpl; [reflexivity |].
    assert (Hs : PyStr.mem (PyStr.lower s) (map PyStr.lower current_skills) = true).
    { apply mem_lower_true_iff. apply Hall. now left. }
    rewrite Hs. simpl. apply IH. intros s' Hs'. apply Hall. now right.
  - reflexivity.
Qed.

Lemma analyze_skill_gaps_missing_witness :
  (forall s, In s (required_skills_of "frontend") ->
     exists c, In c (map PyStr.lower (required_skills_of "frontend"))
               /\ Spec.same_ignoring_case s c)
  /\ SkillGaps.missing_skills
       (analyze_skill_gaps (map PyStr.lower (required_skills_of "frontend")) "frontend")
     = []
  /\ SkillGaps.missing_skills (analyze_skill_gaps ["html"; "Css"] "Frontend")
     = ["JavaScript Basics"; "Git"; "React"; "CSS Frameworks"; "Responsive Design";
        "APIs"; "State Management"; "Performance Optimization"; "Testing";
        "Build Tools"].
Proof.
  assert (H : forall s, In s (required_skills_of "frontend") ->
            exists c, In c (map PyStr.lower (required_skills_of "frontend"))
                      /\ Spec.same_ignoring_case s c).
  { intros s Hs. exists (PyStr.lower s). split; [now apply in_map |].
    unfold Spec.same_ignoring_case. vm_compute in Hs.
    repeat (destruct Hs as [<- | Hs]; [reflexivity |]). destruct Hs. }
  split; [exact H |]. split.
  - destruct (analyze_skill_gaps_missing
                (map PyStr.lower (required_skills_of "frontend")) "frontend")
      as (_ & _ & _ & _ & Hnone & _).
    exact (Hnone H).
  - reflexivity.
Defined.

End GapExtras.

Section SequencerExtras.

Import AIPathGenerator.

(** X4.  Locking is monotone in the declared skills: when every skill
    of [skills] is matched up to letter case by a skill of [skills'],
    no topic that [skills] unlocks is locked under [skills']; in
    particular adding skills, or changing their letter case, never
    locks a topic. *)
Theorem optimize_learning_sequence_monotone
    (curriculum : Curriculum.t) (skills skills' : list string) :
  (forall s, In s skills -> exists s', In s' skills' /\ Spec.same_ignoring_case s s') ->
  Forall2
    (fun x x' =>
       Topic.id x' = Topic.id x
       /\ (AIRecommender.locked_of x = false -> AIRecommender.locked_of x' = false))
    (Curriculum.all_topics (optimize_learning_sequence curriculum skills))
    (Curriculum.all_topics (optimize_learning_sequence curriculum skills')).
Proof.
  intros Hsub. rewrite !all_topics_optimized. apply Forall2_map_both.
  intros x _. split; [reflexivity |].
  unfold lock_topic, AIRecommender.locked_of. simpl.
  rewrite !negb_false_iff, !forallb_forall. intros H p Hp.
  specialize (H p Hp). apply mem_lower_true_iff in H. destruct H as [s [Hs E]].
  destruct (Hsub s Hs) as [s' [Hs' E']].
  apply mem_lower_true_iff. exists s'. split; [exact Hs' |].
  unfold Spec.same_ignoring_case in *. congruence.
Qed.

Lemma optimize_learning_sequence_monotone_witness :
  let path := generate_fullstack_curriculum "beginner" in
  (forall s, In s ["html5 fundamentals"] ->
     exists s', In s' ["HTML5 Fundamentals"; "CSS3 Styling"]
                /\ Spec.same_ignoring_case s s')
  /\ Forall2
       (fun x x' =>
          Topic.id x' = Topic.id x
          /\ (AIRecommender.locked_of x = false -> AIRecommender.locked_of x' = false))
       (Curriculum.all_topics (optimize_learning_sequence path ["html5 fundamentals"]))
       (Curriculum.all_topics
          (optimize_learning_sequence path ["HTML5 Fundamentals"; "CSS3 Styling"])).
Proof.
  intros path.
  assert (H : forall s, In s ["html5 fundamentals"] ->
            exists s', In s' ["HTML5 Fundamentals"; "CSS3 Styling"]
                       /\ Spec.same_ignoring_case s s').
  { intros s [<- | []]. exists "HTML5 Fundamentals". split; [now left | reflexivity]. }
  split; [exact H |].
  exact (optimize_learning_sequence_monotone path _ _ H).
Defined.

End SequencerExtras.

(* ================================================================= *)
(** ** Further properties: the time estimator *)

Section EstimatorExtras.

Import AIPathGenerator.

Lemma sum_from (l : list Q) (a : Q) :
  (fold_left Qplus l a == a + Spec.total l)%Q.
Proof.
  revert a. induction l as [| q l IH]; intros a; simpl; [ring |].
  rewrite IH. ring.
Qed.

Lemma sum_total (l : list Q) : (PyNum.sum l == Spec.total l)%Q.
Proof. unfold PyNum.sum. rewrite sum_from. ring. Qed.

Lemma total_app (l1 l2 : list Q) :
  (Spec.total (l1 ++ l2) == Spec.total l1 + Spec.total l2)%Q.
Proof.
  induction l1 as [| q l1 IH]; simpl; [ring |]. rewrite IH. ring.
Qed.

Lemma total_module_hours (ms : list Mod.t) :
  (Spec.total (map Spec.module_hours ms)
   == Spec.total (map (AIRecommender.hours_of 0) (flat_map Mod.topics ms)))%Q.
Proof.
  induction ms as [| m ms IH]; simpl; [reflexivity |].
  rewrite map_app, total_app, IH. reflexivity.
Qed.

Lemma total_within (lo hi : Q) (ts ts' : list Topic.t) :
  Forall2 (Spec.estimated_within lo hi) ts ts' ->
  (inject_Z (Z.of_nat (List.length ts)) * lo
   <= Spec.total (map (AIRecommender.hours_of 0) ts'))%Q
  /\ (Spec.total (map (AIRecommender.hours_of 0) ts')
      <= inject_Z (Z.of_nat (List.length ts)) * hi)%Q.
Proof.
  induction 1 as [| x x' ts ts' Hx _ [IHlo IHhi]].
  - simpl. split; rewrite Qmult_0_l; apply Qle_refl.
  - destruct Hx as (e & -> & Hlo & Hhi).
    cbn [List.length map Spec.total fold_right]. fold (Spec.total).
    change (fold_right Qplus 0%Q (map (AIRecommender.hours_of 0) ts'))
      with (Spec.total (map (AIRecommender.hours_of 0) ts')).
    rewrite Nat2Z.inj_succ. unfold Z.succ. rewrite inject_Z_plus.
    unfold AIRecommender.hours_of at 1 3. simpl Topic.estimated_hours.
    split.
    + setoid_replace ((inject_Z (Z.of_nat (List.length ts)) + inject_Z 1) * lo)%Q
        with (lo + inject_Z (Z.of_nat (List.length ts)) * lo)%Q by ring.
      now apply Qplus_le_compat.
    + setoid_replace ((inject_Z (Z.of_nat (List.length ts)) + inject_Z 1) * hi)%Q
        with (hi + inject_Z (Z.of_nat (List.length ts)) * hi)%Q by ring.
      now apply Qplus_le_compat.
Qed.

Lemma estimate_topics_draws (randint : nat -> Z) (multiplier : Q) (ts : list Topic.t) :
  forall (k : nat) (h : Q),
    snd (estimate_topics randint k multiplier ts h) = k + List.length ts.
Proof.
  induction ts as [| x ts IH]; intros k h; simpl; [lia |].
  specialize (IH (S k) (h + inject_Z (randint k) * multiplier)%Q).
  destruct (estimate_topics randint (S k) multiplier ts
              (h + inject_Z (randint k) * multiplier)%Q) as [[r h'] k'].
  simpl in *. lia.
Qed.

Lemma estimate_modules_draws (randint : nat -> Z) (multiplier daily_hours : Q)
    (ms : list Mod.t) :
  forall (k : nat) (w : Q),
    snd (estimate_modules randint k multiplier daily_hours ms w)
    = k + List.length (flat_map Mod.topics ms).
Proof.
  induction ms as [| m ms IH]; intros k w; simpl; [lia |].
  pose proof (estimate_topics_draws randint multiplier (Mod.topics m) k 0%Q) as Hk.
  destruct (estimate_topics randint k multiplier (Mod.topics m) 0%Q) as [[ts h] k1].
  simpl in Hk.
  match goal with
  | |- context [estimate_modules _ k1 _ _ _ ?w1] =>
      specialize (IH k1 w1);
      destruct (estimate_modules randint k1 multiplier daily_hours ms w1) as [[r w'] k2]
  end.
  simpl in *. rewrite length_app. lia.
Qed.

(** X5.  [calculate_time_estimates] draws once per topic, and the
    curriculum's [total_estimated_hours] is the sum of the estimated
    hours of all its topics, hence between 2 and 8 times the multiplier
    for each topic of the curriculum. *)
Theorem calculate_time_estimates_totals
    (randint : nat -> Z) (k : nat) (curriculum : Curriculum.t)
    (daily_hours : Q) (proficiency : string) :
  (forall i, (2 <= randint i <= 8)%Z) ->
  let run := calculate_time_estimates randint k curriculum daily_hours proficiency in
  let n := List.length (Curriculum.all_topics curriculum) in
  snd run = k + n
  /\ exists total : Q,
       Curriculum.total_estimated_hours (fst run) = Some total
       /\ (total == Spec.total (map (AIRecommender.hours_of 0)
                                    (Curriculum.all_topics (fst run))))%Q
       /\ (inject_Z (Z.of_nat n) * (2 * multiplier_of proficiency) <= total)%Q
       /\ (total <= inject_Z (Z.of_nat n) * (8 * multiplier_of proficiency))%Q.
Proof.
  intros Hdraw run n. subst run n. unfold calculate_time_estimates.
  pose proof (estimate_modules_draws randint (multiplier_of proficiency) daily_hours
                (Curriculum.modules curriculum) k 0%Q) as Hk.
  destruct (estimate_modules_spec randint Hdraw (multiplier_of proficiency)
              (multiplier_positive proficiency) (multiplier_tenths proficiency)
              daily_hours (Curriculum.modules curriculum) k 0%Q)
    as (ms' & w' & k' & Heq & Hall & Hroll & _).
  rewrite Heq in *. simpl in Hk. unfold Curriculum.all_topics. simpl.
  split; [exact Hk |].
  eexists. split; [reflexivity |].
  assert (Hsum : (PyNum.sum (map module_estimated_hours ms')
                  == Spec.total (map (AIRecommender.hours_of 0)
                                     (flat_map Mod.topics ms')))%Q).
  { rewrite sum_total, <- total_module_hours. clear Heq Hall Hk.
    induction Hroll as [| m l [[e [He Heq]] _] _ IH]; simpl; [reflexivity |].
    unfold module_estimated_hours at 1. rewrite He, Heq.
    change (fold_right Qplus 0%Q (map module_estimated_hours l))
      with (Spec.total (map module_estimated_hours l)).
    change (fold_right Qplus 0%Q (map Spec.module_hours l))
      with (Spec.total (map Spec.module_hours l)).
    rewrite IH. reflexivity. }
  split; [exact Hsum |].
  destruct (total_within _ _ _ _ Hall) as [Hlo Hhi].
  rewrite Hsum. split; assumption.
Qed.

Lemma calculate_time_estimates_totals_witness :
  let draws := fun i : nat => if Nat.even i then 2%Z else 8%Z in
  let path := generate_backend_curriculum "beginner" in
  (forall i, (2 <= draws i <= 8)%Z)
  /\ snd (calculate_time_estimates draws 0 path 2 "beginner") = 18
  /\ match Curriculum.total_estimated_hours
             (fst (calculate_time_estimates draws 0 path 2 "beginner")) with
     | Some total => (total == 135)%Q
     | None => False
     end.
Proof.
  intros draws path.
  assert (Hdraw : forall i, (2 <= draws i <= 8)%Z)
    by (intros i; unfold draws; destruct (Nat.even i); lia).
  split; [exact Hdraw |].
  destruct (calculate_time_estimates_totals draws 0 path 2 "beginner" Hdraw)
    as [Hk _].
  split; [exact Hk |]. vm_compute. reflexivity.
Defined.

Lemma lock_after_estimate (lowered : list string) (e : Q) (x : Topic.t) :
  lock_topic lowered (Topic.set_estimated_hours e x)
  = Topic.set_estimated_hours e (lock_topic lowered x).
Proof. reflexivity. Qed.

Lemma estimate_topics_locked (randint : nat -> Z) (multiplier : Q)
    (lowered : list string) (ts : list Topic.t) :
  forall (k : nat) (h : Q),
    estimate_topics randint k multiplier (map (lock_topic lowered) ts) h
    = (map (lock_topic lowered) (fst (fst (estimate_topics randint k multiplier ts h))),
       snd (fst (estimate_topics randint k multiplier ts h)),
       snd (estimate_topics randint k multiplier ts h)).
Proof.
  induction ts as [| x ts IH]; intros k h; simpl; [reflexivity |].
  rewrite IH.
  destruct (estimate_topics randint (S k) multiplier ts
              (h + inject_Z (randint k) * multiplier)%Q) as [[r h'] k'].
  reflexivity.
Qed.

Lemma estimate_modules_locked (randint : nat -> Z) (multiplier daily_hours : Q)
    (lowered : list string) (ms : list Mod.t) :
  forall (k : nat) (w : Q),
    estimate_modules randint k multiplier daily_hours (map (Spec.lock_module lowered) ms) w
    = (map (Spec.lock_module lowered)
           (fst (fst (estimate_modules randint k multiplier daily_hours ms w))),
       snd (fst (estimate_modules randint k multiplier daily_hours ms w)),
       snd (estimate_modules randint k multiplier daily_hours ms w)).
Proof.
  induction ms as [| m ms IH]; intros k w; simpl; [reflexivity |].
  rewrite estimate_topics_locked.
  destruct (estimate_topics randint k multiplier (Mod.topics m) 0%Q) as [[ts h] k1].
  simpl. rewrite IH.
  match goal with
  | |- context [estimate_modules randint k1 multiplier daily_hours ms ?w1] =>
      destruct (estimate_modules randint k1 multiplier daily_hours ms w1) as [[r w'] k2]
  end.
  reflexivity.
Qed.

(** X6.  Locking and estimating commute: with the same draws,
    estimating a sequenced curriculum gives the curriculum obtained by
    sequencing the estimated one, and consumes the same draws.  The
    estimator never touches [locked], the sequencer never touches the
    estimates. *)
Theorem estimates_commute_with_locking
    (randint : nat -> Z) (k : nat) (curriculum : Curriculum.t)
    (daily_hours : Q) (proficiency : string) (current_skills : list string) :
  calculate_time_estimates randint k
    (optimize_learning_sequence curriculum current_skills) daily_hours proficiency
  = (optimize_learning_sequence
       (fst (calculate_time_estimates randint k curriculum daily_hours proficiency))
       current_skills,
     snd (calculate_time_estimates randint k curriculum daily_hours proficiency)).
Proof.
  unfold calculate_time_estimates, optimize_learning_sequence. simpl.
  change (map (fun m => Mod.set_topics
                          (map (lock_topic (map PyStr.lower current_skills)) (Mod.topics m)) m)
              (Curriculum.modules curriculum))
    with (map (Spec.lock_module (map PyStr.lower current_skills)) (Curriculum.modules curriculum)).
  rewrite estimate_modules_locked.
  destruct (estimate_modules randint k (multiplier_of proficiency) daily_hours
              (Curriculum.modules curriculum) 0%Q) as [[ms w] k'].
  simpl. unfold Curriculum.set_totals, Curriculum.set_modules. simpl.
  rewrite map_map. reflexivity.
Qed.

End EstimatorExtras.

Section EstimatorDays.

Import AIPathGenerator.

Variable randint : nat -> Z.
Hypothesis randint_range : forall i, (2 <= randint i <= 8)%Z.

Variable multiplier : Q.
Hypothesis multiplier_pos : (0 < multiplier)%Q.
Hypothesis adjusted_tenths : forall b : Z, Spec.tenths (inject_Z b * multiplier).

Variable daily_hours : Q.


End EstimatorDays.

Section EstimatorDaysClaim.

Import AIPathGenerator.



End EstimatorDaysClaim.

(* ================================================================= *)
(** ** Further properties: the weekly scheduler *)

Section SchedulerExtras.

Import AIRecommender.

Variable hours_per_day : Q.

Lemma fill_day_account (upcoming daily_topics : list Topic.t) (day_hours : Q) :
  exists (placed rest : list Topic.t) (total : Q),
    fill_day hours_per_day day_hours daily_topics upcoming
    = (daily_topics ++ placed, total, rest)
    /\ upcoming = placed ++ rest
    /\ (total == day_hours + Spec.total (map (hours_of 2) placed))%Q.
Proof.
  revert daily_topics day_hours.
  induction upcoming as [| x rest IH]; intros daily_topics day_hours; simpl.
  - exists [], [], day_hours. rewrite app_nil_r. simpl.
    repeat split; try reflexivity. ring.
  - destruct (PyNum.ltb day_hours hours_per_day);
      [| exists [], (x :: rest), day_hours; rewrite app_nil_r; simpl;
         repeat split; try reflexivity; ring].
    destruct (PyNum.leb (day_hours + hours_of 2 x) hours_per_day);
      [| exists [], (x :: rest), day_hours; rewrite app_nil_r; simpl;
         repeat split; try reflexivity; ring].
    destruct (IH (daily_topics ++ [x]) (day_hours + hours_of 2 x)%Q)
      as (placed & rest' & total & Heq & Hsplit & Htotal).
    exists (x :: placed), rest', total.
    rewrite Heq, <- app_assoc. simpl. split; [reflexivity |].
    split; [now rewrite Hsplit |].
    rewrite Htotal.
    change (fold_right Qplus 0%Q (map (hours_of 2) placed))
      with (Spec.total (map (hours_of 2) placed)).
    ring.
Qed.

(** A day that takes nothing leaves every later day empty too. *)
Lemma plan_days_stuck (days : list string) (upcoming : list Topic.t)
    (schedule : Schedule.t) (total : Q) :
  fill_day hours_per_day 0 [] upcoming = ([], total, upcoming) ->
  plan_days hours_per_day days upcoming schedule = schedule.
Proof.
  intros Hfill. induction days as [| day days IH]; simpl; [reflexivity |].
  destruct upcoming as [| x rest]; [reflexivity |].
  rewrite Hfill. exact IH.
Qed.

Lemma plan_days_shape (days : list string) :
  forall (upcoming : list Topic.t) (schedule : Schedule.t),
  exists (n : nat) (added : list (string * Schedule.day_plan)),
    n <= List.length days
    /\ map fst added = firstn n days
    /\ Schedule.daily_breakdown (plan_days hours_per_day days upcoming schedule)
       = Schedule.daily_breakdown schedule ++ added
    /\ Schedule.weekly_plan (plan_days hours_per_day days upcoming schedule)
       = Schedule.weekly_plan schedule
    /\ (Schedule.total_hours (plan_days hours_per_day days upcoming schedule)
        == Schedule.total_hours schedule
           + Spec.total (map (fun d => Schedule.day_total_hours (snd d)) added))%Q
    /\ Forall
         (fun d =>
            Spec.day_topics d <> []
            /\ (Schedule.day_total_hours (snd d)
                == Spec.total (map (hours_of 2) (Spec.day_topics d)))%Q)
         added.
Proof.
  induction days as [| day days IH]; intros upcoming schedule.
  - exists 0, []. simpl. rewrite app_nil_r.
    repeat split; try reflexivity; try constructor. ring.
  - destruct upcoming as [| x upcoming'].
    + exists 0, []. simpl. rewrite app_nil_r.
      repeat split; try reflexivity; try constructor; try lia. ring.
    + destruct (fill_day_account (x :: upcoming') [] 0%Q)
        as (placed & rest & total & Heq & Hsplit & Htotal).
      simpl app in Heq.
      destruct placed as [| p placed'].
      * simpl in Hsplit. subst rest.
        rewrite (plan_days_stuck (day :: days) (x :: upcoming') schedule total Heq).
        exists 0, []. simpl. rewrite app_nil_r.
        repeat split; try reflexivity; try constructor; try lia. ring.
      * cbn [plan_days]. rewrite Heq.
        match goal with
        | |- context [plan_days _ days rest ?s] =>
            destruct (IH rest s) as (n & added & Hn & Hnames & Hd & Hw & Ht & Hall)
        end.
        exists (S n), ((day, Schedule.mk_day (p :: placed') total) :: added).
        simpl in Hd, Hw, Ht.
        split; [simpl; lia |].
        split; [simpl; now rewrite Hnames |].
        split; [rewrite Hd, <- app_assoc; reflexivity |].
        split; [exact Hw |].
        split.
        -- rewrite Ht. simpl.
           change (fold_right Qplus 0%Q
                     (map (fun d => Schedule.day_total_hours (snd d)) added))
             with (Spec.total (map (fun d => Schedule.day_total_hours (snd d)) added)).
           ring.
        -- constructor; [| exact Hall]. unfold Spec.day_topics. simpl.
           split; [discriminate |]. rewrite Htotal. simpl. ring.
Qed.

(** With a positive budget and hours between 0 and the budget, a day
    takes at least the first topic waiting. *)
Lemma fill_day_takes_first (x : Topic.t) (rest : list Topic.t) :
  (0 < hours_per_day)%Q ->
  (0 <= hours_of 2 x)%Q -> (hours_of 2 x <= hours_per_day)%Q ->
  exists (placed rest' : list Topic.t) (total : Q),
    fill_day hours_per_day 0 [] (x :: rest) = (x :: placed, total, rest')
    /\ rest = placed ++ rest'.
Proof.
  intros Hpos Hlo Hhi. simpl.
  apply ltb_iff in Hpos. rewrite Hpos.
  assert (Hfit : PyNum.leb (0 + hours_of 2 x) hours_per_day = true).
  { apply leb_iff. now rewrite Qplus_0_l. }
  rewrite Hfit.
  destruct (fill_day_account rest [x] (0 + hours_of 2 x)%Q)
    as (placed & rest' & total & Heq & Hsplit & _).
  exists placed, rest', total. split; [exact Heq | exact Hsplit].
Qed.

Lemma plan_days_progress (days : list string) :
  (0 < hours_per_day)%Q ->
  forall (upcoming : list Topic.t) (schedule : Schedule.t),
    Forall (fun x => (0 <= hours_of 2 x)%Q /\ (hours_of 2 x <= hours_per_day)%Q)
           upcoming ->
    exists added : list (string * Schedule.day_plan),
      Schedule.daily_breakdown (plan_days hours_per_day days upcoming schedule)
      = Schedule.daily_breakdown schedule ++ added
      /\ Nat.min (List.length days) (List.length upcoming)
         <= List.length (flat_map Spec.day_topics added).
Proof.
  intros Hpos. induction days as [| day days IH]; intros upcoming schedule Hall.
  - exists []. simpl. rewrite app_nil_r. split; [reflexivity | lia].
  - destruct upcoming as [| x upcoming'].
    + exists []. simpl. rewrite app_nil_r. split; [reflexivity | lia].
    + inversion Hall as [| ? ? [Hlo Hhi] Hall']; subst.
      destruct (fill_day_takes_first x upcoming' Hpos Hlo Hhi)
        as (placed & rest & total & Heq & Hsplit).
      cbn [plan_days]. rewrite Heq.
      assert (Hrest : Forall (fun x => (0 <= hours_of 2 x)%Q
                                       /\ (hours_of 2 x <= hours_per_day)%Q) rest).
      { rewrite Hsplit in Hall'. apply Forall_app in Hall'. tauto. }
      match goal with
      | |- context [plan_days _ days rest ?s] =>
          destruct (IH rest s Hrest) as (added & Hd & Hlen)
      end.
      exists ((day, Schedule.mk_day (x :: placed) total) :: added).
      simpl in Hd. rewrite Hd, <- app_assoc. split; [reflexivity |].
      change (flat_map Spec.day_topics
                ((day, Schedule.mk_day (x :: placed) total) :: added))
        with ((x :: placed) ++ flat_map Spec.day_topics added).
      rewrite length_app. cbn [List.length]. rewrite Hsplit, length_app. lia.
Qed.

End SchedulerExtras.

Section SchedulerExtraClaims.

Import AIRecommender.

(** X8.  The weekly plan uses consecutive days starting on Monday, at
    most seven of them; every day it lists holds at least one topic
    and its [total_hours] is the sum of the hours of its topics; the
    schedule's [total_hours] is the sum of the daily totals, and
    [weekly_plan] stays empty. *)
Theorem suggest_study_schedule_shape
    (available_hours : Q) (learning_pace : string) (upcoming_topics : list Topic.t) :
  let s := suggest_study_schedule available_hours learning_pace upcoming_topics in
  (exists n : nat,
     n <= 7 /\ map fst (Schedule.daily_breakdown s) = firstn n days_of_week)
  /\ Forall
       (fun d =>
          Spec.day_topics d <> []
          /\ (Schedule.day_total_hours (snd d)
              == Spec.total (map (hours_of 2) (Spec.day_topics d)))%Q)
       (Schedule.daily_breakdown s)
  /\ (Schedule.total_hours s
      == Spec.total (map (fun d => Schedule.day_total_hours (snd d))
                         (Schedule.daily_breakdown s)))%Q
  /\ Schedule.weekly_plan s = [].
Proof.
  intros s. subst s. unfold suggest_study_schedule.
  destruct (plan_days_shape available_hours days_of_week upcoming_topics
              (Schedule.mk [] [] 0%Q))
    as (n & added & Hn & Hnames & Hd & Hw & Ht & Hall).
  rewrite Hd, Hw, Ht.
  cbn [Schedule.daily_breakdown Schedule.weekly_plan Schedule.total_hours app].
  split; [exists n; split; [exact Hn | exact Hnames] |].
  split; [exact Hall |]. split; [ring | reflexivity].
Qed.

(** X9.  With a positive budget and topics whose hours lie between 0
    and the budget, every day of the week takes at least one topic
    while topics remain: at least min(7, number of topics) topics are
    scheduled, so a list of at most seven topics is scheduled whole. *)
Theorem suggest_study_schedule_progress
    (available_hours : Q) (learning_pace : string) (upcoming_topics : list Topic.t) :
  (0 < available_hours)%Q ->
  Forall (fun x => (0 <= hours_of 2 x)%Q /\ (hours_of 2 x <= available_hours)%Q)
         upcoming_topics ->
  let s := suggest_study_schedule available_hours learning_pace upcoming_topics in
  Nat.min 7 (List.length upcoming_topics) <= List.length (Spec.scheduled s)
  /\ (List.length upcoming_topics <= 7 -> Spec.scheduled s = upcoming_topics).
Proof.
  intros Hpos Hall s. subst s. unfold suggest_study_schedule, Spec.scheduled.
  destruct (plan_days_progress available_hours days_of_week Hpos upcoming_topics
              (Schedule.mk [] [] 0%Q) Hall) as (added & Hd & Hlen).
  destruct (plan_days_prefix available_hours days_of_week upcoming_topics
              (Schedule.mk [] [] 0%Q)) as (added' & rest & Hd' & Hs & _).
  rewrite Hd in Hd'. cbn [Schedule.daily_breakdown app] in Hd'. subst added'.
  rewrite Hd. cbn [Schedule.daily_breakdown app]. split; [exact Hlen |].
  intros Hfew. change (List.length days_of_week) with 7 in Hlen.
  rewrite Nat.min_r in Hlen by exact Hfew.
  assert (Hnil : rest = []).
  { apply (f_equal (@List.length Topic.t)) in Hs. rewrite length_app in Hs.
    destruct rest; [reflexivity | simpl in Hs; lia]. }
  rewrite Hs, Hnil, app_nil_r. reflexivity.
Qed.

Lemma suggest_study_schedule_progress_witness :
  let a := Topic.mk "t1" "A" "" (Some []) [] None (Some 2%Q) in
  let b := Topic.mk "t2" "B" "" (Some []) [] None None in
  let c := Topic.mk "t3" "C" "" (Some []) [] None (Some 1%Q) in
  (0 < 3)%Q
  /\ Forall (fun x => (0 <= hours_of 2 x)%Q /\ (hours_of 2 x <= 3)%Q) [a; b; c]
  /\ Spec.scheduled (suggest_study_schedule 3 "moderate" [a; b; c]) = [a; b; c]
  /\ map fst (Schedule.daily_breakdown (suggest_study_schedule 3 "moderate" [a; b; c]))
     = ["Monday"; "Tuesday"].
Proof.
  intros a b c.
  assert (Hpos : (0 < 3)%Q) by reflexivity.
  assert (Hall : Forall (fun x => (0 <= hours_of 2 x)%Q /\ (hours_of 2 x <= 3)%Q)
                        [a; b; c]).
  { repeat constructor; discriminate. }
  split; [exact Hpos |]. split; [exact Hall |]. split.
  - apply (proj2 (suggest_study_schedule_progress 3 "moderate" [a; b; c] Hpos Hall)).
    simpl. lia.
  - reflexivity.
Defined.

(** X10.  With a daily budget of 0 or less nothing is scheduled: the
    breakdown is empty and the total is 0, whatever the topics, even
    topics of 0 hours. *)
Theorem suggest_study_schedule_no_budget
    (available_hours : Q) (learning_pace : string) (upcoming_topics : list Topic.t) :
  (available_hours <= 0)%Q ->
  suggest_study_schedule available_hours learning_pace upcoming_topics
  = Schedule.mk [] [] 0%Q.
Proof.
  intros Hneg. unfold suggest_study_schedule.
  apply plan_days_stuck with (total := 0%Q).
  apply ltb_false_iff in Hneg.
  destruct upcoming_topics as [| x rest]; simpl; [reflexivity |].
  rewrite Hneg. reflexivity.
Qed.

Lemma suggest_study_schedule_no_budget_witness :
  (0 <= 0)%Q
  /\ suggest_study_schedule 0 "moderate"
       [Topic.mk "t1" "Free" "" (Some []) [] None (Some 0%Q)]
     = Schedule.mk [] [] 0%Q.
Proof.
  assert (H : (0 <= 0)%Q) by apply Qle_refl.
  split; [exact H |].
  exact (suggest_study_schedule_no_budget 0 "moderate" _ H).
Defined.

End SchedulerExtraClaims.

(* ================================================================= *)
(** ** Further properties: the adaptive engine *)

Section PredictionExtras.

Import AIAdaptiveLearning.

Lemma int_div7 (q : Q) : PyNum.int (q / 7) = Z.quot (PyNum.int q) 7.
Proof.
  destruct q as [n d]. unfold PyNum.int, Qdiv, Qmult, Qinv. simpl.
  rewrite Z.mul_1_r, Pos2Z.inj_mul.
  symmetry. apply Z.quot_quot; lia.
Qed.

(** X11.  An answer of [predict_completion_date] carries its two day
    counts exactly when the velocity is not 0, and then
    [weeks_remaining] is [days_remaining] divided by 7, rounded towards
    zero, and is the number printed in the message; the answer to a
    velocity of 0 has low confidence and no counts. *)
Theorem predict_completion_date_weeks
    (strftime_after : Q -> option string)
    (current_progress total_topics : Z) (learning_velocity : Q) (p : Prediction.t) :
  predict_completion_date strftime_after current_progress total_topics learning_velocity
  = Some p ->
  match Prediction.days_remaining p, Prediction.weeks_remaining p with
  | Some d, Some w =>
      ~ (learning_velocity == 0)%Q
      /\ w = Z.quot d 7
      /\ Prediction.message p
         = ("At your current pace, you'll complete in " ++ PyStr.of_Z w ++ " weeks")%string
  | None, None =>
      (learning_velocity == 0)%Q /\ Prediction.confidence p = "low"
  | _, _ => False
  end.
Proof.
  unfold predict_completion_date.
  destruct (PyNum.eqb learning_velocity 0) eqn:E.
  - intros H. injection H as <-. simpl. split; [now apply eqb_true_iff | reflexivity].
  - destruct (strftime_after
                (inject_Z (total_topics - current_progress) / learning_velocity)%Q);
      [| discriminate].
    intros H. injection H as <-. simpl.
    split; [now apply eqb_false_iff |]. rewrite int_div7. split; reflexivity.
Qed.

Lemma predict_completion_date_weeks_witness :
  exists p : Prediction.t,
    predict_completion_date (fun _ => Some "January 01, 2030") 0 45 2 = Some p
    /\ Prediction.days_remaining p = Some 22%Z
    /\ Prediction.weeks_remaining p = Some 3%Z
    /\ ~ (2 == 0)%Q.
Proof.
  eexists. split; [reflexivity |]. split; [reflexivity |]. split; [reflexivity |].
  exact (proj1 (predict_completion_date_weeks (fun _ => Some "January 01, 2030")
                  0 45 2 _ eq_refl)).
Defined.

End PredictionExtras.

(* ================================================================= *)
(** ** Further properties: the resource enricher *)

Section ResourceExtras.

Import AIPathGenerator.

(** X12.  [fetch_resources_for_topic] returns between one and four
    descriptors of pairwise different types, the last of which is
    always the documentation descriptor; the video descriptor is there
    exactly when the preferences hold videos or Videos, the article one
    exactly for articles or Articles, the interactive one exactly for
    interactive or Interactive Coding. *)
Theorem fetch_resources_for_topic_shape
    (topic_name : string) (preferred_content : list string) :
  let resources := fetch_resources_for_topic topic_name preferred_content in
  1 <= List.length resources <= 4
  /\ last resources (documentation_resource topic_name)
     = documentation_resource topic_name
  /\ In (documentation_resource topic_name) resources
  /\ NoDup (map Resource.type resources)
  /\ (In "video" (map Resource.type resources)
      <-> In "videos" preferred_content \/ In "Videos" preferred_content)
  /\ (In "article" (map Resource.type resources)
      <-> In "articles" preferred_content \/ In "Articles" preferred_content)
  /\ (In "interactive" (map Resource.type resources)
      <-> In "interactive" preferred_content
          \/ In "Interactive Coding" preferred_content).
Proof.
  intros resources. subst resources. unfold fetch_resources_for_topic.
  rewrite <- !mem_true_iff, <- !orb_true_iff.
  destruct (PyStr.mem "videos" preferred_content || PyStr.mem "Videos" preferred_content);
    destruct (PyStr.mem "articles" preferred_content
              || PyStr.mem "Articles" preferred_content);
    destruct (PyStr.mem "interactive" preferred_content
              || PyStr.mem "Interactive Coding" preferred_content);
    cbn [app List.length last map Resource.type video_resource article_resource
         interactive_resource documentation_resource];
    (split; [lia |]); (split; [reflexivity |]);
    (split; [simpl; tauto |]);
    (split; [repeat constructor; simpl; intuition discriminate |]);
    repeat split; intros H; try reflexivity; try discriminate H;
    simpl in *; intuition discriminate.
Qed.

Lemma contains_char_cons (ch c : ascii) (s : string) :
  PyStr.contains (String ch "") (String c s)
  = Ascii.eqb ch c || PyStr.contains (String ch "") s.
Proof.
  simpl. destruct (ascii_dec ch c) as [-> | Hne].
  - rewrite Ascii.eqb_refl. destruct s; reflexivity.
  - apply Ascii.eqb_neq in Hne. rewrite Hne. reflexivity.
Qed.

Lemma contains_char_app (ch : ascii) (a b : string) :
  PyStr.contains (String ch "") (a ++ b)%string
  = PyStr.contains (String ch "") a || PyStr.contains (String ch "") b.
Proof.
  induction a as [| c a IH].
  - simpl. reflexivity.
  - change ((String c a ++ b)%string) with (String c (a ++ b)%string).
    rewrite !contains_char_cons, IH. apply orb_assoc.
Qed.

Lemma replace_removes (a b : ascii) (s : string) :
  a <> b -> PyStr.contains (String a "") (PyStr.replace a b s) = false.
Proof.
  intros Hne. induction s as [| c s IH]; [reflexivity |].
  cbn [PyStr.replace]. rewrite contains_char_cons, IH, orb_false_r.
  destruct (Ascii.eqb c a) eqn:E.
  - now apply Ascii.eqb_neq.
  - rewrite Ascii.eqb_sym. exact E.
Qed.

(** X13.  No URL built by [fetch_resources_for_topic] contains a space,
    whatever the topic name: the spaces of the name are turned into
    plus signs before it enters the query. *)
Theorem fetch_resources_urls_have_no_space
    (topic_name : string) (preferred_content : list string) :
  Forall (fun r => PyStr.contains " " (Resource.url r) = false)
         (fetch_resources_for_topic topic_name preferred_content).
Proof.
  assert (Hq : PyStr.contains " " (PyStr.replace " "%char "+"%char topic_name) = false)
    by (apply replace_removes; discriminate).
  assert (Hv : PyStr.contains " " (Resource.url (video_resource topic_name)) = false).
  { unfold video_resource. cbn [Resource.url].
    rewrite !contains_char_app, Hq. reflexivity. }
  assert (Ha : PyStr.contains " " (Resource.url (article_resource topic_name)) = false).
  { unfold article_resource. cbn [Resource.url].
    rewrite !contains_char_app, Hq. reflexivity. }
  unfold fetch_resources_for_topic.
  destruct (PyStr.mem "videos" preferred_content || PyStr.mem "Videos" preferred_content);
    destruct (PyStr.mem "articles" preferred_content
              || PyStr.mem "Articles" preferred_content);
    destruct (PyStr.mem "interactive" preferred_content
              || PyStr.mem "Interactive Coding" preferred_content);
    cbn [app]; repeat constructor; assumption.
Qed.

End ResourceExtras.

(* ================================================================= *)
(** ** Further properties: velocity *)

Section VelocityExtras.

Import AIAdaptiveLearning.

Lemma velocity_at_least (n total : Z) :
  PyNum.leb (inject_Z n) (inject_Z total / 7) = true <-> (7 * n <= total)%Z.
Proof.
  rewrite leb_iff. unfold Qle, Qdiv, Qmult, Qinv. cbn [Qnum Qden inject_Z].
  change (Z.pos (1 * 7)) with 7%Z. lia.
Qed.

Lemma per_week_exact (total : Z) :
  (PyNum.round1 (inject_Z total / 7 * 7) == inject_Z total)%Q.
Proof.
  rewrite round1_tenths; [field |].
  exists (10 * total)%Z. rewrite inject_Z_mult. change (inject_Z 10) with 10%Q. field.
Qed.

Lemma last7_app {A : Type} (older recent : list A) :
  7 <= List.length recent -> last7 (older ++ recent) = last7 recent.
Proof.
  intros H. unfold last7. rewrite length_app, skipn_app.
  replace (List.length older + List.length recent - 7 - List.length older)
    with (List.length recent - 7) by lia.
  rewrite skipn_all2 by lia. reflexivity.
Qed.

(** X14.  For a non-empty log list [analyze_learning_velocity] looks at
    the last seven logs only; with [total] the topics completed in
    them, the speed is fast exactly when [total >= 14], moderate
    exactly when [7 <= total < 14] and slow exactly when [total < 7],
    and [topics_per_week] is [total] itself.  Logs older than the last
    seven change nothing.  An empty list gives insufficient_data. *)
Theorem analyze_learning_velocity_thresholds (activity_logs : list Activity.t) :
  let v := analyze_learning_velocity activity_logs in
  let total := topics_completed_in (last7 activity_logs) in
  (activity_logs = [] ->
   v = Velocity.mk "insufficient_data" None None None "N/A")
  /\ (activity_logs <> [] ->
      (Velocity.velocity v = "fast" <-> (14 <= total)%Z)
      /\ (Velocity.velocity v = "moderate" <-> (7 <= total < 14)%Z)
      /\ (Velocity.velocity v = "slow" <-> (total < 7)%Z)
      /\ (exists w, Velocity.topics_per_week v = Some w /\ (w == inject_Z total)%Q)
      /\ Velocity.trend v = "stable")
  /\ (7 <= List.length activity_logs ->
      forall older : list Activity.t,
        analyze_learning_velocity (older ++ activity_logs) = v).
Proof.
  intros v total. subst v. split; [intros ->; reflexivity |]. split.
  - intros Hne. destruct activity_logs as [| a l]; [congruence |].
    unfold analyze_learning_velocity. fold total.
    pose proof (velocity_at_least 2 total) as H2.
    pose proof (velocity_at_least 1 total) as H1.
    change (inject_Z 2) with 2%Q in H2. change (inject_Z 1) with 1%Q in H1.
    destruct (PyNum.leb 2 (inject_Z total / 7)) eqn:E2.
    + assert (14 <= total)%Z by (apply proj1 in H2; specialize (H2 eq_refl); lia).
      cbn [Velocity.velocity Velocity.topics_per_week Velocity.trend].
      split; [tauto |]. split; [split; [discriminate | lia] |].
      split; [split; [discriminate | lia] |]. split; [| reflexivity].
      eexists. split; [reflexivity | apply per_week_exact].
    + assert (total < 14)%Z.
      { destruct (Z.lt_ge_cases total 14) as [Hlt | Hge]; [exact Hlt |].
        assert (false = true) by (apply H2; lia). discriminate. }
      destruct (PyNum.leb 1 (inject_Z total / 7)) eqn:E1.
      * assert (7 <= total)%Z by (apply proj1 in H1; specialize (H1 eq_refl); lia).
        cbn [Velocity.velocity Velocity.topics_per_week Velocity.trend].
        split; [split; [discriminate | lia] |]. split; [split; [lia | reflexivity] |].
        split; [split; [discriminate | lia] |]. split; [| reflexivity].
        eexists. split; [reflexivity | apply per_week_exact].
      * assert (total < 7)%Z.
        { destruct (Z.lt_ge_cases total 7) as [Hlt | Hge]; [exact Hlt |].
          assert (false = true) by (apply H1; lia). discriminate. }
        cbn [Velocity.velocity Velocity.topics_per_week Velocity.trend].
        split; [split; [discriminate | lia] |]. split; [split; [discriminate | lia] |].
        split; [split; [lia | reflexivity] |]. split; [| reflexivity].
        eexists. split; [reflexivity | apply per_week_exact].
  - intros Hlen older.
    destruct activity_logs as [| a l]; [simpl in Hlen; lia |].
    unfold analyze_learning_velocity.
    rewrite <- (last7_app older (a :: l) Hlen).
    destruct (older ++ a :: l) eqn:E; [destruct older; discriminate |].
    reflexivity.
Qed.

Lemma analyze_learning_velocity_thresholds_witness :
  let day := fun n : Z => Activity.mk (Some n) (Some 30%Z) None in
  let week := [day 1%Z; day 0%Z; day 2%Z; day 1%Z; day 1%Z; day 1%Z; day 2%Z] in
  week <> [] /\ 7 <= List.length week
  /\ Velocity.velocity (analyze_learning_velocity week) = "moderate"
  /\ analyze_learning_velocity ([day 9%Z; day 9%Z] ++ week)
     = analyze_learning_velocity week.
Proof.
  intros day week.
  assert (Hne : week <> []) by discriminate.
  assert (Hlen : 7 <= List.length week) by (simpl; lia).
  split; [exact Hne |]. split; [exact Hlen |]. split.
  - destruct (proj1 (proj2 (analyze_learning_velocity_thresholds week)) Hne)
      as (_ & Hmod & _).
    apply Hmod. vm_compute. split; [discriminate | reflexivity].
  - exact (proj2 (proj2 (analyze_learning_velocity_thresholds week)) Hlen _).
Defined.

End VelocityExtras.

(* ================================================================= *)
(** ** Further properties: struggling topics and insights *)

Section StrugglingExtras.

Import AIAdaptiveLearning.

Lemma detect_step_fails (acc : list Struggle.t) (p : ProgressRecord.t) :
  detect_step acc p = None
  <-> (Spec.expected_of p == 0)%Q /\ (0 < Spec.actual_of p)%Q.
Proof.
  unfold detect_step. fold (Spec.expected_of p). fold (Spec.actual_of p).
  destruct (PyNum.ltb (Spec.expected_of p * (3 # 2)) (Spec.actual_of p)) eqn:Hs.
  - apply ltb_iff in Hs.
    destruct (PyNum.eqb (Spec.expected_of p) 0) eqn:Hz.
    + apply eqb_true_iff in Hz. split; [intros _ | reflexivity].
      split; [exact Hz |]. rewrite Hz in Hs.
      setoid_replace (0 * (3 # 2))%Q with 0%Q in Hs by ring. exact Hs.
    + apply eqb_false_iff in Hz. split.
      * destruct (ProgressRecord.difficulty_feedback p) as [f |];
          [destruct (_ && _) |]; discriminate.
      * intros [E _]. contradiction.
  - apply ltb_false_iff in Hs. split.
    + destruct (ProgressRecord.difficulty_feedback p) as [f |];
        [destruct (_ && _) |]; discriminate.
    + intros [E Hpos]. exfalso. rewrite E in Hs.
      setoid_replace (0 * (3 # 2))%Q with 0%Q in Hs by ring.
      exact (Qlt_not_le _ _ Hpos Hs).
Qed.

Lemma detect_from_fails (data : list ProgressRecord.t) :
  forall acc : list Struggle.t,
    detect_from acc data = None
    <-> exists p, In p data /\ (Spec.expected_of p == 0)%Q /\ (0 < Spec.actual_of p)%Q.
Proof.
  induction data as [| p data IH]; intros acc; simpl.
  - split; [discriminate | intros [p [[] _]]].
  - destruct (detect_step acc p) as [acc' |] eqn:E.
    + rewrite IH. split.
      * intros [q [Hq Hbad]]. exists q. tauto.
      * intros [q [[<- | Hq] Hbad]].
        -- apply (detect_step_fails acc) in Hbad. congruence.
        -- exists q. tauto.
    + split; [intros _ | reflexivity].
      exists p. split; [now left | now apply (detect_step_fails acc)].
Qed.

(** X15.  [detect_struggling_topics] fails with a division by zero
    exactly when some record has an expected time of 0 and a positive
    time spent; otherwise it returns a list. *)
Theorem detect_struggling_topics_division (progress_data : list ProgressRecord.t) :
  detect_struggling_topics progress_data = None
  <-> exists p, In p progress_data
                /\ (Spec.expected_of p == 0)%Q /\ (0 < Spec.actual_of p)%Q.
Proof. apply detect_from_fails. Qed.

Lemma feedback_is_too_hard (p : ProgressRecord.t) (f : string) :
  ProgressRecord.difficulty_feedback p = Some f ->
  String.eqb f "too_hard" = true <-> Spec.too_hard p.
Proof.
  intros E. unfold Spec.too_hard. rewrite E, String.eqb_eq.
  split; [intros -> | intros H]; congruence.
Qed.

Lemma detect_step_adds (acc acc' : list Struggle.t) (p : ProgressRecord.t) :
  detect_step acc p = Some acc' ->
  exists added : list Struggle.t,
    acc' = acc ++ added
    /\ List.length added <= 1
    /\ (forall e, In e added ->
          Struggle.topic_id e = ProgressRecord.topic_id p
          /\ (Spec.slow p \/ Spec.too_hard p)
          /\ (Struggle.user_feedback e <> None ->
              ~ In (ProgressRecord.topic_id p) (map Struggle.topic_id acc)))
    /\ (Spec.slow p \/ Spec.too_hard p ->
        In (ProgressRecord.topic_id p) (map Struggle.topic_id acc')).
Proof.
  unfold detect_step, Spec.slow.
  fold (Spec.expected_of p). fold (Spec.actual_of p).
  destruct (PyNum.ltb (Spec.expected_of p * (3 # 2)) (Spec.actual_of p)) eqn:Hs.
  - apply ltb_iff in Hs.
    destruct (PyNum.eqb (Spec.expected_of p) 0); [discriminate |].
    assert (Hin : In (ProgressRecord.topic_id p)
                     (map Struggle.topic_id
                        (acc ++ [Struggle.mk (ProgressRecord.topic_id p) (title_of p)
                                   (Some (Spec.actual_of p / Spec.expected_of p)%Q) None
                                   "Review prerequisites or seek additional resources"]))).
    { rewrite map_app. apply in_or_app. right. now left. }
    assert (Hm : PyStr.mem (ProgressRecord.topic_id p)
                   (map Struggle.topic_id
                      (acc ++ [Struggle.mk (ProgressRecord.topic_id p) (title_of p)
                                 (Some (Spec.actual_of p / Spec.expected_of p)%Q) None
                                 "Review prerequisites or seek additional resources"]))
                 = true) by now apply mem_true_iff.
    destruct (ProgressRecord.difficulty_feedback p) as [f |];
      [rewrite Hm, andb_false_r |];
      intros H; injection H as <-;
      (eexists; split; [reflexivity |]; split; [simpl; lia |]; split;
       [intros e [<- | []]; simpl; split; [reflexivity |]; split;
        [now left | intros C; now contradiction C]
       | intros _; exact Hin]).
  - apply ltb_false_iff in Hs.
    destruct (ProgressRecord.difficulty_feedback p) as [f |] eqn:Ef.
    + destruct (String.eqb f "too_hard") eqn:Et.
      * apply (feedback_is_too_hard p f Ef) in Et.
        destruct (PyStr.mem (ProgressRecord.topic_id p) (map Struggle.topic_id acc))
          eqn:Em; simpl; intros H; injection H as <-.
        -- apply mem_true_iff in Em. exists []. rewrite app_nil_r.
           split; [reflexivity |]. split; [simpl; lia |].
           split; [intros e [] | intros _; exact Em].
        -- apply mem_false_iff in Em. eexists. split; [reflexivity |].
           split; [simpl; lia |]. split.
           ++ intros e [<- | []]. simpl. split; [reflexivity |].
              split; [now right | intros _; exact Em].
           ++ intros _. rewrite map_app. apply in_or_app. right. now left.
      * simpl. intros H. injection H as <-. exists []. rewrite app_nil_r.
        split; [reflexivity |]. split; [simpl; lia |].
        split; [intros e [] |].
        intros [Hslow | Hhard].
        -- exfalso. exact (Qlt_not_le _ _ Hslow Hs).
        -- apply (feedback_is_too_hard p f Ef) in Hhard. congruence.
    + intros H. injection H as <-. exists []. rewrite app_nil_r.
      split; [reflexivity |]. split; [simpl; lia |].
      split; [intros e [] |].
      intros [Hslow | Hhard].
      * exfalso. exact (Qlt_not_le _ _ Hslow Hs).
      * unfold Spec.too_hard in Hhard. congruence.
Qed.

Lemma detect_from_adds (data : list ProgressRecord.t) :
  forall acc out : list Struggle.t,
    detect_from acc data = Some out ->
    exists added : list Struggle.t,
      out = acc ++ added
      /\ List.length added <= List.length data
      /\ (forall e, In e added ->
            exists p, In p data
                      /\ Struggle.topic_id e = ProgressRecord.topic_id p
                      /\ (Spec.slow p \/ Spec.too_hard p))
      /\ (forall p, In p data -> Spec.slow p \/ Spec.too_hard p ->
            In (ProgressRecord.topic_id p) (map Struggle.topic_id out))
      /\ (NoDup (map ProgressRecord.topic_id data) ->
          (forall p, In p data ->
             ~ In (ProgressRecord.topic_id p) (map Struggle.topic_id acc)) ->
          NoDup (map Struggle.topic_id added)
          /\ forall e, In e added ->
               ~ In (Struggle.topic_id e) (map Struggle.topic_id acc)).
Proof.
  induction data as [| p data IH]; intros acc out; simpl.
  - intros H. injection H as <-. exists []. rewrite app_nil_r.
    split; [reflexivity |]. split; [simpl; lia |].
    split; [intros e [] |]. split; [intros p [] |].
    intros _ _. split; [constructor | intros e []].
  - destruct (detect_step acc p) as [acc' |] eqn:E; [| discriminate].
    intros Hout.
    destruct (detect_step_adds acc acc' p E) as (a1 & -> & Hl1 & Hin1 & Hfl1).
    destruct (IH (acc ++ a1) out Hout) as (a2 & -> & Hl2 & Hin2 & Hfl2 & Hnd2).
    exists (a1 ++ a2). rewrite app_assoc. split; [reflexivity |].
    split; [rewrite length_app; lia |]. split; [| split].
    + intros e He. apply in_app_or in He. destruct He as [He | He].
      * destruct (Hin1 e He) as (Hid & Hwhy & _). exists p. tauto.
      * destruct (Hin2 e He) as (q & Hq & Hid & Hwhy). exists q. tauto.
    + intros q [<- | Hq] Hwhy.
      * rewrite map_app. apply in_or_app. left. now apply Hfl1.
      * now apply Hfl2.
    + intros Hnd Hfresh. inversion Hnd as [| ? ? Hp Hnd']; subst.
      assert (Hfresh' : forall q, In q data ->
                ~ In (ProgressRecord.topic_id q) (map Struggle.topic_id (acc ++ a1))).
      { intros q Hq C. rewrite map_app in C. apply in_app_or in C.
        destruct C as [C | C].
        - apply (Hfresh q); [now right | exact C].
        - apply in_map_iff in C. destruct C as [e [Heq He]].
          destruct (Hin1 e He) as (Hid & _). apply Hp.
          rewrite <- Hid, Heq. now apply in_map. }
      destruct (Hnd2 Hnd' Hfresh') as [Hnd2' Hout2].
      split.
      * rewrite map_app. apply NoDup_app; [| exact Hnd2' |].
        -- destruct a1 as [| e1 [| e2 a1]]; simpl in Hl1;
             [constructor | repeat constructor; intros [] | lia].
        -- intros i Hi1 Hi2. apply in_map_iff in Hi2.
           destruct Hi2 as [e [<- He]]. apply (Hout2 e He).
           rewrite map_app. apply in_or_app. now right.
      * intros e He C. apply in_app_or in He. destruct He as [He | He].
        -- destruct (Hin1 e He) as (Hid & _). rewrite Hid in C.
           apply (Hfresh p); [now left | exact C].
        -- apply (Hout2 e He). rewrite map_app. apply in_or_app. now left.
Qed.

(** X16.  When [detect_struggling_topics] returns a list, it holds at
    most one entry per record; the topic ids it flags are exactly the
    ids of the records that took more than one and a half times their
    expected time or carry the feedback too_hard; and when the records
    have pairwise different topic ids, so have the entries. *)
Theorem detect_struggling_topics_flags
    (progress_data : list ProgressRecord.t) (out : list Struggle.t) :
  detect_struggling_topics progress_data = Some out ->
  List.length out <= List.length progress_data
  /\ (forall id : string,
        In id (map Struggle.topic_id out)
        <-> exists p, In p progress_data /\ ProgressRecord.topic_id p = id
                      /\ (Spec.slow p \/ Spec.too_hard p))
  /\ (NoDup (map ProgressRecord.topic_id progress_data) ->
      NoDup (map Struggle.topic_id out)).
Proof.
  intros H. unfold detect_struggling_topics in H.
  destruct (detect_from_adds progress_data [] out H)
    as (added & -> & Hlen & Hin & Hfl & Hnd).
  simpl. split; [exact Hlen |]. split.
  - intros id. split.
    + intros Hid. apply in_map_iff in Hid. destruct Hid as [e [<- He]].
      destruct (Hin e He) as (p & Hp & Hid & Hwhy). exists p. split; [exact Hp |].
      split; [now symmetry | exact Hwhy].
    + intros (p & Hp & <- & Hwhy). now apply (Hfl p).
  - intros Hd. apply Hnd; [exact Hd | intros p _ []].
Qed.

Lemma detect_struggling_topics_flags_witness :
  let late := ProgressRecord.mk "t1" (Some "Loops") (Some 60%Q) (Some 100%Q)
                (Some "too_hard") None in
  let hard := ProgressRecord.mk "t2" None None (Some 10%Q) (Some "too_hard") None in
  let fine := ProgressRecord.mk "t3" None None (Some 10%Q) (Some "ok") None in
  exists out,
    detect_struggling_topics [late; hard; fine] = Some out
    /\ map Struggle.topic_id out = ["t1"; "t2"]
    /\ List.length out <= 3.
Proof.
  intros late hard fine. eexists. split; [reflexivity |]. split; [reflexivity |].
  exact (proj1 (detect_struggling_topics_flags [late; hard; fine] _ eq_refl)).
Defined.

End StrugglingExtras.

Section InsightExtras.

Import AIAdaptiveLearning.

(** X17.  In the answer of [generate_personalized_insights] every
    learning pattern and every area for improvement comes with one
    recommendation and there are no other recommendations; there is
    one learning pattern when there are logs and none otherwise, and at
    most two strengths and two areas for improvement; without logs and
    progress records the four lists are empty; and when the morning
    minutes do not exceed the evening minutes the pattern reported is
    the evening one. *)
Theorem generate_personalized_insights_counts
    (user_data : UserData.t)
    (progress_data : list ProgressRecord.t) (activity_logs : list Activity.t) :
  let i := generate_personalized_insights user_data progress_data activity_logs in
  List.length (Insights.recommendations i)
  = List.length (Insights.learning_patterns i)
    + List.length (Insights.areas_for_improvement i)
  /\ List.length (Insights.learning_patterns i)
     = (match activity_logs with [] => 0 | _ :: _ => 1 end)
  /\ List.length (Insights.strengths i) <= 2
  /\ List.length (Insights.areas_for_improvement i) <= 2
  /\ (progress_data = [] -> activity_logs = [] -> i = Insights.mk [] [] [] [])
  /\ (activity_logs <> [] ->
      (minutes_tagged "morning" activity_logs
       <= minutes_tagged "evening" activity_logs)%Z ->
      Insights.learning_patterns i = ["You're most productive in the evening"]).
Proof.
  intros i. subst i. unfold generate_personalized_insights.
  destruct activity_logs as [| a l] eqn:El.
  - destruct progress_data as [| p ps] eqn:Ep.
    + simpl. repeat split; try reflexivity; try lia. intros C. congruence.
    + rewrite <- Ep.
      destruct (PyNum.ltb (8 # 10) _); [| destruct (PyNum.ltb _ (5 # 10))];
        simpl; repeat split; try lia; try congruence.
  - rewrite <- El.
    assert (Htie : (minutes_tagged "morning" activity_logs
                    <= minutes_tagged "evening" activity_logs)%Z ->
                   (minutes_tagged "evening" activity_logs
                    <? minutes_tagged "morning" activity_logs)%Z = false)
      by (intros H; apply Z.ltb_ge; exact H).
    destruct (minutes_tagged "evening" activity_logs
              <? minutes_tagged "morning" activity_logs)%Z;
      (destruct progress_data as [| p ps] eqn:Ep;
       [| rewrite <- Ep;
          destruct (PyNum.ltb (8 # 10) _); [| destruct (PyNum.ltb _ (5 # 10))]]);
      (destruct (7 <=? List.length activity_logs)%nat;
       [destruct (6 <=? active_days activity_logs)%nat;
        [| destruct (active_days activity_logs <=? 3)%nat] |]);
      cbn [Insights.strengths Insights.areas_for_improvement
           Insights.learning_patterns Insights.recommendations app List.length];
      (split; [lia |]); (split; [lia |]); (split; [lia |]); (split; [lia |]);
      (split; [intros _ C; congruence |]);
      intros _ H; try reflexivity; specialize (Htie H); discriminate Htie.
Qed.

End InsightExtras.

(* ================================================================= *)
(** ** Further properties: the generation pipeline and its route *)

Section PipelineExtras.

Import AIPathGenerator.

Lemma Forall2_map_left {A B C : Type} (R : B -> C -> Prop) (f : A -> B)
    (l : list A) (l' : list C) :
  Forall2 R (map f l) l' -> Forall2 (fun a c => R (f a) c) l l'.
Proof.
  revert l'. induction l as [| a l IH]; intros l' H; inversion H; subst; constructor.
  - assumption.
  - now apply IH.
Qed.

Lemma build_curriculum_difficulty (target_role : string) (skill_gaps : SkillGaps.t)
    (proficiency learning_pace : string) :
  Curriculum.difficulty (build_curriculum target_role skill_gaps proficiency learning_pace)
  = proficiency.
Proof.
  unfold build_curriculum.
  repeat (match goal with
          | |- context [if ?b then _ else _] => destruct b; [reflexivity |]
          end).
  reflexivity.
Qed.

Lemma tier_multiplier (current_skills : list string) (assessment_score : Q) :
  let tier := determine_proficiency_level current_skills assessment_score in
  (tier = "beginner" /\ multiplier_of tier = (3 # 2)%Q)
  \/ (tier = "intermediate" /\ multiplier_of tier = 1%Q)
  \/ (tier = "advanced" /\ multiplier_of tier = (7 # 10)%Q).
Proof.
  intros tier. subst tier. unfold determine_proficiency_level.
  destruct (_ && _); [right; right; split; reflexivity |].
  destruct (_ && _); [right; left; split; reflexivity | left; split; reflexivity].
Qed.

Lemma resources_by_topic (preferred_content : list string) (ms : list Mod.t) :
  List.concat (map (fun m =>
                 map (fun x => fetch_resources_for_topic (Topic.title x) preferred_content)
                     (Mod.topics m)) ms)
  = map (fun x => fetch_resources_for_topic (Topic.title x) preferred_content)
        (flat_map Mod.topics ms).
Proof.
  induction ms as [| m ms IH]; simpl; [reflexivity |].
  rewrite map_app, IH. reflexivity.
Qed.

(** X18.  [generate_personalized_path] returns the template chosen by
    [build_curriculum] for the tier of [determine_proficiency_level],
    each topic carrying a [locked] flag computed from the declared
    skills and an [estimated_hours] between 2 and 8 times the tier's
    multiplier, which is 1.5, 1.0 or 0.7: the default multiplier is
    never used.  It draws once per topic of the template, and the
    resources of a topic are those fetched for its title. *)
Theorem generate_personalized_path_pipeline
    (randint : nat -> Z) (k : nat) (user_data : UserData.t) :
  (forall i, (2 <= randint i <= 8)%Z) ->
  let skills := UserData.current_skills user_data in
  let tier := determine_proficiency_level skills (UserData.assessment_score user_data) in
  let template :=
    build_curriculum (UserData.target_role user_data)
      (analyze_skill_gaps skills (UserData.target_role user_data))
      tier (UserData.learning_pace user_data) in
  let run := generate_personalized_path randint k user_data in
  Curriculum.difficulty (fst (fst run)) = tier
  /\ ((tier = "beginner" /\ multiplier_of tier = (3 # 2)%Q)
      \/ (tier = "intermediate" /\ multiplier_of tier = 1%Q)
      \/ (tier = "advanced" /\ multiplier_of tier = (7 # 10)%Q))
  /\ snd run = k + List.length (Curriculum.all_topics template)
  /\ Forall2
       (fun x x' =>
          exists (b : bool) (e : Q),
            x' = Topic.set_estimated_hours e (Topic.set_locked b x)
            /\ (b = true <->
                exists p, In p (prerequisites_of x)
                          /\ forall s, In s skills -> ~ Spec.same_ignoring_case p s)
            /\ (2 * multiplier_of tier <= e)%Q /\ (e <= 8 * multiplier_of tier)%Q)
       (Curriculum.all_topics template) (Curriculum.all_topics (fst (fst run)))
  /\ List.concat (snd (fst run))
     = map (fun x => fetch_resources_for_topic (Topic.title x)
                       (UserData.preferred_content user_data))
           (Curriculum.all_topics template).
Proof.
  intros Hdraw skills tier template run. subst run.
  unfold generate_personalized_path, add_personalized_resources.
  fold skills. fold tier. fold template.
  unfold calculate_time_estimates.
  pose proof (estimate_modules_draws randint (multiplier_of tier)
                (UserData.daily_hours user_data)
                (Curriculum.modules (optimize_learning_sequence template skills))
                k 0%Q) as Hk.
  destruct (estimate_modules_spec randint Hdraw (multiplier_of tier)
              (multiplier_positive tier) (multiplier_tenths tier)
              (UserData.daily_hours user_data)
              (Curriculum.modules (optimize_learning_sequence template skills)) k 0%Q)
    as (ms' & w' & k' & Heq & Hall & _ & _).
  rewrite Heq in *. cbn [fst snd] in *.
  change (flat_map Mod.topics
            (Curriculum.modules (optimize_learning_sequence template skills)))
    with (Curriculum.all_topics (optimize_learning_sequence template skills)) in *.
  rewrite all_topics_optimized in *. rewrite length_map in Hk.
  split; [apply build_curriculum_difficulty |].
  split; [apply tier_multiplier |].
  split; [exact Hk |]. split.
  - apply Forall2_map_left in Hall. unfold Curriculum.all_topics at 2. simpl.
    eapply Forall2_impl; [| exact Hall].
    intros x x' (e & -> & Hlo & Hhi).
    destruct (lock_topic_spec skills x) as (b & Hb & Hiff & _).
    exists b, e. rewrite Hb. repeat split; try assumption; apply Hiff.
  - rewrite resources_by_topic.
    change (flat_map Mod.topics
              (Curriculum.modules (optimize_learning_sequence template skills)))
      with (Curriculum.all_topics (optimize_learning_sequence template skills)).
    rewrite all_topics_optimized, map_map. reflexivity.
Qed.

Lemma generate_personalized_path_pipeline_witness :
  let profile :=
    UserData.mk [] "Backend Developer" "moderate" 2 0 ["videos"] in
  let run := generate_personalized_path (fun _ => 5%Z) 0 profile in
  (forall i : nat, (2 <= (fun _ : nat => 5%Z) i <= 8)%Z)
  /\ Curriculum.difficulty (fst (fst run)) = "beginner"
  /\ snd run = 18
  /\ Forall (fun rs => map Resource.type rs = ["video"; "documentation"])
            (List.concat (snd (fst run))).
Proof.
  intros profile run.
  assert (Hdraw : forall i : nat, (2 <= (fun _ : nat => 5%Z) i <= 8)%Z)
    by (intros i; lia).
  split; [exact Hdraw |].
  destruct (generate_personalized_path_pipeline (fun _ => 5%Z) 0 profile Hdraw)
    as (Hd & _ & Hk & _ & Hres).
  split; [exact Hd |]. split; [exact Hk |].
  subst run. rewrite Hres. apply Forall_forall. intros rs Hrs.
  apply in_map_iff in Hrs. destruct Hrs as [x [<- _]]. reflexivity.
Defined.

End PipelineExtras.

Section RouteExtras.

Import AIPathGenerator.

Lemma topic_count (ms : list Mod.t) :
  fold_left Nat.add (map (fun m => List.length (Mod.topics m)) ms) 0
  = List.length (flat_map Mod.topics ms).
Proof.
  assert (H : forall a, fold_left Nat.add (map (fun m => List.length (Mod.topics m)) ms) a
                        = a + List.length (flat_map Mod.topics ms)).
  { induction ms as [| m ms IH]; intros a; simpl; [lia |].
    rewrite IH, length_app. lia. }
  apply H.
Qed.

Lemma estimate_topics_length (randint : nat -> Z) (multiplier : Q) (ts : list Topic.t) :
  forall (k : nat) (h : Q),
    List.length (fst (fst (estimate_topics randint k multiplier ts h))) = List.length ts.
Proof.
  induction ts as [| x ts IH]; intros k h; simpl; [reflexivity |].
  specialize (IH (S k) (h + inject_Z (randint k) * multiplier)%Q).
  destruct (estimate_topics randint (S k) multiplier ts
              (h + inject_Z (randint k) * multiplier)%Q) as [[r h'] k'].
  simpl in *. now rewrite IH.
Qed.

Lemma estimate_modules_lengths (randint : nat -> Z) (multiplier daily_hours : Q)
    (ms : list Mod.t) :
  forall (k : nat) (w : Q),
    map (fun m => List.length (Mod.topics m))
        (fst (fst (estimate_modules randint k multiplier daily_hours ms w)))
    = map (fun m => List.length (Mod.topics m)) ms.
Proof.
  induction ms as [| m ms IH]; intros k w; simpl; [reflexivity |].
  pose proof (estimate_topics_length randint multiplier (Mod.topics m) k 0%Q) as Hl.
  destruct (estimate_topics randint k multiplier (Mod.topics m) 0%Q) as [[ts h] k1].
  match goal with
  | |- context [estimate_modules randint k1 multiplier daily_hours ms ?w1] =>
      specialize (IH k1 w1);
      destruct (estimate_modules randint k1 multiplier daily_hours ms w1) as [[r w'] k2]
  end.
  simpl in *. now rewrite Hl, IH.
Qed.

Lemma number_or_nonzero (x : option Q) (default : Q) :
  ~ (default == 0)%Q -> ~ (App.number_or x default == 0)%Q.
Proof.
  intros Hd. unfold App.number_or. destruct x as [x' |]; [| exact Hd].
  destruct (PyNum.eqb x' 0) eqn:E; [exact Hd | now apply eqb_false_iff].
Qed.

(** X19.  In the route [generate_path] the stored [total_topics] is the
    number of topics of the generated curriculum and also the number of
    random draws the generation consumed, [total_modules] is its number
    of modules, and the stored difficulty is one of the three tiers.
    The daily hours handed to the engine are never 0 (NULL and 0 both
    become 2).  A user without stored content preferences gets, for
    every topic, the video, article, interactive and documentation
    descriptors in that order. *)
Theorem generate_path_row (randint : nat -> Z) (k : nat) (user : UserRow.t) :
  let run := App.generate_path randint k user in
  let curriculum := fst (fst (fst run)) in
  let resources := snd (fst (fst run)) in
  let row := snd (fst run) in
  PathRow.total_topics row = List.length (Curriculum.all_topics curriculum)
  /\ snd run = k + PathRow.total_topics row
  /\ PathRow.total_modules row = List.length (Curriculum.modules curriculum)
  /\ In (PathRow.difficulty_level row) ["beginner"; "intermediate"; "advanced"]
  /\ ~ (UserData.daily_hours (App.user_data_of user) == 0)%Q
  /\ (UserRow.preferred_content user = [] ->
      Forall (fun rs => map Resource.type rs
                        = ["video"; "article"; "interactive"; "documentation"])
             (List.concat resources)).
Proof.
  intros run curriculum resources row. subst curriculum resources row run.
  unfold App.generate_path, generate_personalized_path, add_personalized_resources,
    calculate_time_estimates.
  set (ud := App.user_data_of user).
  set (tier := determine_proficiency_level (UserData.current_skills ud)
                 (UserData.assessment_score ud)).
  set (template := build_curriculum (UserData.target_role ud)
                     (analyze_skill_gaps (UserData.current_skills ud)
                        (UserData.target_role ud))
                     tier (UserData.learning_pace ud)).
  set (sequenced := optimize_learning_sequence template (UserData.current_skills ud)).
  pose proof (estimate_modules_draws randint (multiplier_of tier)
                (UserData.daily_hours ud) (Curriculum.modules sequenced) k 0%Q) as Hk.
  pose proof (estimate_modules_lengths randint (multiplier_of tier)
                (UserData.daily_hours ud) (Curriculum.modules sequenced) k 0%Q) as Hl.
  destruct (estimate_modules randint k (multiplier_of tier) (UserData.daily_hours ud)
              (Curriculum.modules sequenced) 0%Q) as [[ms w] k'].
  cbn [fst snd] in *.
  cbn [PathRow.total_topics PathRow.total_modules PathRow.difficulty_level
       Curriculum.modules Curriculum.set_totals Curriculum.set_modules
       Curriculum.difficulty].
  unfold Curriculum.all_topics. cbn [Curriculum.modules].
  assert (Hcount : List.length (flat_map Mod.topics ms)
                   = List.length (flat_map Mod.topics (Curriculum.modules sequenced))).
  { rewrite <- !topic_count. now rewrite Hl. }
  split; [apply topic_count |].
  split; [rewrite topic_count, Hcount; exact Hk |].
  split; [reflexivity |].
  split.
  { change (Curriculum.difficulty sequenced) with (Curriculum.difficulty template).
    unfold template. rewrite build_curriculum_difficulty. apply proficiency_values. }
  split; [apply number_or_nonzero; discriminate |].
  intros Hnone. rewrite resources_by_topic. apply Forall_forall. intros rs Hrs.
  apply in_map_iff in Hrs. destruct Hrs as [x [<- _]].
  unfold ud, App.user_data_of. rewrite Hnone. reflexivity.
Qed.

End RouteExtras.

Section PredictionRoute.

Import AIAdaptiveLearning.

Lemma round_half_even_zero (x : Q) :
  PyNum.round_half_even x = 0%Z -> (- (1 # 2) <= x)%Q /\ (x <= 1 # 2)%Q.
Proof.
  unfold PyNum.round_half_even. cbv zeta.
  pose proof (Qfloor_le x) as Hlo. pose proof (Qlt_floor x) as Hhi.
  destruct (Qcompare_spec (x - inject_Z (Qfloor x)) (1 # 2)) as [E | L | G].
  - destruct (Z.even (Qfloor x)); intros Hf.
    + rewrite Hf in *. split.
      * apply Qle_trans with 0%Q; [discriminate | exact Hlo].
      * rewrite <- E. setoid_replace (x - inject_Z 0)%Q with x by ring. apply Qle_refl.
    + assert (Hf' : Qfloor x = (-1)%Z) by lia. rewrite Hf' in *. split.
      * setoid_replace x with ((x - inject_Z (-1)) + inject_Z (-1))%Q by ring.
        rewrite E. discriminate.
      * apply Qlt_le_weak. apply Qlt_trans with 0%Q; [exact Hhi | reflexivity].
  - intros Hf. rewrite Hf in *. split.
    + apply Qle_trans with 0%Q; [discriminate | exact Hlo].
    + apply Qlt_le_weak.
      setoid_replace x with (x - inject_Z 0)%Q by ring. exact L.
  - intros Hf. assert (Hf' : Qfloor x = (-1)%Z) by lia. rewrite Hf' in *. split.
    + apply Qlt_le_weak.
      setoid_replace x with ((x - inject_Z (-1)) + inject_Z (-1))%Q by ring.
      setoid_replace (- (1 # 2))%Q with ((1 # 2) + inject_Z (-1))%Q by reflexivity.
      apply Qplus_lt_l. exact G.
    + apply Qlt_le_weak. apply Qlt_trans with 0%Q; [exact Hhi | reflexivity].
Qed.

Lemma round2_velocity_zero (total : Z) :
  (PyNum.round2 (inject_Z total / 7) == 0)%Q <-> total = 0%Z.
Proof.
  split.
  - intros H. unfold PyNum.round2 in H.
    assert (Hz : PyNum.round_half_even (inject_Z total / 7 * 100) = 0%Z).
    { destruct (PyNum.round_half_even (inject_Z total / 7 * 100)) eqn:E;
        [reflexivity | |]; exfalso; revert H;
        unfold Qeq, Qdiv, Qmult, Qinv; simpl; lia. }
    apply round_half_even_zero in Hz. destruct Hz as [Hlo Hhi].
    unfold Qle, Qdiv, Qmult, Qinv in Hlo, Hhi. cbn [Qnum Qden inject_Z] in Hlo, Hhi.
    change (Z.pos (1 * 7 * 1)) with 7%Z in *. simpl in Hlo, Hhi. lia.
  - intros ->. reflexivity.
Qed.

(** X20.  The route [analytics_predictions] answers with the
    low-confidence Cannot estimate prediction exactly when there is no
    activity log or no topic was completed in the last seven logs; with
    at least one topic completed there, the velocity it passes on is
    not 0 and the answer, when the calendar gives one, carries its
    day counts. *)
Theorem analytics_predictions_sentinel
    (strftime_after : Q -> option string) (completed_topics : Z)
    (total_topics : option Z) (activity_logs : list Activity.t) :
  let total := topics_completed_in (last7 activity_logs) in
  (App.analytics_predictions strftime_after completed_topics total_topics activity_logs
   = Some (Prediction.mk "Cannot estimate" None None "low"
             "Complete more topics to get accurate prediction")
   <-> activity_logs = [] \/ total = 0%Z)
  /\ (activity_logs <> [] -> total <> 0%Z ->
      forall p,
        App.analytics_predictions strftime_after completed_topics total_topics
          activity_logs = Some p ->
        Prediction.days_remaining p <> None /\ Prediction.confidence p <> "low").
Proof.
  intros total. subst total. unfold App.analytics_predictions.
  destruct activity_logs as [| a l] eqn:El.
  - simpl. split; [split; [intros _; now left | reflexivity] |].
    intros C. congruence.
  - rewrite <- El. set (total := topics_completed_in (last7 activity_logs)).
    assert (Hv : Velocity.topics_per_day (analyze_learning_velocity activity_logs)
                 = Some (PyNum.round2 (inject_Z total / 7))).
    { rewrite El. unfold analyze_learning_velocity.
      rewrite <- El. fold total.
      destruct (PyNum.leb 2 (inject_Z total / 7));
        [| destruct (PyNum.leb 1 (inject_Z total / 7))]; reflexivity. }
    rewrite Hv. unfold predict_completion_date.
    destruct (PyNum.eqb (PyNum.round2 (inject_Z total / 7)) 0) eqn:E.
    + apply eqb_true_iff in E. apply (proj1 (round2_velocity_zero total)) in E.
      split; [split; [intros _; right; exact E | reflexivity] |].
      intros _ C. contradiction.
    + assert (Hne : total <> 0%Z).
      { intros C. apply eqb_false_iff in E. apply E.
        exact (proj2 (round2_velocity_zero total) C). }
      split.
      * split.
        -- destruct (strftime_after _); [| discriminate].
           intros H. injection H as _ H _. discriminate.
        -- intros [C | C]; [rewrite El in C; discriminate | contradiction].
      * intros _ _ p. destruct (strftime_after _); [| discriminate].
        intros H. injection H as <-. simpl.
        split; [discriminate |].
        destruct (PyNum.ltb _ 100); discriminate.
Qed.

Lemma analytics_predictions_sentinel_witness :
  let calendar := fun _ : Q => Some "January 01, 2030" in
  let idle := [Activity.mk (Some 0%Z) (Some 30%Z) None] in
  let busy := [Activity.mk (Some 1%Z) (Some 30%Z) None] in
  busy <> [] /\ topics_completed_in (last7 busy) <> 0%Z
  /\ (exists p, App.analytics_predictions calendar 2 (Some 10%Z) idle = Some p
                /\ Prediction.confidence p = "low")
  /\ (exists p, App.analytics_predictions calendar 2 (Some 10%Z) busy = Some p
                /\ Prediction.days_remaining p = Some 57%Z
                /\ Prediction.confidence p <> "low").
Proof.
  intros calendar idle busy.
  assert (H1 : busy <> []) by discriminate.
  assert (H2 : topics_completed_in (last7 busy) <> 0%Z) by discriminate.
  split; [exact H1 |]. split; [exact H2 |]. split.
  - eexists. split.
    + apply (proj1 (analytics_predictions_sentinel calendar 2 (Some 10%Z) idle)).
      right. reflexivity.
    + reflexivity.
  - eexists. split; [reflexivity |]. split; [reflexivity |].
    exact (proj2 (proj2 (analytics_predictions_sentinel calendar 2 (Some 10%Z) busy)
                    H1 H2 _ eq_refl)).
Defined.

End PredictionRoute.

(* ================================================================= *)
(** ** Further properties: utils.py *)

Section LevelExtras.

Import Utils.

(** X21.  Levels and experience: a level is never below 1 and never
    decreases when the experience grows; the level reached with the
    experience required for level [n >= 1] is [n]; and from 1000 points
    on, the experience lies between the requirement of the level it
    gives and the requirement of the next level.  Below 2000 points the
    level is 1. *)
Theorem level_round_trip (xp xp' level : Z) :
  (1 <= get_level_from_xp xp)%Z
  /\ ((xp <= xp')%Z -> (get_level_from_xp xp <= get_level_from_xp xp')%Z)
  /\ ((1 <= level)%Z -> get_level_from_xp (calculate_xp_for_level level) = level)
  /\ ((1000 <= xp)%Z ->
      (calculate_xp_for_level (get_level_from_xp xp) <= xp)%Z
      /\ (xp < calculate_xp_for_level (get_level_from_xp xp + 1))%Z)
  /\ ((xp < 2000)%Z -> get_level_from_xp xp = 1%Z).
Proof.
  unfold get_level_from_xp, calculate_xp_for_level.
  split; [lia |]. split; [| split; [| split]].
  - intros H. pose proof (Z.div_le_mono xp xp' 1000 ltac:(lia) H). lia.
  - intros H. rewrite Z.div_mul by lia. lia.
  - intros H. pose proof (Z.div_mod xp 1000 ltac:(lia)) as Hd.
    pose proof (Z.mod_pos_bound xp 1000 ltac:(lia)) as Hm.
    assert (1 <= xp / 1000)%Z by (apply Z.div_le_lower_bound; lia).
    rewrite Z.max_r by lia. lia.
  - intros H. assert (xp / 1000 < 2)%Z by (apply Z.div_lt_upper_bound; lia). lia.
Qed.

Lemma level_round_trip_witness :
  (2350 <= 2999)%Z /\ (1 <= 7)%Z /\ (1000 <= 2350)%Z /\ (1999 < 2000)%Z
  /\ get_level_from_xp 2350 = 2%Z
  /\ get_level_from_xp (calculate_xp_for_level 7) = 7%Z
  /\ (calculate_xp_for_level (get_level_from_xp 2350) <= 2350)%Z
  /\ get_level_from_xp 1999 = 1%Z.
Proof.
  assert (H1 : (2350 <= 2999)%Z) by lia.
  assert (H2 : (1 <= 7)%Z) by lia.
  assert (H3 : (1000 <= 2350)%Z) by lia.
  assert (H4 : (1999 < 2000)%Z) by lia.
  repeat (split; [assumption |]).
  split; [reflexivity |].
  destruct (level_round_trip 2350 2999 7) as (_ & _ & Hr & Hb & _).
  split; [exact (Hr H2) |].
  split; [exact (proj1 (Hb H3)) |].
  destruct (level_round_trip 1999 1999 1) as (_ & _ & _ & _ & Hl).
  exact (Hl H4).
Defined.

End LevelExtras.

Section StreakExtras.

Import Utils.

Lemma insert_by_date_In (x y : DatedLog.t) (l : list DatedLog.t) :
  In y (insert_by_date x l) <-> y = x \/ In y l.
Proof.
  induction l as [| z l IH]; simpl.
  - intuition congruence.
  - destruct (DatedLog.date x <? DatedLog.date z)%Z; simpl.
    + rewrite IH. intuition congruence.
    + intuition congruence.
Qed.

Lemma sort_by_date_In (y : DatedLog.t) (l : list DatedLog.t) :
  In y (sort_by_date l) <-> In y l.
Proof.
  induction l as [| x l IH]; simpl; [tauto |].
  fold (sort_by_date l). rewrite insert_by_date_In, IH. intuition congruence.
Qed.

Lemma insert_by_date_sorted (x : DatedLog.t) (l : list DatedLog.t) :
  StronglySorted Spec.later_first l -> StronglySorted Spec.later_first (insert_by_date x l).
Proof.
  induction 1 as [| z l Hs IH Hz]; simpl.
  - constructor; constructor.
  - destruct (DatedLog.date x <? DatedLog.date z)%Z eqn:E.
    + apply Z.ltb_lt in E. constructor; [exact IH |].
      apply Forall_forall. intros y Hy. apply insert_by_date_In in Hy.
      destruct Hy as [-> | Hy].
      * unfold Spec.later_first. lia.
      * rewrite Forall_forall in Hz. now apply Hz.
    + apply Z.ltb_ge in E. constructor; [constructor; assumption |].
      constructor; [exact E |].
      eapply Forall_impl; [| exact Hz]. unfold Spec.later_first. intros y Hy. lia.
Qed.

Lemma sort_by_date_sorted (l : list DatedLog.t) :
  StronglySorted Spec.later_first (sort_by_date l).
Proof.
  induction l as [| x l IH]; simpl; [constructor |].
  now apply insert_by_date_sorted.
Qed.

Lemma streak_loop_spec (today : Z) (l : list DatedLog.t) :
  StronglySorted Spec.later_first l ->
  forall s : nat,
    let r := streak_loop today s l in
    s <= r
    /\ (forall i, s <= i < r -> Spec.has_log l (today - Z.of_nat i))
    /\ ~ Spec.has_log l (today - Z.of_nat r).
Proof.
  unfold Spec.has_log.
  induction 1 as [| x l Hs IH Hx]; intros s; simpl.
  - split; [lia |]. split; [intros i Hi; lia | tauto].
  - destruct (DatedLog.date x =? today - Z.of_nat s)%Z eqn:E.
    + apply Z.eqb_eq in E. destruct (IH (S s)) as (Hle & Hin & Hout).
      split; [lia |]. split.
      * intros i Hi. destruct (Nat.eq_dec i s) as [-> | Hne]; [now left |].
        right. apply Hin. lia.
      * intros [C | C]; [lia | now apply Hout].
    + apply Z.eqb_neq in E.
      destruct (DatedLog.date x <? today - Z.of_nat s)%Z eqn:L.
      * apply Z.ltb_lt in L. split; [lia |]. split; [intros i Hi; lia |].
        intros [C | C]; [lia |].
        apply in_map_iff in C. destruct C as [y [Hy Hin]].
        rewrite Forall_forall in Hx. specialize (Hx y Hin).
        unfold Spec.later_first in Hx. lia.
      * apply Z.ltb_ge in L. destruct (IH s) as (Hle & Hin & Hout).
        split; [exact Hle |]. split.
        -- intros i Hi. right. now apply Hin.
        -- intros [C | C]; [lia | now apply Hout].
Qed.

(** X22.  [calculate_streak] counts the consecutive days, ending today,
    that have a log: every one of the last [streak] days has a log and
    the day before them has none.  Logs of the same day count once,
    logs of later days are ignored, and without a log for today the
    streak is 0 whatever the earlier days hold. *)
Theorem calculate_streak_consecutive (today : Z) (activity_logs : list DatedLog.t) :
  let streak := calculate_streak today activity_logs in
  (forall i, i < streak -> Spec.has_log activity_logs (today - Z.of_nat i))
  /\ ~ Spec.has_log activity_logs (today - Z.of_nat streak)
  /\ (~ Spec.has_log activity_logs today -> streak = 0)
  /\ (forall n : nat,
        (forall i, i < n -> Spec.has_log activity_logs (today - Z.of_nat i)) ->
        ~ Spec.has_log activity_logs (today - Z.of_nat n) ->
        streak = n).
Proof.
  intros streak.
  assert (Hsame : forall d, Spec.has_log (sort_by_date activity_logs) d
                            <-> Spec.has_log activity_logs d).
  { intros d. unfold Spec.has_log. rewrite !in_map_iff.
    split; intros [y [Hy Hin]]; exists y; (split; [exact Hy |]);
      now apply sort_by_date_In. }
  assert (Hmain : (forall i, i < streak -> Spec.has_log activity_logs (today - Z.of_nat i))
                  /\ ~ Spec.has_log activity_logs (today - Z.of_nat streak)).
  { subst streak. unfold calculate_streak.
    destruct activity_logs as [| a l] eqn:El.
    - split; [intros i Hi; lia | intros []].
    - rewrite <- El in *.
      destruct (streak_loop_spec today (sort_by_date activity_logs)
                  (sort_by_date_sorted activity_logs) 0) as (_ & Hin & Hout).
      split.
      + intros i Hi. apply Hsame. apply Hin. lia.
      + intros C. apply Hout. now apply Hsame. }
  destruct Hmain as [Hin Hout].
  split; [exact Hin |]. split; [exact Hout |]. split.
  - intros Hno. destruct streak as [| s]; [reflexivity |].
    exfalso. apply Hno. specialize (Hin 0 ltac:(lia)).
    now rewrite Z.sub_0_r in Hin.
  - intros n Hn Hnot.
    destruct (Nat.lt_trichotomy streak n) as [Hlt | [Heq | Hgt]]; [| exact Heq |].
    + exfalso. apply Hout. now apply Hn.
    + exfalso. apply Hnot. now apply Hin.
Qed.

End StreakExtras.

Section AchievementExtras.

Import Utils.

Lemma achievement_named (current_level progress_count streak : Z) (n : string) :
  In n (map Achievement.name (check_achievements current_level progress_count streak))
  <-> (n = "First Steps" /\ (1 <= progress_count)%Z)
      \/ (n = "10 Topics Master" /\ (10 <= progress_count)%Z)
      \/ (n = "50 Topics Master" /\ (50 <= progress_count)%Z)
      \/ (n = "Week Warrior" /\ (7 <= streak)%Z)
      \/ (n = "Month Champion" /\ (30 <= streak)%Z)
      \/ (n = "Level 5 Achieved" /\ (5 <= current_level)%Z)
      \/ (n = "Level 10 Achieved" /\ (10 <= current_level)%Z).
Proof.
  unfold check_achievements. rewrite in_map_iff. split.
  - intros [a [Hn Ha]]. apply filter_In in Ha. destruct Ha as [Ha Hc].
    simpl in Ha.
    repeat (destruct Ha as [<- | Ha];
            [simpl in Hn, Hc; apply Z.leb_le in Hc; subst n; tauto |]).
    destruct Ha.
  - assert (Hpick : forall a : Achievement.t,
              In a [ Achievement.mk "First Steps" (1 <=? progress_count)%Z 50;
                     Achievement.mk "10 Topics Master" (10 <=? progress_count)%Z 100;
                     Achievement.mk "50 Topics Master" (50 <=? progress_count)%Z 500;
                     Achievement.mk "Week Warrior" (7 <=? streak)%Z 200;
                     Achievement.mk "Month Champion" (30 <=? streak)%Z 1000;
                     Achievement.mk "Level 5 Achieved" (5 <=? current_level)%Z 300;
                     Achievement.mk "Level 10 Achieved" (10 <=? current_level)%Z 500 ] ->
              Achievement.criteria a = true ->
              exists x, Achievement.name x = Achievement.name a
                        /\ In x (filter Achievement.criteria
                                   [ Achievement.mk "First Steps" (1 <=? progress_count)%Z 50;
                                     Achievement.mk "10 Topics Master" (10 <=? progress_count)%Z 100;
                                     Achievement.mk "50 Topics Master" (50 <=? progress_count)%Z 500;
                                     Achievement.mk "Week Warrior" (7 <=? streak)%Z 200;
                                     Achievement.mk "Month Champion" (30 <=? streak)%Z 1000;
                                     Achievement.mk "Level 5 Achieved" (5 <=? current_level)%Z 300;
                                     Achievement.mk "Level 10 Achieved" (10 <=? current_level)%Z 500 ])).
    { intros a Ha Hc. exists a. split; [reflexivity |]. apply filter_In. now split. }
    intros [[-> H] | [[-> H] | [[-> H] | [[-> H] | [[-> H] | [[-> H] | [-> H]]]]]]];
      apply Z.leb_le in H.
    + apply (Hpick (Achievement.mk "First Steps" (1 <=? progress_count)%Z 50));
        [simpl; tauto | exact H].
    + apply (Hpick (Achievement.mk "10 Topics Master" (10 <=? progress_count)%Z 100));
        [simpl; tauto | exact H].
    + apply (Hpick (Achievement.mk "50 Topics Master" (50 <=? progress_count)%Z 500));
        [simpl; tauto | exact H].
    + apply (Hpick (Achievement.mk "Week Warrior" (7 <=? streak)%Z 200));
        [simpl; tauto | exact H].
    + apply (Hpick (Achievement.mk "Month Champion" (30 <=? streak)%Z 1000));
        [simpl; tauto | exact H].
    + apply (Hpick (Achievement.mk "Level 5 Achieved" (5 <=? current_level)%Z 300));
        [simpl; tauto | exact H].
    + apply (Hpick (Achievement.mk "Level 10 Achieved" (10 <=? current_level)%Z 500));
        [simpl; tauto | exact H].
Qed.

(** X23.  [check_achievements] returns every achievement whose
    criterion holds, whether or not it was awarded before: the names
    returned grow with the progress count, the streak and the level;
    50 Topics Master comes with 10 Topics Master and First Steps,
    Month Champion with Week Warrior, Level 10 Achieved with
    Level 5 Achieved; and nothing is returned for a user of level
    below 5 with no completed topic and a streak below 7. *)
Theorem check_achievements_monotone
    (current_level progress_count streak current_level' progress_count' streak' : Z) :
  let names := map Achievement.name
                 (check_achievements current_level progress_count streak) in
  let names' := map Achievement.name
                  (check_achievements current_level' progress_count' streak') in
  ((current_level <= current_level')%Z -> (progress_count <= progress_count')%Z ->
   (streak <= streak')%Z -> incl names names')
  /\ (In "50 Topics Master" names ->
      In "10 Topics Master" names /\ In "First Steps" names)
  /\ (In "Month Champion" names -> In "Week Warrior" names)
  /\ (In "Level 10 Achieved" names -> In "Level 5 Achieved" names)
  /\ ((current_level < 5)%Z -> (progress_count < 1)%Z -> (streak < 7)%Z ->
      check_achievements current_level progress_count streak = []).
Proof.
  intros names names'. subst names names'.
  split; [| split; [| split; [| split]]].
  - intros Hl Hp Hs n Hn. apply achievement_named in Hn. apply achievement_named.
    intuition lia.
  - intros H. apply achievement_named in H.
    split; apply achievement_named;
      repeat (destruct H as [[E H] | H]; [try discriminate E |]);
      try (destruct H as [E H]; discriminate E);
      intuition lia.
  - intros H. apply achievement_named in H. apply achievement_named.
    repeat (destruct H as [[E H] | H]; [try discriminate E |]);
      try (destruct H as [E H]; discriminate E);
      intuition lia.
  - intros H. apply achievement_named in H. apply achievement_named.
    repeat (destruct H as [[E H] | H]; [try discriminate E |]);
      try (destruct H as [E H]; try discriminate E);
      intuition lia.
  - intros Hl Hp Hs. unfold check_achievements. simpl.
    repeat match goal with
           | |- context [(?a <=? ?b)%Z] =>
               replace (a <=? b)%Z with false by (symmetry; apply Z.leb_gt; lia)
           end.
    reflexivity.
Qed.

Lemma check_achievements_monotone_witness :
  (3 <= 5)%Z /\ (12 <= 50)%Z /\ (7 <= 30)%Z
  /\ map Achievement.name (check_achievements 3 12 7)
     = ["First Steps"; "10 Topics Master"; "Week Warrior"]
  /\ incl (map Achievement.name (check_achievements 3 12 7))
          (map Achievement.name (check_achievements 5 50 30))
  /\ check_achievements 4 0 6 = [].
Proof.
  assert (H1 : (3 <= 5)%Z) by lia.
  assert (H2 : (12 <= 50)%Z) by lia.
  assert (H3 : (7 <= 30)%Z) by lia.
  repeat (split; [assumption |]). split; [reflexivity |]. split.
  - exact (proj1 (check_achievements_monotone 3 12 7 5 50 30) H1 H2 H3).
  - apply (proj2 (proj2 (proj2 (proj2 (check_achievements_monotone 4 0 6 4 0 6)))));
      lia.
Defined.

End AchievementExtras.

Section HeatmapExtras.

Import Utils.

Lemma dict_get_set (d : list (Z * Z)) (k v k' default : Z) :
  dict_get (dict_set d k v) k' default
  = if (k =? k')%Z then v else dict_get d k' default.
Proof.
  induction d as [| [k1 v1] d IH]; simpl.
  - reflexivity.
  - destruct (k1 =? k)%Z eqn:E1; simpl.
    + apply Z.eqb_eq in E1. subst k1.
      destruct (k =? k')%Z; reflexivity.
    + rewrite IH. apply Z.eqb_neq in E1.
      destruct (k1 =? k')%Z eqn:E2; [| reflexivity].
      apply Z.eqb_eq in E2. subst k'.
      assert (E3 : (k =? k1)%Z = false) by (apply Z.eqb_neq; congruence).
      now rewrite E3.
Qed.

Lemma activity_dict_get (logs : list DatedLog.t) (d : Z) :
  dict_get (activity_dict logs) d 0%Z = Spec.last_minutes logs d.
Proof.
  unfold activity_dict, Spec.last_minutes.
  assert (H : forall (D : list (Z * Z)),
            dict_get
              (fold_left
                 (fun D log =>
                    dict_set D (DatedLog.date log)
                      (match DatedLog.learning_minutes log with
                       | Some n => n | None => 0%Z end)) logs D) d 0%Z
            = fold_left
                (fun acc log =>
                   if (DatedLog.date log =? d)%Z then Spec.minutes_of log else acc)
                logs (dict_get D d 0%Z)).
  { induction logs as [| log logs IH]; intros D; simpl; [reflexivity |].
    rewrite IH, dict_get_set. reflexivity. }
  apply H.
Qed.

Lemma intensity_of_nonneg (minutes : Z) :
  (0 <= minutes)%Z ->
  intensity_of minutes = Z.min (minutes / 60) 4
  /\ (0 <= intensity_of minutes <= 4)%Z.
Proof.
  intros Hm. unfold intensity_of.
  assert (Hq : PyNum.int (inject_Z minutes / 60) = (minutes / 60)%Z).
  { unfold PyNum.int, Qdiv, Qmult, Qinv. cbn [Qnum Qden inject_Z].
    change (Z.pos (1 * 60)) with 60%Z. rewrite Z.mul_1_r.
    apply Z.quot_div_nonneg; lia. }
  assert (Hd : (0 <= minutes / 60)%Z) by (apply Z.div_pos; lia).
  destruct (PyNum.ltb 4 (inject_Z minutes / 60)) eqn:E.
  - apply ltb_iff in E. unfold Qlt, Qdiv, Qmult, Qinv in E.
    cbn [Qnum Qden inject_Z] in E. change (Z.pos (1 * 60)) with 60%Z in E.
    assert (4 <= minutes / 60)%Z by (apply Z.div_le_lower_bound; lia).
    change (PyNum.int 4) with 4%Z. lia.
  - apply ltb_false_iff in E. unfold Qle, Qdiv, Qmult, Qinv in E.
    cbn [Qnum Qden inject_Z] in E. change (Z.pos (1 * 60)) with 60%Z in E.
    assert (minutes / 60 <= 4)%Z.
    { apply Z.lt_succ_r. apply Z.div_lt_upper_bound; lia. }
    rewrite Hq. lia.
Qed.

Lemma heatmap_days_spec (d : list (Z * Z)) (n : nat) :
  forall current_date : Z,
    map HeatmapCell.date (heatmap_days d n current_date)
    = map (fun i => (current_date + Z.of_nat i)%Z) (seq 0 n)
    /\ Forall (fun c => HeatmapCell.minutes c = dict_get d (HeatmapCell.date c) 0%Z
                        /\ HeatmapCell.intensity c = intensity_of (HeatmapCell.minutes c))
              (heatmap_days d n current_date).
Proof.
  induction n as [| n IH]; intros current_date; simpl.
  - split; [reflexivity | constructor].
  - destruct (IH (current_date + 1)%Z) as [Hd Hc]. split.
    + rewrite Hd, Z.add_0_r. f_equal. rewrite <- seq_shift, map_map.
      apply map_ext. intros i. lia.
    + constructor; [split; reflexivity | exact Hc].
Qed.

(** X24.  [generate_heatmap] returns one cell per day from [weeks]
    weeks before the end date to the end date itself, in order, that
    is 7 * weeks + 1 cells; the minutes of a day are those of the last
    log given for that day, 0 without one, and for minutes that are not
    negative the intensity is the number of whole hours capped at 4. *)
Theorem generate_heatmap_cells (end_date : Z) (activity_logs : list DatedLog.t)
    (weeks : Z) :
  let cells := generate_heatmap end_date activity_logs weeks in
  List.length cells = Z.to_nat (7 * weeks + 1)
  /\ map HeatmapCell.date cells
     = map (fun i => (end_date - 7 * weeks + Z.of_nat i)%Z)
           (seq 0 (Z.to_nat (7 * weeks + 1)))
  /\ Forall
       (fun c =>
          HeatmapCell.minutes c = Spec.last_minutes activity_logs (HeatmapCell.date c)
          /\ ((0 <= HeatmapCell.minutes c)%Z ->
              HeatmapCell.intensity c = Z.min (HeatmapCell.minutes c / 60) 4
              /\ (0 <= HeatmapCell.intensity c <= 4)%Z))
       cells.
Proof.
  intros cells. subst cells. unfold generate_heatmap.
  replace (end_date - (end_date - 7 * weeks) + 1)%Z with (7 * weeks + 1)%Z by lia.
  destruct (heatmap_days_spec (activity_dict activity_logs)
              (Z.to_nat (7 * weeks + 1)) (end_date - 7 * weeks)%Z) as [Hd Hc].
  split; [| split].
  - apply (f_equal (@List.length Z)) in Hd. rewrite !length_map, length_seq in Hd.
    exact Hd.
  - exact Hd.
  - eapply Forall_impl; [| exact Hc].
    intros c [Hm Hi]. split.
    + rewrite Hm. apply activity_dict_get.
    + intros Hnn. rewrite Hi. now apply intensity_of_nonneg.
Qed.

End HeatmapExtras.

(* ================================================================= *)
(** ** Further properties: auth.py *)

Section RegistrationExtras.

Import Auth.

Lemma long_enough (s : option string) (n : nat) :
  0 < n ->
  falsy s || (String.length (text_of s) <? n)%nat = false
  <-> exists t, s = Some t /\ n <= String.length t.
Proof.
  intros Hn. destruct s as [t |]; simpl.
  - destruct (String.eqb_spec t "") as [-> | Hne]; simpl.
    + split; [discriminate |]. intros [t [E Hl]]. injection E as <-. simpl in Hl. lia.
    + rewrite Nat.ltb_ge. split.
      * intros H. now exists t.
      * intros [t' [E Hl]]. injection E as <-. exact Hl.
  - split; [discriminate | intros [t [E _]]; discriminate].
Qed.

Lemma has_at_sign (s : option string) :
  falsy s || negb (PyStr.contains "@" (text_of s)) = false
  <-> exists t, s = Some t /\ PyStr.contains "@" t = true.
Proof.
  destruct s as [t |]; simpl.
  - destruct (String.eqb_spec t "") as [-> | Hne]; simpl.
    + split; [discriminate |]. intros [t [E Hc]]. injection E as <-. discriminate.
    + rewrite negb_false_iff. split.
      * intros H. now exists t.
      * intros [t' [E Hc]]. injection E as <-. exact Hc.
  - split; [discriminate | intros [t [E _]]; discriminate].
Qed.

(** X25.  [validate_registration_data] returns no error exactly when
    the username has at least 3 characters, the email contains an at
    sign and the password has at least 6 characters; each of the three
    messages is returned exactly when its field fails, and they come in
    the order username, email, password. *)
Theorem validate_registration_data_accepts (data : Registration.t) :
  let errors := validate_registration_data data in
  let username_ok :=
    exists u, Registration.username data = Some u /\ 3 <= String.length u in
  let email_ok :=
    exists e, Registration.email data = Some e /\ PyStr.contains "@" e = true in
  let password_ok :=
    exists p, Registration.password data = Some p /\ 6 <= String.length p in
  (errors = [] <-> username_ok /\ email_ok /\ password_ok)
  /\ (In "Username must be at least 3 characters" errors <-> ~ username_ok)
  /\ (In "Valid email is required" errors <-> ~ email_ok)
  /\ (In "Password must be at least 6 characters" errors <-> ~ password_ok)
  /\ (exists u e p : bool,
        errors = (if u then ["Username must be at least 3 characters"] else [])
                 ++ (if e then ["Valid email is required"] else [])
                 ++ (if p then ["Password must be at least 6 characters"] else [])).
Proof.
  intros errors username_ok email_ok password_ok.
  subst errors username_ok email_ok password_ok.
  unfold validate_registration_data.
  pose proof (long_enough (Registration.username data) 3 ltac:(lia)) as Hu.
  pose proof (has_at_sign (Registration.email data)) as He.
  pose proof (long_enough (Registration.password data) 6 ltac:(lia)) as Hp.
  destruct (falsy (Registration.username data)
            || (String.length (text_of (Registration.username data)) <? 3)%nat);
    destruct (falsy (Registration.email data)
              || negb (PyStr.contains "@" (text_of (Registration.email data))));
    destruct (falsy (Registration.password data)
              || (String.length (text_of (Registration.password data)) <? 6)%nat);
    cbn [app];
    (split; [| split; [| split; [| split]]]);
    try solve [ split; [discriminate | intros (A & B & C);
                                        first [ apply Hu in A; discriminate
                                              | apply He in B; discriminate
                                              | apply Hp in C; discriminate ] ]
              | split; [intros _; repeat split; first [now apply Hu | now apply He
                                                      | now apply Hp]
                       | reflexivity]
              | split; [intros _ A; first [ apply Hu in A | apply He in A | apply Hp in A ];
                        discriminate
                       | intros _; simpl; tauto ]
              | split; [intros H; simpl in H; exfalso; intuition discriminate
                       | intros A; exfalso; apply A;
                         first [ now apply Hu | now apply He | now apply Hp ] ] ].
  all: first [ now exists true, true, true | now exists true, true, false
             | now exists true, false, true | now exists true, false, false
             | now exists false, true, true | now exists false, true, false
             | now exists false, false, true | now exists false, false, false ].
Qed.

End RegistrationExtras.
